(** * stadata-x: the statistics access layer ([stadata_x/api_client.py])

    A shallow embedding of [ApiClient] and of the Python values it handles,
    followed by the theorems that relate the embedding to the written
    specification of the access layer.

    Conventions of the embedding.
    - A coroutine of the client is a computation [M A]: a function from the
      state of the world to an outcome ([Ok] value or [Raise]d exception)
      and the state of the world afterwards.  An exception does not roll the
      world back, exactly as in Python.
    - The world holds the clock, the file system, the persisted
      configuration, the answers of the HTTP endpoint and the trace of the
      observable events (provider invocations, sleeps, HTTP requests, calls
      that make a directory or open a file for writing) in the order they
      happened.
    - The file system is a tree of regular files and directories, and the
      tree decides whether an operation on it succeeds: a directory cannot
      be opened as a file, an entry needs a directory to be made in, a
      regular file cannot become a directory.  Permissions, quotas and
      devices are not part of the world.
    - A Python string is a [string] whose characters stand for the code
      points below 256, a JSON number an integer; clock and file times are
      on one timeline, in microseconds.
    - [print] calls are not modelled: they neither fail nor influence the
      control flow. *)

From Stdlib Require Import ZArith String Ascii List Bool Lia.
From stdpp Require Import base option list gmap strings pretty.

Open Scope Z_scope.
Open Scope string_scope.

(** ** Exceptions *)

Module Py.

(** The exception classes that [api_client.py] raises, catches or lets
    through.  [HTTPError], [ConnectionError] and [Timeout] are the classes of
    [requests.exceptions]; [FileExistsError] is the class that the module
    itself declares (it shadows the builtin of the same name);
    [ApiTokenError], [BpsServerError], [NoInternetError] and
    [BpsApiDataError] are the module's own.  [OSError] stands for the builtin
    [IOError]/[OSError] family raised by file operations. *)
Inductive exn : Type :=
  | HTTPError (status_code : Z)
  | ConnectionError
  | Timeout
  | FileExistsError (filepath : string)
  | ApiTokenError (msg : string)
  | BpsServerError (msg : string)
  | NoInternetError (msg : string)
  | BpsApiDataError (msg : string)
  | OSError
  | JSONDecodeError
  | ValueError (msg : string)
  | TypeError
  | AttributeError
  | Exception (msg : string).

(** [isinstance(e, IOError)].  Every exception of [requests] derives from
    [RequestException], which derives from [IOError]. *)
Definition is_IOError (e : exn) : bool :=
  match e with
  | OSError | HTTPError _ | ConnectionError | Timeout => true
  | _ => false
  end.

(** [isinstance(e, json.JSONDecodeError)]. *)
Definition is_JSONDecodeError (e : exn) : bool :=
  match e with
  | JSONDecodeError => true
  | _ => false
  end.

Inductive Result (A : Type) : Type :=
  | Ok (a : A)
  | Raise (e : exn).
Arguments Ok {A} a.
Arguments Raise {A} e.

(** Sequencing of pure steps that may raise. *)
Definition and_then {A B} (r : Result A) (k : A -> Result B) : Result B :=
  match r with
  | Ok a => k a
  | Raise e => Raise e
  end.

End Py.
Export Py.

(** ** Python strings *)

Module Str.

(** [s[lo:hi]] for [0 <= lo <= hi]: the slice is clipped to the string, it
    never raises. *)
Definition slice (lo hi : nat) (s : string) : string :=
  substring lo (hi - lo) s.

(** The characters that [str.strip()] removes, among the code points below
    256: tab to carriage return (9-13), the four information separators
    (28-31), the space (32), the next-line control U+0085 and the no-break
    space U+00A0, which is what [html.unescape] makes of [&nbsp;]. *)
Definition is_space (c : ascii) : bool :=
  let n := nat_of_ascii c in
  ((9 <=? n)%nat && (n <=? 13)%nat) || ((28 <=? n)%nat && (n <=? 32)%nat)
  || (n =? 133)%nat || (n =? 160)%nat.

Fixpoint lstrip (s : string) : string :=
  match s with
  | String c s' => if is_space c then lstrip s' else s
  | EmptyString => EmptyString
  end.

Fixpoint rstrip (s : string) : string :=
  match s with
  | String c s' =>
      match rstrip s' with
      | EmptyString => if is_space c then EmptyString else String c EmptyString
      | t => String c t
      end
  | EmptyString => EmptyString
  end.

Definition strip (s : string) : string := rstrip (lstrip s).

(** [sep.join(parts)]. *)
Fixpoint join (sep : string) (parts : list string) : string :=
  match parts with
  | [] => ""
  | [p] => p
  | p :: rest => p ++ sep ++ join sep rest
  end.

(** [sub in s]. *)
Fixpoint contains (s sub : string) : bool :=
  if String.prefix sub s then true
  else match s with
       | String _ s' => contains s' sub
       | EmptyString => false
       end.

(** [bool(s)] for an optional string: [None] and [""] are falsy. *)
Definition truthy (o : option string) : bool :=
  match o with
  | Some s => negb (String.eqb s "")
  | None => false
  end.

End Str.

(** ** JSON documents and tables *)

(** A decoded JSON document ([json.load], [response.json()]).  Numbers are
    kept as integers; a Python [dict] is an association list in insertion
    order. *)
#[warnings="-register-all"]
Inductive Json : Type :=
  | JNull
  | JBool (b : bool)
  | JNum (n : Z)
  | JStr (s : string)
  | JList (items : list Json)
  | JObj (fields : list (string * Json)).

Module Dict.

(** Python dictionaries with string keys, in insertion order. *)
Definition t (V : Type) : Type := list (string * V).

Fixpoint get {V} (d : t V) (k : string) : option V :=
  match d with
  | [] => None
  | (k', v) :: d' => if String.eqb k' k then Some v else get d' k
  end.

(** [d[k] = v]: an existing key keeps its position, a new key goes last. *)
Fixpoint set {V} (d : t V) (k : string) (v : V) : t V :=
  match d with
  | [] => [(k, v)]
  | (k', v') :: d' =>
      if String.eqb k' k then (k', v) :: d' else (k', v') :: set d' k v
  end.

Definition keys {V} (d : t V) : list string := map fst d.

End Dict.

Module Frame.

(** A column or row label of a table. *)
Inductive Label : Type :=
  | LStr (s : string)
  | LInt (n : Z)
  | LNaN
  | LNone.

(** A cell: a missing value ([None], [NaN]) or a value, kept as JSON. *)
Inductive Cell : Type :=
  | NA
  | Val (v : Json).

(** [df.columns]: a flat [Index] or a hierarchical [MultiIndex], whose
    entries are tuples of labels. *)
Inductive Columns : Type :=
  | Index (labels : list Label)
  | MultiIndex (tuples : list (list Label)).

(** A [pandas.DataFrame]: the column index and the rows, each with its row
    label. *)
Record DataFrame : Type := mkDataFrame {
  columns : Columns;
  rows : list (Label * list Cell)
}.

Definition ncols (c : Columns) : nat :=
  match c with
  | Index labels => length labels
  | MultiIndex tuples => length tuples
  end.

(** [df.empty]: some axis has length zero. *)
Definition empty (df : DataFrame) : bool :=
  (ncols (columns df) =? 0)%nat || (length (rows df) =? 0)%nat.

(** [isinstance(df.columns, pd.MultiIndex)]. *)
Definition is_multi (c : Columns) : bool :=
  match c with
  | Index _ => false
  | MultiIndex _ => true
  end.

(** [str(x)]. *)
Definition str (x : Label) : string :=
  match x with
  | LStr s => s
  | LInt n => pretty n
  | LNaN => "nan"
  | LNone => "None"
  end.

(** [pd.isna(x)] and [pd.notna(x)]. *)
Definition isna (x : Label) : bool :=
  match x with
  | LNaN | LNone => true
  | _ => false
  end.

Definition notna (x : Label) : bool := negb (isna x).

(** [x == ""]. *)
Definition eq_empty_str (x : Label) : bool :=
  match x with
  | LStr s => String.eqb s ""
  | _ => false
  end.

Definition cell_notna (c : Cell) : bool :=
  match c with
  | NA => false
  | Val _ => true
  end.

(** [df.dropna(how='all')]: a row goes when it has no value at all. *)
Definition dropna_all (rs : list (Label * list Cell)) : list (Label * list Cell) :=
  List.filter (fun r => existsb cell_notna (snd r)) rs.

(** [df.reset_index(drop=True)]: the row labels become [0 .. n-1]. *)
Fixpoint renumber (i : nat) (rs : list (Label * list Cell)) : list (Label * list Cell) :=
  match rs with
  | [] => []
  | (_, cells) :: rs' => (LInt (Z.of_nat i), cells) :: renumber (S i) rs'
  end.

Definition reset_index (rs : list (Label * list Cell)) : list (Label * list Cell) :=
  renumber 0 rs.

End Frame.
Export Frame.

(** What a provider operation of the [stadata] client hands back: normally a
    table, sometimes a message or something else. *)
Inductive Value : Type :=
  | VDataFrame (df : DataFrame)
  | VStr (s : string)
  | VOther (type_name : string) (str : string).

(** ** The remote provider

    A provider operation with its arguments applied, as handed to
    [_api_call_with_retry].  [api_run f k] is what the operation does when it
    is invoked after [k] earlier provider invocations: it returns a value or
    raises.  Every deterministic provider, stateful or not, is of this form. *)
Record ApiFunction : Type := mkApiFunction {
  api_name : string;
  api_run : nat -> Result Value
}.

(** [stadata.Client]: the operations the access layer uses. *)
Record Client : Type := mkClient {
  list_domain : ApiFunction;
  list_statictable : list string -> ApiFunction;
  view_statictable : string -> string -> ApiFunction;
  list_dynamictable : list string -> ApiFunction
}.

(** ** Library functions *)

(** What a writer of [pandas] ([to_json], [to_csv], [to_excel]) makes of a
    table.  It puts out the whole text, or it raises: before it has put
    anything out ([partial] is [None]; [to_json] refuses a table with
    duplicate column labels this way), or after it has put out the text
    [partial]. *)
Inductive Rendering : Type :=
  | Rendered (text : string)
  | Broken (e : exn) (partial : option string).

(** The functions of [json], [pandas], [html], [pathlib] and [stadata] that
    the client calls are parameters of the development. *)
Class PyLib : Type := {
  (** [json.load(f)] on the content of the file *)
  json_load : string -> Result Json;
  (** [pd.DataFrame(data)] *)
  pd_DataFrame : Json -> Result DataFrame;
  (** [df.to_json(_, orient="records", indent=4)] *)
  to_json : DataFrame -> Rendering;
  (** [df.to_csv(_, index=False, encoding='utf-8-sig')] *)
  to_csv : DataFrame -> Rendering;
  (** [df.to_excel(_, index=False, engine='openpyxl')] *)
  to_excel : DataFrame -> Rendering;
  (** [html.unescape(s)] *)
  unescape : string -> string;
  (** [base / name] of [pathlib] *)
  path_join : string -> string -> string;
  (** [list(Path(path).parents)]: the directories above [path], the nearest
      first; none for a root *)
  parents : string -> list string;
  (** [Path.cwd()] *)
  cwd : string;
  (** [stadata.Client(token)] *)
  stadata_Client : string -> Result Client
}.

(** ** The world *)

(** A node of the file system, with [st_mtime] in microseconds since the
    epoch (the resolution of [datetime]).  The time of a regular file is
    that of its last opening for writing or write, the time of a directory
    that of the last entry made in it. *)
Inductive FsNode : Type :=
  | File (st_mtime : Z) (content : string)
  | Dir (st_mtime : Z).

(** The persisted configuration.  The module [stadata_x.config] is not
    among the sources at hand; what the client reads from it is taken as
    given: [config.CONFIG_DIR], [config.load_token()] and
    [config.load_config().get("download_path")]. *)
Record Config : Type := mkConfig {
  CONFIG_DIR : string;
  load_token : option string;
  download_path : option string
}.

(** The answer to an HTTP GET: the status line and what [response.json()]
    gives. *)
Record Response : Type := mkResponse {
  status_code : Z;
  json : Result Json
}.

Inductive Event : Type :=
  | EvInvoke (name : string)                     (* a provider operation ran *)
  | EvSleep (delay : Z)                          (* asyncio.sleep(delay) *)
  | EvHttpGet (url : string) (params : Dict.t string)  (* requests.get *)
  | EvMkdir (path : string)                      (* path.mkdir(...) was called *)
  | EvWrite (path : string).                     (* path was asked to be opened for writing *)

Record World : Type := mkWorld {
  clock : Z;                                     (* datetime.now(), in microseconds *)
  fs : gmap string FsNode;
  config : Config;
  endpoint : string -> Dict.t string -> Result Response;
  trace : list Event                             (* oldest event first *)
}.

Definition is_invoke (e : Event) : bool :=
  match e with EvInvoke _ => true | _ => false end.

(** The number of provider invocations made so far. *)
Definition invocations (w : World) : nat :=
  length (List.filter is_invoke (trace w)).

(** The delays slept so far, oldest first. *)
Definition sleeps (w : World) : list Z :=
  omap (fun e => match e with EvSleep d => Some d | _ => None end) (trace w).

Definition log (e : Event) (w : World) : World :=
  mkWorld (clock w) (fs w) (config w) (endpoint w) (trace w ++ [e]).

Definition set_fs (f : gmap string FsNode) (w : World) : World :=
  mkWorld (clock w) f (config w) (endpoint w) (trace w).

Definition advance (d : Z) (w : World) : World :=
  mkWorld (clock w + d) (fs w) (config w) (endpoint w) (trace w).

(** ** Computations *)

Definition M (A : Type) : Type := World -> Result A * World.

Definition ret {A} (a : A) : M A := fun w => (Ok a, w).

Definition raise {A} (e : exn) : M A := fun w => (Raise e, w).

Definition bind {A B} (m : M A) (k : A -> M B) : M B :=
  fun w =>
    match m w with
    | (Ok a, w') => k a w'
    | (Raise e, w') => (Raise e, w')
    end.

(** A value or exception computed without touching the world. *)
Definition lift {A} (r : Result A) : M A := fun w => (r, w).

(** [try: body / except ...:] where [handler e] is [Some h] when a clause
    matches [e] (its body is [h]) and [None] when no clause does, so that
    [e] propagates. *)
Definition try_except {A} (body : M A) (handler : exn -> option (M A)) : M A :=
  fun w =>
    match body w with
    | (Ok a, w') => (Ok a, w')
    | (Raise e, w') =>
        match handler e with
        | Some h => h w'
        | None => (Raise e, w')
        end
    end.

Declare Scope py_scope.
Delimit Scope py_scope with py.
Notation "x <- c ;; k" := (bind c (fun x => k))
  (at level 100, c at next level, right associativity) : py_scope.
Notation "c ;; k" := (bind c (fun _ => k))
  (at level 100, right associativity) : py_scope.
Open Scope py_scope.

(** *** Effects *)

Module Sys.

Definition microseconds_per_second : Z := 1000000.

(** [datetime.now()]. *)
Definition now : M Z := fun w => (Ok (clock w), w).

(** [await asyncio.sleep(delay)], [delay] in seconds. *)
Definition sleep (delay : Z) : M unit :=
  fun w => (Ok tt, advance (delay * microseconds_per_second) (log (EvSleep delay) w)).

(** [await asyncio.to_thread(api_function, *args, **kwargs)]. *)
Definition to_thread (f : ApiFunction) : M Value :=
  fun w => (api_run f (invocations w), log (EvInvoke (api_name f)) w).

(** [requests.get(url, params=params, timeout=30)]. *)
Definition requests_get (url : string) (params : Dict.t string) : M Response :=
  fun w => (endpoint w url params, log (EvHttpGet url params) w).

(** [path.exists()] and [path.is_dir()]. *)
Definition exists_ (path : string) : M bool :=
  fun w => (Ok (bool_decide (is_Some (fs w !! path))), w).

Definition is_dir (path : string) : M bool :=
  fun w => (Ok match fs w !! path with Some (Dir _) => true | _ => false end, w).

(** [path.stat().st_mtime], through [datetime.fromtimestamp]. *)
Definition stat_mtime (path : string) : M Z :=
  fun w =>
    match fs w !! path with
    | Some (File t _) | Some (Dir t) => (Ok t, w)
    | None => (Raise OSError, w)
    end.

(** [with open(path, "r") as f: f.read()]. *)
Definition read_text (path : string) : M string :=
  fun w =>
    match fs w !! path with
    | Some (File _ content) => (Ok content, w)
    | Some (Dir _) | None => (Raise OSError, w)
    end.

(** *** Writing to the file system

    Whether an operation succeeds is read off the tree; a failure is one of
    the builtin [OSError] family ([FileNotFoundError], [NotADirectoryError],
    [IsADirectoryError], the builtin [FileExistsError]). *)

Section WithLibrary.
Context {lib : PyLib}.

(** The entry [path] is made in the directory [up], whose time moves. *)
Definition enter (up path : string) (node : FsNode) (w : World) : World :=
  set_fs (<[path := node]> (<[up := Dir (clock w)]> (fs w))) w.

(** The body of [Path.mkdir(parents=True, exist_ok=True)] for [path] below
    [ancestors].  [os.mkdir(path)] raises [FileExistsError] on an entry that
    is there, which is swallowed for a directory and raised again for a
    regular file.  On a missing entry it needs the directory above: that one
    is made first when it is missing ([FileNotFoundError], then
    [self.parent.mkdir(parents=True, exist_ok=True)] and [os.mkdir] again),
    and a regular file in its place makes the call fail
    ([NotADirectoryError]). *)
Fixpoint makedirs (path : string) (ancestors : list string) : M unit :=
  fun w =>
    match fs w !! path with
    | Some (Dir _) => (Ok tt, w)
    | Some (File _ _) => (Raise OSError, w)
    | None =>
        match ancestors with
        | up :: above =>
            match makedirs up above w with
            | (Ok _, w') => (Ok tt, enter up path (Dir (clock w')) w')
            | (Raise e, w') => (Raise e, w')
            end
        | [] => (Raise OSError, w)
        end
    end.

(** [path.mkdir(parents=True, exist_ok=True)]. *)
Definition mkdir (path : string) : M unit :=
  fun w => makedirs path (parents path) (log (EvMkdir path) w).

(** [open(path, "w")]: a regular file is emptied, a missing one is made,
    empty, in the directory above; a directory at [path]
    ([IsADirectoryError]) or no directory above it ([FileNotFoundError],
    [NotADirectoryError]) makes the call fail. *)
Definition open_w (path : string) : M unit :=
  fun w =>
    let w := log (EvWrite path) w in
    match fs w !! path with
    | Some (Dir _) => (Raise OSError, w)
    | Some (File _ _) => (Ok tt, set_fs (<[path := File (clock w) ""]> (fs w)) w)
    | None =>
        match parents path with
        | up :: _ =>
            match fs w !! up with
            | Some (Dir _) => (Ok tt, enter up path (File (clock w) "") w)
            | _ => (Raise OSError, w)
            end
        | [] => (Raise OSError, w)
        end
    end.

(** [f.write(text)] on the file opened at [path], and its closing. *)
Definition write (path : string) (text : string) : M unit :=
  fun w => (Ok tt, set_fs (<[path := File (clock w) text]> (fs w)) w).

(** A writer of [pandas] handed the open file [f] of [path], as in
    [df.to_json(f, ...)]. *)
Definition to_handle (path : string) (r : Rendering) : M unit :=
  match r with
  | Rendered text => write path text
  | Broken e None => raise e
  | Broken e (Some partial) => write path partial ;; raise e
  end.

(** A writer of [pandas] handed the path itself, as in
    [df.to_csv(filepath, ...)]: it opens the file when it starts to put text
    out. *)
Definition to_file (path : string) (r : Rendering) : M unit :=
  match r with
  | Rendered text => open_w path ;; write path text
  | Broken e None => raise e
  | Broken e (Some partial) => open_w path ;; write path partial ;; raise e
  end.

End WithLibrary.

End Sys.

(** ** The client *)

Module ApiClient.
Import Sys.

Section WithLibrary.
Context {lib : PyLib}.

Record t : Type := mk {
  token : option string;
  client : option Client
}.

(** [CACHE_FILE = config.CONFIG_DIR / "domain_cache.json"]. *)
Definition CACHE_FILE (cfg : Config) : string :=
  path_join (CONFIG_DIR cfg) "domain_cache.json".

(** [CACHE_DURATION = timedelta(days=7)], in microseconds. *)
Definition CACHE_DURATION : Z := 7 * 86400 * microseconds_per_second.

Definition get_config : M Config := fun w => (Ok (config w), w).

(** [ApiClient(token)]. *)
Definition __init__ (tok : option string) : M t :=
  cfg <- get_config ;;
  let token := if Str.truthy tok then tok else load_token cfg in
  let client :=
    match token with
    | Some s =>
        if Str.truthy token then
          match stadata_Client s with
          | Ok c => Some c
          | Raise _ => None
          end
        else None
    | None => None
    end in
  ret (mk token client).

Definition is_ready (self : t) : bool :=
  match client self with
  | Some _ => true
  | None => false
  end.

(** [self.client.<operation>]: the attribute access fails on [None]. *)
Definition the_client (self : t) : M Client :=
  match client self with
  | Some c => ret c
  | None => raise AttributeError
  end.

(** *** The retrying invoker *)

Definition max_retries : nat := 3.
Definition base_delay : Z := 1.

(** The body of [for attempt in range(max_retries)], and after the loop the
    final [raise BpsServerError]. *)
Fixpoint retry_loop (api_function : ApiFunction) (attempts : list nat) : M Value :=
  match attempts with
  | [] => raise (BpsServerError "Gagal mengambil data setelah beberapa kali percobaan.")
  | attempt :: rest =>
      try_except
        (result <- to_thread api_function ;;
         ret result)
        (fun e =>
           match e with
           | HTTPError status =>
               Some (if (status =? 429)%Z then
                       if (attempt <? max_retries - 1)%nat then
                         let delay := base_delay * 2 ^ Z.of_nat attempt in
                         sleep delay ;;
                         retry_loop api_function rest
                       else raise e
                     else raise e)
           | _ => Some (raise e)
           end)
  end.

Definition _api_call_with_retry (api_function : ApiFunction) : M Value :=
  retry_loop api_function (seq 0 max_retries).

(** *** The decorator [handle_api_errors] *)

Definition reclassify {A} (e : exn) : option (M A) :=
  match e with
  | ConnectionError => Some (raise (NoInternetError "Tidak ada koneksi internet."))
  | HTTPError status =>
      Some (if (status =? 401)%Z then raise (ApiTokenError "Token API tidak valid.")
            else if (status >=? 500)%Z then raise (BpsServerError "Server BPS sedang mengalami masalah.")
            else raise e)
  | Timeout => Some (raise (NoInternetError "Koneksi ke server BPS timeout."))
  | _ => None
  end.

Definition handle_api_errors {A} (self : t) (func : M A) : M A :=
  if negb (is_ready self) then raise (ApiTokenError "Token API tidak diatur.")
  else try_except func reclassify.

(** *** The domain cache *)

(** [df.empty] on whatever the provider returned. *)
Definition attr_empty (v : Value) : M bool :=
  match v with
  | VDataFrame df => ret (empty df)
  | _ => raise AttributeError
  end.

(** [df.to_json(f, orient="records", indent=4)] on whatever the provider
    returned, [f] being the open file of [path]. *)
Definition attr_to_json (v : Value) (path : string) : M unit :=
  match v with
  | VDataFrame df => to_handle path (to_json df)
  | _ => raise AttributeError
  end.

(** The first half of [list_domains]: [Some df] is the [return] out of the
    cache, [None] falls through to the provider. *)
Definition read_cache : M (option Value) :=
  cfg <- get_config ;;
  present <- exists_ (CACHE_FILE cfg) ;;
  if present then
    try_except
      (t_now <- now ;;
       mtime <- stat_mtime (CACHE_FILE cfg) ;;
       let cache_age := t_now - mtime in
       if (cache_age <? CACHE_DURATION)%Z then
         text <- read_text (CACHE_FILE cfg) ;;
         data <- lift (json_load text) ;;
         df <- lift (pd_DataFrame data) ;;
         ret (Some (VDataFrame df))
       else ret None)
      (fun e => if is_IOError e || is_JSONDecodeError e then Some (ret None) else None)
  else ret None.

(** The body of [if not df.empty:]: the directory is made, the cache file
    is opened, which empties it, and the table is written through the open
    file. *)
Definition store_cache (df : Value) : M unit :=
  cfg <- get_config ;;
  mkdir (CONFIG_DIR cfg) ;;
  open_w (CACHE_FILE cfg) ;;
  attr_to_json df (CACHE_FILE cfg).

(** The second half of [list_domains], from [if not self.is_ready] on. *)
Definition fetch_domains (self : t) : M Value :=
  if negb (is_ready self) then raise (ApiTokenError "Token API tidak diatur.")
  else
    try_except
      (c <- the_client self ;;
       df <- _api_call_with_retry (list_domain c) ;;
       is_empty <- attr_empty df ;;
       (if negb is_empty then store_cache df else ret tt) ;;
       ret df)
      reclassify.

Definition list_domains (self : t) : M Value :=
  cached <- read_cache ;;
  match cached with
  | Some df => ret df
  | None => fetch_domains self
  end.

(** *** Static and dynamic table listings *)

Definition list_static_tables (self : t) (domain_id : string) : M Value :=
  handle_api_errors self
    (c <- the_client self ;;
     _api_call_with_retry (list_statictable c [domain_id])).

(** The message of [view_static_table] for a result that is no table, from
    [type(result).__name__] and [str(result)[:500]]. *)
Definition unexpected_data (type_name str : string) : string :=
  "API BPS mengembalikan data tak terduga (tipe: " ++ type_name ++ "): "
  ++ Str.slice 0 500 str.

Definition view_static_table (self : t) (domain_id table_id : string) : M DataFrame :=
  handle_api_errors self
    (c <- the_client self ;;
     result <- _api_call_with_retry (view_statictable c domain_id table_id) ;;
     match result with
     | VDataFrame df =>
         if empty df then raise (BpsApiDataError "Tabel BPS kosong atau tidak tersedia")
         else ret df
     | VStr s => raise (BpsApiDataError (unexpected_data "str" s))
     | VOther type_name str => raise (BpsApiDataError (unexpected_data type_name str))
     end).

Definition list_dynamic_tables (self : t) (domain_id : string) : M Value :=
  handle_api_errors self
    (c <- the_client self ;;
     _api_call_with_retry (list_dynamictable c [domain_id])).

(** *** The dynamic metadata aggregator *)

Record Metadata : Type := mkMetadata {
  vertical_vars : list (Dict.t Json);
  horizontal_vars : list (Dict.t Json);
  years : list (Dict.t Json);
  derived_years : list (Dict.t Json);
  source_domain : string
}.

Definition base_url : string := "https://webapi.bps.go.id/v1/api/list".

(** [response.raise_for_status()]. *)
Definition raise_for_status (response : Response) : M unit :=
  if (400 <=? status_code response)%Z && (status_code response <? 600)%Z
  then raise (HTTPError (status_code response))
  else ret tt.

(** The inner [fetch(model)] of [fetch_for_domain]. *)
Definition fetch (params : Dict.t string) (model : string) : M Json :=
  response <- requests_get base_url (Dict.set params "model" model) ;;
  raise_for_status response ;;
  lift (json response).

(** [await asyncio.gather(a, b, c, d)] over four [asyncio.to_thread]: the
    four requests are all issued.  The threads run side by side; the model
    follows the schedule in which they run in argument order, so the
    requests appear in the trace in that order, and when several of them
    raise, the exception that comes out is the first one in that order. *)
Definition gather4 {A} (a b c d : M A) : M (A * A * A * A) :=
  fun w =>
    let '(ra, w1) := a w in
    let '(rb, w2) := b w1 in
    let '(rc, w3) := c w2 in
    let '(rd, w4) := d w3 in
    (and_then ra (fun x => and_then rb (fun y => and_then rc (fun z =>
       and_then rd (fun u => Ok (x, y, z, u))))), w4).

(** [src in item] and then [item[src]], for an [item] of any JSON type:
    [Ok None] when [src] is not in [item]. *)
Definition item_get (item : Json) (src : string) : Result (option Json) :=
  match item with
  | JObj fields => Ok (Dict.get fields src)
  | JStr s => if Str.contains s src then Raise TypeError else Ok None
  | JList items =>
      if existsb (fun x => match x with JStr s => String.eqb s src | _ => false end) items
      then Raise TypeError else Ok None
  | JNull | JBool _ | JNum _ => Raise TypeError
  end.

(** [for src, dst in mapping.items(): if src in item: new_item[dst] = item[src]]. *)
Fixpoint map_fields (item : Json) (mapping : Dict.t string) (new_item : Dict.t Json)
  : Result (Dict.t Json) :=
  match mapping with
  | [] => Ok new_item
  | (src, dst) :: rest =>
      and_then (item_get item src) (fun found =>
        match found with
        | Some v => map_fields item rest (Dict.set new_item dst v)
        | None => map_fields item rest new_item
        end)
  end.

(** [for item in data[1]: ... if new_item: items.append(new_item)]. *)
Fixpoint collect_items (data1 : list Json) (mapping : Dict.t string) (items : list (Dict.t Json))
  : Result (list (Dict.t Json)) :=
  match data1 with
  | [] => Ok items
  | item :: rest =>
      and_then (map_fields item mapping []) (fun new_item =>
        match new_item with
        | [] => collect_items rest mapping items
        | _ => collect_items rest mapping (items ++ [new_item])
        end)
  end.

Definition extract_list (data_json : Json) (mapping : Dict.t string)
  : Result (list (Dict.t Json)) :=
  match data_json with
  | JObj fields =>
      match Dict.get fields "data-availability" with
      | Some (JStr "available") =>
          match Dict.get fields "data" with
          | Some (JList [_; JList data1]) => collect_items data1 mapping []
          | _ => Ok []
          end
      | _ => Ok []
      end
  | _ => Raise AttributeError
  end.

(** [if "label" in item and isinstance(item["label"], str):
       item["label"] = unescape(item["label"]).strip()]. *)
Definition clean_label (item : Dict.t Json) : Dict.t Json :=
  match Dict.get item "label" with
  | Some (JStr label) => Dict.set item "label" (JStr (Str.strip (unescape label)))
  | _ => item
  end.

Definition vervar_mapping : Dict.t string :=
  [("item_ver_id", "id"); ("vervar", "label"); ("kode_ver_id", "code");
   ("group_ver_id", "group"); ("name_group_ver_id", "group_name")].

Definition turvar_mapping : Dict.t string :=
  [("turvar_id", "id"); ("turvar", "label"); ("group_turvar_id", "group");
   ("name_group_turvar", "group_name")].

Definition th_mapping : Dict.t string :=
  [("th_id", "id"); ("th", "label")].

Definition turth_mapping : Dict.t string :=
  [("turth_id", "id"); ("turth", "label"); ("group_turth_id", "group");
   ("name_group_turth", "group_name")].

Definition fetch_for_domain (token var_id target_domain : string) : M Metadata :=
  let params := [("domain", target_domain); ("var", var_id); ("key", token)] in
  jsons <- gather4 (fetch params "vervar") (fetch params "turvar")
                   (fetch params "th") (fetch params "turth") ;;
  let '(vervar_json, turvar_json, th_json, turth_json) := jsons in
  vertical_vars <- lift (extract_list vervar_json vervar_mapping) ;;
  horizontal_vars <- lift (extract_list turvar_json turvar_mapping) ;;
  years <- lift (extract_list th_json th_mapping) ;;
  derived_years <- lift (extract_list turth_json turth_mapping) ;;
  ret (mkMetadata (map clean_label vertical_vars) (map clean_label horizontal_vars)
         (map clean_label years) (map clean_label derived_years) target_domain).

(** [bool(l)] for a list. *)
Definition nonempty {A} (l : list A) : bool :=
  match l with
  | [] => false
  | _ => true
  end.

(** [not m["vertical_vars"] or not m["horizontal_vars"] or not m["years"]]. *)
Definition incomplete (m : Metadata) : bool :=
  negb (nonempty (vertical_vars m)) || negb (nonempty (horizontal_vars m))
  || negb (nonempty (years m)).

Definition set_source_domain (m : Metadata) (d : string) : Metadata :=
  mkMetadata (vertical_vars m) (horizontal_vars m) (years m) (derived_years m) d.

(** The fallback step of [get_dynamic_table_metadata]: the value of
    [metadata] after the first [if]. *)
Definition resolve_fallback (token var_id domain_id : string) (metadata : Metadata)
  : M Metadata :=
  if incomplete metadata && negb (String.eqb domain_id "0000") then
    fallback_metadata <- fetch_for_domain token var_id "0000" ;;
    if nonempty (vertical_vars fallback_metadata)
       && nonempty (horizontal_vars fallback_metadata)
       && nonempty (years fallback_metadata)
    then ret (set_source_domain fallback_metadata "0000")
    else ret metadata
  else ret metadata.

Definition get_dynamic_table_metadata (self : t) (domain_id var_id : string) : M Metadata :=
  handle_api_errors self
    (cfg <- get_config ;;
     match load_token cfg with
     | Some token =>
         if negb (Str.truthy (Some token)) then raise (ApiTokenError "Token API tidak diatur.")
         else
           metadata <- fetch_for_domain token var_id domain_id ;;
           metadata <- resolve_fallback token var_id domain_id metadata ;;
           if incomplete metadata
           then raise (BpsApiDataError "Metadata tabel dinamis tidak tersedia untuk parameter tersebut.")
           else ret metadata
     | None => raise (ApiTokenError "Token API tidak diatur.")
     end).

(** *** The dynamic data decoder *)

Definition _decode_datacontent_key (key : string) : Dict.t string :=
  [("domain", Str.slice 0 4 key);
   ("year", Str.slice 4 6 key);
   ("vertical_group", Str.slice 6 8 key);
   ("vertical_item", Str.slice 8 13 key);
   ("horizontal", Str.slice 13 16 key);
   ("derived", Str.slice 16 19 key)].

(** One record of [get_dynamic_table_data]: the decoded segments, then
    [value] and [raw_key]. *)
Definition decode_record (key : string) (value : Json) : Dict.t Json :=
  let decoded := map (fun kv => (fst kv, JStr (snd kv))) (_decode_datacontent_key key) in
  Dict.set (Dict.set decoded "value" value) "raw_key" (JStr key).

Definition get_dynamic_table_data (self : t) (domain_id var_id vertical_var_id year : string)
    (horizontal_var_ids vertical_var_item_ids : list string) (source_domain : option string)
  : M DataFrame :=
  handle_api_errors self
    (cfg <- get_config ;;
     match load_token cfg with
     | Some token =>
         if negb (Str.truthy (Some token)) then raise (ApiTokenError "Token API tidak diatur.")
         else
           let effective_domain :=
             match source_domain with
             | Some d => if Str.truthy source_domain then d else domain_id
             | None => domain_id
             end in
           let params := [("model", "data"); ("domain", effective_domain); ("var", var_id);
                          ("key", token); ("th", year)] in
           let params := if Str.truthy (Some vertical_var_id)
                         then Dict.set params "vervar" vertical_var_id else params in
           let params := if nonempty horizontal_var_ids
                         then Dict.set params "turvar" (Str.join ";" horizontal_var_ids)
                         else params in
           let params := if nonempty vertical_var_item_ids
                         then Dict.set params "turth" (Str.join ";" vertical_var_item_ids)
                         else params in
           response <- requests_get base_url params ;;
           raise_for_status response ;;
           result <- lift (json response) ;;
           match result with
           | JObj fields =>
               match Dict.get fields "data-availability" with
               | Some (JStr "available") =>
                   match Dict.get fields "datacontent" with
                   | Some (JObj datacontent) =>
                       let records :=
                         map (fun kv => JObj (decode_record (fst kv) (snd kv))) datacontent in
                       df <- lift (pd_DataFrame (JList records)) ;;
                       if empty df then raise (BpsApiDataError "Data tabel dinamis kosong.")
                       else ret df
                   | _ => raise (BpsApiDataError
                                   "Respons API tidak mengandung datacontent yang valid.")
                   end
               | _ => raise (BpsApiDataError
                               "Data tabel dinamis tidak tersedia untuk parameter tersebut.")
               end
           | _ => raise AttributeError
           end
     | None => raise (ApiTokenError "Token API tidak diatur.")
     end).

(** *** The table export pipeline *)

(** [' '.join(str(x) for x in col if pd.notna(x) and str(x) != 'nan').strip()]
    for one tuple of a hierarchical header. *)
Definition flatten_column (col : list Label) : string :=
  Str.strip
    (Str.join " "
       (map str (List.filter (fun x => notna x && negb (String.eqb (str x) "nan")) col))).

(** [[f"Unnamed_{i}" if col == "" or pd.isna(col) else str(col)
      for i, col in enumerate(df.columns)]], from position [i] on. *)
Fixpoint name_columns (i : nat) (cols : list Label) : list Label :=
  match cols with
  | [] => []
  | col :: rest =>
      (if eq_empty_str col || isna col then LStr ("Unnamed_" ++ pretty i)
       else LStr (str col)) :: name_columns (S i) rest
  end.

(** [_clean_bps_dataframe]: the table it returns.  The coroutine awaits
    nothing and touches nothing but its argument, whose [columns] it
    replaces in place by the same labels the result carries.  On the tables
    of the model no step raises, so the [except Exception: return df] branch
    has no counterpart here. *)
Definition _clean_bps_dataframe (df : DataFrame) : DataFrame :=
  let cols :=
    match columns df with
    | MultiIndex tuples => map (fun col => LStr (flatten_column col)) tuples
    | Index labels => labels
    end in
  let cols := name_columns 0 cols in
  let kept := dropna_all (rows df) in
  mkDataFrame (Index cols) (reset_index kept).

Definition download_table (self : t) (domain_id table_id filename format : string)
    (overwrite : bool) : M string :=
  if negb (is_ready self) then raise (ApiTokenError "Token API tidak diatur.")
  else
    df <- view_static_table self domain_id table_id ;;
    (if empty df then raise (Exception "Data tabel kosong atau tidak ditemukan")
     else ret tt) ;;
    let df_clean := _clean_bps_dataframe df in
    cfg <- get_config ;;
    base_path <-
      match download_path cfg with
      | Some config_path =>
          if Str.truthy (Some config_path) then
            d <- is_dir config_path ;;
            ret (if d then config_path else cwd)
          else ret cwd
      | None => ret cwd
      end ;;
    let filepath := path_join base_path filename in
    present <- exists_ filepath ;;
    if present && negb overwrite then raise (FileExistsError filepath)
    else
      (if String.eqb format "csv" then to_file filepath (to_csv df_clean)
       else if String.eqb format "xlsx" then to_file filepath (to_excel df_clean)
       else if String.eqb format "json" then to_file filepath (to_json df_clean)
       else raise (ValueError ("Format tidak didukung: " ++ format))) ;;
      ret filepath.

End WithLibrary.
End ApiClient.

(** ** A small library and world to run the client on

    Stand-ins for the library functions, defined on a handful of inputs on
    which they agree with the real ones in kind: [pd.DataFrame] accepts a
    list and refuses a scalar, [json.load] refuses what is not JSON,
    [to_json] refuses a table with two columns of the same label, the
    directories above an absolute path are read off its text. *)

Module Demo.

Definition parse (text : string) : Result Json :=
  if String.eqb text "[]" then Ok (JList [])
  else if String.eqb text "[1]" then Ok (JList [JNum 1])
  else if String.eqb text "7" then Ok (JNum 7)
  else Raise JSONDecodeError.

Definition frame_of (data : Json) : Result DataFrame :=
  match data with
  | JList [] => Ok (mkDataFrame (Index []) [])
  | JList [JNum n] => Ok (mkDataFrame (Index [LInt 0]) [(LInt 0, [Val (JNum n)])])
  | _ => Raise (ValueError "DataFrame constructor not properly called!")
  end.

Definition labels (df : DataFrame) : list string :=
  match columns df with
  | Index ls => map str ls
  | MultiIndex ts => map (fun t => Str.join "/" (map str t)) ts
  end.

Definition render (kind : string) (df : DataFrame) : string :=
  kind ++ ":" ++ Str.join "," (labels df) ++ ":" ++ pretty (length (rows df)).

Fixpoint has_duplicates (names : list string) : bool :=
  match names with
  | [] => false
  | name :: rest => existsb (String.eqb name) rest || has_duplicates rest
  end.

(** [to_json(orient="records")] needs the column labels to be unique. *)
Definition render_json (df : DataFrame) : Rendering :=
  if has_duplicates (labels df)
  then Broken (ValueError "DataFrame columns must be unique for orient='records'.") None
  else Rendered (render "json" df).

(** The text of [rest] before each of its [/], after [seen]; the root is
    written [/]. *)
Fixpoint cuts (seen rest : string) : list string :=
  match rest with
  | EmptyString => []
  | String c rest' =>
      (if Ascii.eqb c "/" then [if String.eqb seen "" then "/" else seen] else [])
      ++ cuts (seen ++ String c "") rest'
  end.

(** The directories above an absolute path, the nearest first. *)
Definition ancestors (path : string) : list string :=
  if String.eqb path "/" then [] else rev (cuts "" path).

Definition lib : PyLib := {|
  json_load := parse;
  pd_DataFrame := frame_of;
  to_json := render_json;
  to_csv := fun df => Rendered (render "csv" df);
  to_excel := fun df => Rendered (render "xlsx" df);
  unescape := fun s => s;
  path_join := fun base name => base ++ "/" ++ name;
  parents := ancestors;
  cwd := "/home/user";
  stadata_Client := fun _ => Raise (Exception "no provider")
|}.

(** A provider operation that answers HTTP 429 to the invocations numbered
    below [k] and [v] from then on. *)
Definition rate_limited (name : string) (k : nat) (v : Value) : ApiFunction :=
  mkApiFunction name (fun i => if (i <? k)%nat then Raise (HTTPError 429) else Ok v).

Definition domains : DataFrame :=
  mkDataFrame (Index [LStr "domain_id"; LStr "domain_name"])
    [(LInt 0, [Val (JStr "0000"); Val (JStr "Indonesia")]);
     (LInt 1, [Val (JStr "1100"); Val (JStr "Aceh")])].

Definition provider (k : nat) : Client :=
  mkClient (rate_limited "list_domain" k (VDataFrame domains))
           (fun _ => rate_limited "list_statictable" k (VDataFrame domains))
           (fun _ _ => rate_limited "view_statictable" k (VDataFrame domains))
           (fun _ => rate_limited "list_dynamictable" k (VDataFrame domains)).

Definition ready (k : nat) : ApiClient.t := ApiClient.mk (Some "secret") (Some (provider k)).
Definition unready : ApiClient.t := ApiClient.mk None None.

Definition cfg : Config := mkConfig "/home/user/.stadata-x" (Some "secret") None.

Definition offline (url : string) (params : Dict.t string) : Result Response :=
  Raise ConnectionError.

Definition cache_path : string := "/home/user/.stadata-x/domain_cache.json".

(** Worlds at clock [t] whose only file, if any, is the cache file. *)
Definition no_cache (t : Z) : World := mkWorld t ∅ cfg offline [].

Definition with_cache (t mtime : Z) (text : string) : World :=
  mkWorld t {[ cache_path := File mtime text ]} cfg offline [].

(** A provider that cannot be reached. *)
Definition unreachable (name : string) : ApiFunction :=
  mkApiFunction name (fun _ => Raise ConnectionError).

Definition cut_off : ApiClient.t :=
  ApiClient.mk (Some "secret")
    (Some (mkClient (unreachable "list_domain") (fun _ => unreachable "list_statictable")
             (fun _ _ => unreachable "view_statictable")
             (fun _ => unreachable "list_dynamictable"))).

(** A world whose working directory already holds [table.csv]. *)
Definition with_export (t : Z) : World :=
  mkWorld t {[ "/home/user/table.csv" := File 0 "old bytes" ]} cfg offline [].

(** An endpoint that knows the variable at the national level only: the
    reference lists of domain 0000 are there, those of any other domain
    are not. *)
Definition available (items : list Json) : Json :=
  JObj [("data-availability", JStr "available"); ("data", JList [JObj []; JList items])].

Definition not_available : Json :=
  JObj [("data-availability", JStr "list-not-available")].

Definition national_lists (model : string) : Json :=
  if String.eqb model "vervar" then
    available [JObj [("item_ver_id", JNum 9999); ("vervar", JStr " INDONESIA ")]]
  else if String.eqb model "turvar" then
    available [JObj [("turvar_id", JNum 0); ("turvar", JStr "Tidak ada")]]
  else if String.eqb model "th" then
    available [JObj [("th_id", JNum 123); ("th", JStr "2023")]]
  else not_available.

Definition national_only (url : string) (params : Dict.t string) : Result Response :=
  match Dict.get params "domain", Dict.get params "model" with
  | Some domain, Some model =>
      Ok (mkResponse 200
            (Ok (if String.eqb domain "0000" then national_lists model else not_available)))
  | _, _ => Ok (mkResponse 400 (Raise JSONDecodeError))
  end.

(** An endpoint that has the variable nowhere. *)
Definition nowhere (url : string) (params : Dict.t string) : Result Response :=
  Ok (mkResponse 200 (Ok not_available)).

Definition online (answers : string -> Dict.t string -> Result Response) : World :=
  mkWorld 0 ∅ cfg answers [].

End Demo.

(** ** Vocabulary of the properties *)

Module Spec.
Import ApiClient.

Section WithLibrary.
Context {lib : PyLib}.

(** The cache file is a regular file last written at [mtime] that holds
    [text]. *)
Definition cache_file (w : World) (mtime : Z) (text : string) : Prop :=
  fs w !! CACHE_FILE (config w) = Some (File mtime text).

(** The states of the cache in which it cannot be served: there is no cache
    file, the file is at least 7 days old, or loading it raises one of the
    exceptions that stand for a failed read ([IOError]) or for malformed
    content ([json.JSONDecodeError]); a directory in the place of the cache
    file is such a state, since it is too old or cannot be opened
    ([IsADirectoryError]). *)
Inductive cache_miss (w : World) : Prop :=
  | miss_absent :
      fs w !! CACHE_FILE (config w) = None -> cache_miss w
  | miss_stale mtime text :
      cache_file w mtime text -> CACHE_DURATION <= clock w - mtime -> cache_miss w
  | miss_corrupt mtime text e :
      cache_file w mtime text -> json_load text = Raise e ->
      is_IOError e || is_JSONDecodeError e = true -> cache_miss w
  | miss_unreadable mtime :
      fs w !! CACHE_FILE (config w) = Some (Dir mtime) -> cache_miss w.

(** [w'] continues [w]: its trace is the trace of [w] followed by
    [events]. *)
Definition appends (w w' : World) (events : list Event) : Prop :=
  trace w' = (trace w ++ events)%list.

(** The world is the same but for the clock and the trace. *)
Definition same_store (w w' : World) : Prop :=
  fs w' = fs w /\ config w' = config w /\ endpoint w' = endpoint w.

(** [seg] is [key[lo:hi]] for a range that lies inside [key]. *)
Definition is_range (key : string) (lo hi : nat) (seg : string) : Prop :=
  String.length seg = (hi - lo)%nat
  /\ forall i, (i < hi - lo)%nat -> String.get i seg = String.get (lo + i) key.

(** [seg] is [key[lo:hi]] clipped to the length of [key]. *)
Definition is_clipped_range (key : string) (lo hi : nat) (seg : string) : Prop :=
  String.length seg = (Nat.min hi (String.length key) - Nat.min lo (String.length key))%nat
  /\ forall i, (i < String.length seg)%nat -> String.get i seg = String.get (lo + i) key.

(** The four requests of one [fetch_for_domain], in the order of its
    [gather]. *)
Definition metadata_requests (token var_id target_domain : string) : list Event :=
  map (fun model =>
         EvHttpGet base_url
           [("domain", target_domain); ("var", var_id); ("key", token); ("model", model)])
      ["vervar"; "turvar"; "th"; "turth"].

(** The message of [MetadataUnavailable]. *)
Definition metadata_unavailable : exn :=
  BpsApiDataError "Metadata tabel dinamis tidak tersedia untuk parameter tersebut.".

(** A column label that normalization leaves alone: a string that is not
    empty. *)
Definition named (col : Label) : Prop :=
  exists s, col = LStr s /\ s <> ""%string.

(** A row that [dropna(how='all')] keeps. *)
Definition has_value (r : Label * list Cell) : Prop :=
  existsb cell_notna (snd r) = true.

(** The path [download_table] writes to: [filename] under the configured
    download directory when there is one, else under the working
    directory. *)
Definition destination (w : World) (filename : string) : string :=
  let base_path :=
    match download_path (config w) with
    | Some config_path =>
        if Str.truthy (Some config_path)
        then match fs w !! config_path with
             | Some (Dir _) => config_path
             | _ => cwd
             end
        else cwd
    | None => cwd
    end in
  path_join base_path filename.

(** [path] is a directory, a regular file of the tree [f]. *)
Definition is_directory (f : gmap string FsNode) (path : string) : Prop :=
  exists t, f !! path = Some (Dir t).

Definition is_file (f : gmap string FsNode) (path : string) : Prop :=
  exists t text, f !! path = Some (File t text).

(** From [f] to [f'] no regular file has changed, appeared or gone, but
    possibly the one at [path]: the others have their time and their
    bytes. *)
Definition same_files_but (path : string) (f f' : gmap string FsNode) : Prop :=
  forall p, p <> path ->
    forall t text, f' !! p = Some (File t text) <-> f !! p = Some (File t text).

(** From [f] to [f'] no regular file has changed, appeared or gone. *)
Definition same_files (f f' : gmap string FsNode) : Prop :=
  forall p t text, f' !! p = Some (File t text) <-> f !! p = Some (File t text).

(** The directories of [f] are directories of [f']. *)
Definition keeps_directories (f f' : gmap string FsNode) : Prop :=
  forall p, is_directory f p -> is_directory f' p.

(** [path.mkdir(parents=True, exist_ok=True)] can be carried out in [f] for
    a path below [ancestors]: [path] is a directory, or it is missing and
    the directory above it is there or can be made in turn. *)
Inductive makeable (f : gmap string FsNode) : string -> list string -> Prop :=
  | makeable_there path ancestors :
      is_directory f path -> makeable f path ancestors
  | makeable_below path up above :
      f !! path = None -> makeable f up above -> makeable f path (up :: above).

(** [path] can be opened for writing in [f]: it is a regular file, or it is
    missing and the directory right above it is there. *)
Definition writable (f : gmap string FsNode) (path : string) : Prop :=
  is_file f path
  \/ (f !! path = None
      /\ exists up above, parents path = up :: above /\ is_directory f up).

(** The domain cache can be stored in [f]: the configuration directory is
    there or can be made, and the cache file is a regular file, or is
    missing and to be made right in that directory. *)
Definition storable (cfg : Config) (f : gmap string FsNode) : Prop :=
  makeable f (CONFIG_DIR cfg) (parents (CONFIG_DIR cfg))
  /\ (is_file f (CACHE_FILE cfg)
      \/ (f !! CACHE_FILE cfg = None
          /\ (exists above, parents (CACHE_FILE cfg) = CONFIG_DIR cfg :: above)
          /\ ~ In (CACHE_FILE cfg) (CONFIG_DIR cfg :: parents (CONFIG_DIR cfg)))).

(** The exception that the [except] clauses for [ConnectionError],
    [HTTPError] and [Timeout] let out for [e]. *)
Definition reclassified (e : exn) : exn :=
  match e with
  | ConnectionError => NoInternetError "Tidak ada koneksi internet."
  | HTTPError status =>
      if (status =? 401)%Z then ApiTokenError "Token API tidak valid."
      else if (status >=? 500)%Z then BpsServerError "Server BPS sedang mengalami masalah."
      else e
  | Timeout => NoInternetError "Koneksi ke server BPS timeout."
  | _ => e
  end.

(** From [w] to [w'] nothing but the file system has changed, and [events]
    have been recorded. *)
Definition wrote (w w' : World) (events : list Event) : Prop :=
  clock w' = clock w /\ config w' = config w /\ endpoint w' = endpoint w
  /\ appends w w' events.

(** What is left in a file that a writer broke off on. *)
Definition left_behind (partial : option string) : string :=
  match partial with
  | Some text => text
  | None => ""
  end.

End WithLibrary.
End Spec.

(** ** The download of a built table
    ([screens/dynamic_table_builder_screen.py])

    [DynamicTableBuilderScreen.perform_dynamic_download] saves the table the
    screen shows.  What it tells the user goes through [self.app.notify]; the
    notifications are kept, in order, next to the world. *)

Module Screen.
Import Sys.

(** The notifications of the download, by their text and title:
    "Menyiapkan unduhan ke {filename}..." (Download Dimulai),
    "File sudah ada, menimpa: {filepath}" (File Exists, a warning),
    "File disimpan di: {filepath}" (Download Berhasil) and
    "Gagal menyimpan file: {e}" (Download Error, an error). *)
Inductive Notification : Type :=
  | DownloadStarted (filename : string)
  | OverwriteWarning (filepath : string)
  | DownloadDone (filepath : string)
  | DownloadFailed (e : exn).

Record App : Type := mkApp {
  world : World;
  notifications : list Notification
}.

Definition UI (A : Type) : Type := App -> Result A * App.

Definition ui_ret {A} (a : A) : UI A := fun app => (Ok a, app).

Definition ui_bind {A B} (m : UI A) (k : A -> UI B) : UI B :=
  fun app =>
    match m app with
    | (Ok a, app') => k a app'
    | (Raise e, app') => (Raise e, app')
    end.

(** [self.app.notify(...)]. *)
Definition notify (n : Notification) : UI unit :=
  fun app => (Ok tt, mkApp (world app) (notifications app ++ [n])).

(** A computation of the access layer, run from the screen. *)
Definition run {A} (m : M A) : UI A :=
  fun app =>
    match m (world app) with
    | (r, w') => (r, mkApp w' (notifications app))
    end.

(** [try: body / except Exception as e: handler(e)]. *)
Definition ui_try {A} (body : UI A) (handler : exn -> UI A) : UI A :=
  fun app =>
    match body app with
    | (Ok a, app') => (Ok a, app')
    | (Raise e, app') => handler e app'
    end.

Section WithLibrary.
Context {lib : PyLib}.

Definition perform_dynamic_download (df : DataFrame) (filename file_format : string)
  : UI unit :=
  ui_bind (notify (DownloadStarted filename)) (fun _ =>
  ui_try
    (let df_clean := ApiClient._clean_bps_dataframe df in
     ui_bind (run ApiClient.get_config) (fun cfg =>
     ui_bind
       (match download_path cfg with
        | Some config_path =>
            if Str.truthy (Some config_path) then
              ui_bind (run (is_dir config_path)) (fun d =>
              ui_ret (if d then config_path else cwd))
            else ui_ret cwd
        | None => ui_ret cwd
        end) (fun base_path =>
     let filepath := path_join base_path filename in
     ui_bind (run (exists_ filepath)) (fun present =>
     ui_bind (if present then notify (OverwriteWarning filepath) else ui_ret tt) (fun _ =>
     ui_bind
       (if String.eqb file_format "csv" then run (to_file filepath (to_csv df_clean))
        else if String.eqb file_format "xlsx"
             then run (to_file filepath (to_excel df_clean))
        else if String.eqb file_format "json"
             then run (to_file filepath (to_json df_clean))
        else ui_ret tt) (fun _ =>
     notify (DownloadDone filepath)))))))
    (fun e => notify (DownloadFailed e))).

(** What the writer of each format makes of a table; [None] for a format
    that is not one of the three. *)
Definition written (format : string) (df : DataFrame) : option Rendering :=
  if String.eqb format "csv" then Some (to_csv df)
  else if String.eqb format "xlsx" then Some (to_excel df)
  else if String.eqb format "json" then Some (to_json df)
  else None.

End WithLibrary.
End Screen.

(** ** More inputs to run the client on *)

Module Cases.

(** A provider whose tables have a header and no rows. *)
Definition no_rows : DataFrame := mkDataFrame (Index [LStr "domain_id"; LStr "domain_name"]) [].

Definition answering (v : Value) : Client :=
  mkClient (Demo.rate_limited "list_domain" 0 v)
           (fun _ => Demo.rate_limited "list_statictable" 0 v)
           (fun _ _ => Demo.rate_limited "view_statictable" 0 v)
           (fun _ => Demo.rate_limited "list_dynamictable" 0 v).

Definition empty_handed : ApiClient.t :=
  ApiClient.mk (Some "secret") (Some (answering (VDataFrame no_rows))).

(** A provider that answers with a message instead of a table. *)
Definition talkative : ApiClient.t :=
  ApiClient.mk (Some "secret") (Some (answering (VStr "Maintenance"))).

(** The records of [Demo.domains], and a stand-in for [pd.DataFrame] on a
    list of records that all have the keys of the first one. *)
Definition domain_records : Json :=
  JList [JObj [("domain_id", JStr "0000"); ("domain_name", JStr "Indonesia")];
         JObj [("domain_id", JStr "1100"); ("domain_name", JStr "Aceh")]].

Definition cell_of (record : Json) (key : string) : Cell :=
  match record with
  | JObj fields =>
      match Dict.get fields key with
      | Some JNull | None => NA
      | Some v => Val v
      end
  | _ => NA
  end.

Fixpoint rows_of (i : nat) (keys : list string) (records : list Json)
  : list (Label * list Cell) :=
  match records with
  | [] => []
  | record :: rest => (LInt (Z.of_nat i), map (cell_of record) keys) :: rows_of (S i) keys rest
  end.

Definition frame_of_records (data : Json) : Result DataFrame :=
  match data with
  | JList (JObj first :: rest) =>
      Ok (mkDataFrame (Index (map (fun kv => LStr (fst kv)) first))
            (rows_of 0 (Dict.keys first) (JObj first :: rest)))
  | _ => Demo.frame_of data
  end.

(** A library in which the text written for [Demo.domains] loads again. *)
Definition lib : PyLib := {|
  json_load := fun text =>
    if String.eqb text (Demo.render "json" Demo.domains) then Ok domain_records
    else Demo.parse text;
  pd_DataFrame := frame_of_records;
  to_json := Demo.render_json;
  to_csv := fun df => Rendered (Demo.render "csv" df);
  to_excel := fun df => Rendered (Demo.render "xlsx" df);
  unescape := fun s => s;
  path_join := fun base name => base ++ "/" ++ name;
  parents := Demo.ancestors;
  cwd := "/home/user";
  stadata_Client := fun token =>
    if String.eqb token "secret" then Ok (Demo.provider 0) else Raise (Exception "bad token")
|}.

(** A world whose configuration stores no token. *)
Definition tokenless : World :=
  mkWorld 0 ∅ (mkConfig "/home/user/.stadata-x" None None) Demo.national_only [].

(** An endpoint that has one data point for every request, and a world in
    front of it. *)
Definition one_data_point (url : string) (params : Dict.t string) : Result Response :=
  Ok (mkResponse 200
        (Ok (JObj [("data-availability", JStr "available");
                   ("datacontent", JObj [("0000230100001001000", JNum 42)])]))).

Definition with_data : World := mkWorld 0 ∅ Demo.cfg one_data_point [].

(** A home directory in which the client has not run yet, and the world at
    clock [t] around it. *)
Definition home : gmap string FsNode :=
  {[ "/" := Dir 0; "/home" := Dir 0; "/home/user" := Dir 0 ]}.

Definition at_home (t : Z) : World := mkWorld t home Demo.cfg Demo.offline [].

(** The home after a run: the directory of the configuration is there, with
    a cache file written at [mtime] that holds [text]. *)
Definition settled (t mtime : Z) (text : string) : World :=
  mkWorld t
    (<[Demo.cache_path := File mtime text]> (<["/home/user/.stadata-x" := Dir mtime]> home))
    Demo.cfg Demo.offline [].

(** A home in which a directory has the name of the export. *)
Definition taken (t : Z) : World :=
  mkWorld t (<["/home/user/table.csv" := Dir 0]> home) Demo.cfg Demo.offline [].

(** A table with two columns of the same label, and a provider that hands
    it back. *)
Definition twins : DataFrame :=
  mkDataFrame (Index [LStr "domain_id"; LStr "domain_id"])
    [(LInt 0, [Val (JStr "0000"); Val (JStr "0000")])].

Definition doubling : ApiClient.t :=
  ApiClient.mk (Some "secret") (Some (answering (VDataFrame twins))).

Definition nbsp : string := String "160"%char "".


End Cases.

(** * Properties *)

Open Scope list_scope.

(** ** Bookkeeping of the world *)

Section WorldFacts.

Lemma invocations_log (e : Event) (w : World) :
  invocations (log e w) = (invocations w + (if is_invoke e then 1 else 0))%nat.
Proof.
  unfold invocations, log; simpl.
  rewrite List.filter_app, length_app; simpl.
  destruct (is_invoke e); reflexivity.
Qed.

Lemma invocations_advance (d : Z) (w : World) :
  invocations (advance d w) = invocations w.
Proof. reflexivity. Qed.

Lemma invocations_set_fs (f : gmap string FsNode) (w : World) :
  invocations (set_fs f w) = invocations w.
Proof. reflexivity. Qed.

Lemma sleeps_app (t1 t2 : list Event) :
  omap (fun e => match e with EvSleep d => Some d | _ => None end) (t1 ++ t2)
  = omap (fun e => match e with EvSleep d => Some d | _ => None end) t1
    ++ omap (fun e => match e with EvSleep d => Some d | _ => None end) t2.
Proof. apply omap_app. Qed.

End WorldFacts.

(** Normalises [invocations] of a world built by [log], [advance] and
    [set_fs] into [invocations w + k]. *)
Ltac count_invocations :=
  repeat first
    [ rewrite invocations_advance
    | rewrite invocations_set_fs
    | rewrite invocations_log; cbn [is_invoke] ];
  rewrite ?Nat.add_0_r, <- ?Nat.add_assoc; cbn [Nat.add].


(** ** The retrying invoker *)

Section RetryFacts.
Import ApiClient Sys.

(** One pass through the loop body when the operation raises HTTP 429 and
    the attempt is not the last one: sleep, then the next attempt. *)
Lemma retry_loop_429_again (f : ApiFunction) (attempt : nat) (rest : list nat) (w : World) :
  api_run f (invocations w) = Raise (HTTPError 429) ->
  (attempt < max_retries - 1)%nat ->
  retry_loop f (attempt :: rest) w
  = retry_loop f rest
      (advance (base_delay * 2 ^ Z.of_nat attempt * microseconds_per_second)
         (log (EvSleep (base_delay * 2 ^ Z.of_nat attempt)) (log (EvInvoke (api_name f)) w))).
Proof.
  intros H429 Hlt.
  cbn [retry_loop]. unfold try_except, bind, to_thread at 1. rewrite H429.
  apply Nat.ltb_lt in Hlt. rewrite Hlt. reflexivity.
Qed.

(** The pass in which the operation raises HTTP 429 on the last attempt:
    the exception is raised again. *)
Lemma retry_loop_429_last (f : ApiFunction) (attempt : nat) (rest : list nat) (w : World) :
  api_run f (invocations w) = Raise (HTTPError 429) ->
  (max_retries - 1 <= attempt)%nat ->
  retry_loop f (attempt :: rest) w
  = (Raise (HTTPError 429), log (EvInvoke (api_name f)) w).
Proof.
  intros H429 Hge.
  cbn [retry_loop]. unfold try_except, bind, to_thread at 1. rewrite H429.
  apply Nat.ltb_ge in Hge. rewrite Hge. reflexivity.
Qed.

(** The pass in which the operation returns. *)
Lemma retry_loop_ok (f : ApiFunction) (attempt : nat) (rest : list nat) (w : World) (v : Value) :
  api_run f (invocations w) = Ok v ->
  retry_loop f (attempt :: rest) w = (Ok v, log (EvInvoke (api_name f)) w).
Proof.
  intros Hok.
  cbn [retry_loop]. unfold try_except, bind, to_thread at 1. rewrite Hok. reflexivity.
Qed.

(** The pass in which the operation raises anything but HTTP 429. *)
Lemma retry_loop_other (f : ApiFunction) (attempt : nat) (rest : list nat) (w : World) (e : exn) :
  api_run f (invocations w) = Raise e ->
  e <> HTTPError 429 ->
  retry_loop f (attempt :: rest) w = (Raise e, log (EvInvoke (api_name f)) w).
Proof.
  intros He Hne.
  cbn [retry_loop]. unfold try_except, bind, to_thread at 1. rewrite He.
  destruct e as [status| | | | | | | | | | | | |]; try reflexivity.
  destruct (Z.eqb_spec status 429) as [->|_]; [congruence | reflexivity].
Qed.

(** The invoker leaves the file system, the configuration and the endpoint
    alone. *)
Lemma retry_loop_same_store (f : ApiFunction) (attempts : list nat) (w : World) :
  Spec.same_store w (snd (retry_loop f attempts w)).
Proof.
  revert w. induction attempts as [|attempt rest IH]; intros w.
  - unfold Spec.same_store; auto.
  - cbn [retry_loop]. unfold try_except, bind, to_thread at 1.
    destruct (api_run f (invocations w)) as [v|e]; [unfold Spec.same_store; auto |].
    destruct e as [status| | | | | | | | | | | | |]; try (unfold Spec.same_store; cbn; auto; fail).
    destruct (status =? 429)%Z; [| unfold Spec.same_store; cbn; auto].
    destruct (attempt <? max_retries - 1)%nat; [| unfold Spec.same_store; cbn; auto].
    unfold sleep. cbv beta iota.
    destruct (IH (advance (base_delay * 2 ^ Z.of_nat attempt * microseconds_per_second)
                    (log (EvSleep (base_delay * 2 ^ Z.of_nat attempt))
                       (log (EvInvoke (api_name f)) w)))) as (Hfs & Hcfg & Hend).
    repeat split; assumption.
Qed.

(** Its events are appended to the trace. *)
Lemma retry_loop_appends (f : ApiFunction) (attempts : list nat) (w : World) :
  exists events, Spec.appends w (snd (retry_loop f attempts w)) events.
Proof.
  unfold Spec.appends.
  revert w. induction attempts as [|attempt rest IH]; intros w.
  - exists []. cbn. rewrite app_nil_r. reflexivity.
  - cbn [retry_loop]. unfold try_except, bind, to_thread at 1.
    assert (Hone : trace (log (EvInvoke (api_name f)) w) = trace w ++ [EvInvoke (api_name f)])
      by reflexivity.
    destruct (api_run f (invocations w)) as [v|e]; [eexists; exact Hone |].
    destruct e as [status| | | | | | | | | | | | |]; try (eexists; exact Hone).
    destruct (status =? 429)%Z; [| eexists; exact Hone].
    destruct (attempt <? max_retries - 1)%nat; [| eexists; exact Hone].
    unfold sleep. cbv beta iota.
    destruct (IH (advance (base_delay * 2 ^ Z.of_nat attempt * microseconds_per_second)
                    (log (EvSleep (base_delay * 2 ^ Z.of_nat attempt))
                       (log (EvInvoke (api_name f)) w)))) as [events Hev].
    eexists. rewrite Hev. cbn. rewrite <- !app_assoc. reflexivity.
Qed.

(** A pass of the loop runs the operation before anything else. *)
Lemma retry_loop_invokes (f : ApiFunction) (attempt : nat) (rest : list nat) (w : World) :
  exists events,
    Spec.appends w (snd (retry_loop f (attempt :: rest) w)) (EvInvoke (api_name f) :: events).
Proof.
  unfold Spec.appends.
  cbn [retry_loop]. unfold try_except, bind, to_thread at 1.
  assert (Hone : trace (log (EvInvoke (api_name f)) w) = trace w ++ [EvInvoke (api_name f)])
    by reflexivity.
  destruct (api_run f (invocations w)) as [v|e]; [eexists; exact Hone |].
  destruct e as [status| | | | | | | | | | | | |]; try (eexists; exact Hone).
  destruct (status =? 429)%Z; [| eexists; exact Hone].
  destruct (attempt <? max_retries - 1)%nat; [| eexists; exact Hone].
  unfold sleep. cbv beta iota.
  destruct (retry_loop_appends f rest
              (advance (base_delay * 2 ^ Z.of_nat attempt * microseconds_per_second)
                 (log (EvSleep (base_delay * 2 ^ Z.of_nat attempt))
                    (log (EvInvoke (api_name f)) w)))) as [events Hev].
  eexists. unfold Spec.appends in Hev. rewrite Hev. cbn. rewrite <- !app_assoc. reflexivity.
Qed.

(** The invoker runs the operation at least once. *)
Lemma api_call_with_retry_invokes (f : ApiFunction) (w : World) :
  exists events,
    Spec.appends w (snd (_api_call_with_retry f w)) (EvInvoke (api_name f) :: events).
Proof. apply (retry_loop_invokes f 0 [1; 2]%nat w). Qed.

Lemma api_call_with_retry_same_store (f : ApiFunction) (w : World) :
  Spec.same_store w (snd (_api_call_with_retry f w)).
Proof. apply retry_loop_same_store. Qed.

(** C1. When the operation answers HTTP 429 to all three attempts, the
    invoker makes exactly three invocations, with sleeps of 1 and 2 between
    them, and then lets the third [HTTPError] 429 out: the [raise] of the
    handler fires on the last attempt, so the [BpsServerError] after the loop
    is never reached. *)
Theorem retry_exhausted_raises_http_429 (f : ApiFunction) (w : World) :
  (forall i, (i < 3)%nat -> api_run f (invocations w + i) = Raise (HTTPError 429)) ->
  fst (_api_call_with_retry f w) = Raise (HTTPError 429)
  /\ (forall msg, fst (_api_call_with_retry f w) <> Raise (BpsServerError msg))
  /\ trace (snd (_api_call_with_retry f w))
     = trace w ++ [EvInvoke (api_name f); EvSleep 1; EvInvoke (api_name f);
                   EvSleep 2; EvInvoke (api_name f)]
  /\ invocations (snd (_api_call_with_retry f w)) = (invocations w + 3)%nat.
Proof.
  intros H.
  assert (H0 := H 0%nat ltac:(lia)). assert (H1 := H 1%nat ltac:(lia)).
  assert (H2 := H 2%nat ltac:(lia)). rewrite Nat.add_0_r in H0.
  unfold _api_call_with_retry. cbn [seq max_retries].
  rewrite retry_loop_429_again; [| assumption | cbn; lia].
  rewrite retry_loop_429_again; [| count_invocations; assumption | cbn; lia].
  rewrite retry_loop_429_last; [| count_invocations; assumption | cbn; lia].
  cbn [fst snd]. repeat split.
  - intros msg; discriminate.
  - cbn. rewrite <- !app_assoc. reflexivity.
  - count_invocations. reflexivity.
Qed.

(** C2. When the operation answers HTTP 429 to the first two attempts and
    returns [v] on the third, the invoker returns [v] after sleeping 1 and
    then 2, having invoked the operation three times. *)
Theorem retry_twice_then_success (f : ApiFunction) (w : World) (v : Value) :
  api_run f (invocations w) = Raise (HTTPError 429) ->
  api_run f (invocations w + 1) = Raise (HTTPError 429) ->
  api_run f (invocations w + 2) = Ok v ->
  fst (_api_call_with_retry f w) = Ok v
  /\ sleeps (snd (_api_call_with_retry f w)) = sleeps w ++ [1; 2]
  /\ invocations (snd (_api_call_with_retry f w)) = (invocations w + 3)%nat
  /\ trace (snd (_api_call_with_retry f w))
     = trace w ++ [EvInvoke (api_name f); EvSleep (base_delay * 2 ^ 0); EvInvoke (api_name f);
                   EvSleep (base_delay * 2 ^ 1); EvInvoke (api_name f)]
  /\ clock (snd (_api_call_with_retry f w)) = clock w + 3 * microseconds_per_second.
Proof.
  intros H0 H1 H2.
  unfold _api_call_with_retry. cbn [seq max_retries].
  rewrite retry_loop_429_again; [| assumption | cbn; lia].
  rewrite retry_loop_429_again; [| count_invocations; assumption | cbn; lia].
  rewrite (retry_loop_ok _ _ _ _ v); [| count_invocations; assumption].
  cbn [fst snd]. repeat split.
  - unfold sleeps. cbn. rewrite <- !app_assoc. rewrite sleeps_app. reflexivity.
  - count_invocations. reflexivity.
  - cbn. rewrite <- !app_assoc. reflexivity.
  - cbn [clock advance log snd]. unfold base_delay, microseconds_per_second.
    change (Z.of_nat 0) with 0. change (Z.of_nat 1) with 1. lia.
Qed.

End RetryFacts.

(** ** The domain cache *)

(** Unfolds the plumbing of a computation and reduces the redexes this
    exposes. *)
Ltac run_monad :=
  repeat progress
    (unfold ret, raise, lift, bind, try_except, ApiClient.get_config,
       ApiClient.attr_empty, ApiClient.attr_to_json;
     cbv beta iota).

(** ** The file system *)

Section FileFacts.
Context {lib : PyLib}.
Import Sys Spec.

Lemma set_fs_same (w : World) : set_fs (fs w) w = w.
Proof. destruct w; reflexivity. Qed.

Lemma same_files_refl (f : gmap string FsNode) : same_files f f.
Proof. intros p t text. reflexivity. Qed.

Lemma same_files_but_refl (path : string) (f : gmap string FsNode) : same_files_but path f f.
Proof. intros p _ t text. reflexivity. Qed.

Lemma same_files_weaken (path : string) (f f' : gmap string FsNode) :
  same_files f f' -> same_files_but path f f'.
Proof. intros H p _ t text. apply H. Qed.

Lemma same_files_but_trans (path : string) (f g h : gmap string FsNode) :
  same_files_but path f g -> same_files_but path g h -> same_files_but path f h.
Proof.
  intros Hfg Hgh p Hp t text. rewrite (Hgh p Hp), (Hfg p Hp). reflexivity.
Qed.

Lemma keeps_directories_refl (f : gmap string FsNode) : keeps_directories f f.
Proof. intros p Hp. exact Hp. Qed.

Lemma keeps_directories_trans (f g h : gmap string FsNode) :
  keeps_directories f g -> keeps_directories g h -> keeps_directories f h.
Proof. intros Hfg Hgh p Hp. apply Hgh, Hfg, Hp. Qed.

(** Making an entry [node] at a place that holds no regular file, in a
    directory: the regular files elsewhere and the directories stay. *)
Lemma enter_same_files_but (up path : string) (node : FsNode) (w : World) :
  is_directory (fs w) up ->
  same_files_but path (fs w) (fs (enter up path node w)).
Proof.
  intros [tu Hup] p Hp t text. unfold enter. cbn [fs set_fs].
  rewrite lookup_insert_ne by congruence.
  destruct (decide (up = p)) as [<- | Hne].
  - rewrite lookup_insert_eq, Hup. split; discriminate.
  - rewrite lookup_insert_ne by exact Hne. reflexivity.
Qed.

Lemma enter_keeps_directories (up path : string) (t : Z) (w : World) :
  keeps_directories (fs w) (fs (enter up path (Dir t) w)).
Proof.
  intros p [tp Hp]. unfold enter, is_directory. cbn [fs set_fs].
  destruct (decide (path = p)) as [<- | Hne]; [rewrite lookup_insert_eq; eauto |].
  rewrite lookup_insert_ne by exact Hne.
  destruct (decide (up = p)) as [<- | Hne']; [rewrite lookup_insert_eq; eauto |].
  rewrite lookup_insert_ne by exact Hne'. eauto.
Qed.

Lemma enter_file_keeps_directories (up path : string) (t : Z) (text : string) (w : World) :
  fs w !! path = None ->
  keeps_directories (fs w) (fs (enter up path (File t text) w)).
Proof.
  intros Hnone p [tp Hp]. unfold enter, is_directory. cbn [fs set_fs].
  destruct (decide (path = p)) as [<- | Hne]; [congruence |].
  rewrite lookup_insert_ne by exact Hne.
  destruct (decide (up = p)) as [<- | Hne']; [rewrite lookup_insert_eq; eauto |].
  rewrite lookup_insert_ne by exact Hne'. eauto.
Qed.

(** *** [mkdir] *)

Lemma makedirs_there (path : string) (ancestors : list string) (w : World) :
  is_directory (fs w) path -> makedirs path ancestors w = (Ok tt, w).
Proof. intros [t Ht]. destruct ancestors; cbn [makedirs]; rewrite Ht; reflexivity. Qed.

Lemma makedirs_file (path : string) (ancestors : list string) (w : World) :
  is_file (fs w) path -> makedirs path ancestors w = (Raise OSError, w).
Proof. intros (t & text & Ht). destruct ancestors; cbn [makedirs]; rewrite Ht; reflexivity. Qed.

(** A [mkdir] that fails raises an [OSError] and has made nothing. *)
Lemma makedirs_raises (path : string) (ancestors : list string) (w : World) (e : exn) :
  fst (makedirs path ancestors w) = Raise e ->
  makedirs path ancestors w = (Raise OSError, w).
Proof.
  revert path. induction ancestors as [|up above IH]; intros path; cbn [makedirs].
  - destruct (fs w !! path) as [[t text|t]|]; [reflexivity | discriminate | reflexivity].
  - destruct (fs w !! path) as [[t text|t]|]; [reflexivity | discriminate |].
    specialize (IH up).
    destruct (makedirs up above w) as [[[]|e1] w1]; cbn [fst] in *; [discriminate |].
    intros He. exact (IH He).
Qed.

(** A [mkdir] that succeeds leaves a directory at [path]; it has touched
    nothing but [path] and the directories above it, no regular file, and
    every directory is still one. *)
Lemma makedirs_returns (path : string) (ancestors : list string) (w : World) :
  fst (makedirs path ancestors w) = Ok tt ->
  snd (makedirs path ancestors w) = set_fs (fs (snd (makedirs path ancestors w))) w
  /\ is_directory (fs (snd (makedirs path ancestors w))) path
  /\ same_files (fs w) (fs (snd (makedirs path ancestors w)))
  /\ keeps_directories (fs w) (fs (snd (makedirs path ancestors w)))
  /\ (forall p, ~ In p (path :: ancestors) ->
        fs (snd (makedirs path ancestors w)) !! p = fs w !! p).
Proof.
  revert path. induction ancestors as [|up above IH]; intros path; cbn [makedirs].
  - destruct (fs w !! path) as [[t text|t]|] eqn:Hpath; cbn [fst snd]; try discriminate.
    intros _. rewrite set_fs_same.
    split; [reflexivity |]. split; [exists t; exact Hpath |].
    split; [apply same_files_refl |]. split; [apply keeps_directories_refl | reflexivity].
  - destruct (fs w !! path) as [[t text|t]|] eqn:Hpath; cbn [fst snd]; try discriminate.
    + intros _. rewrite set_fs_same.
      split; [reflexivity |]. split; [exists t; exact Hpath |].
      split; [apply same_files_refl |]. split; [apply keeps_directories_refl | reflexivity].
    + specialize (IH up).
      destruct (makedirs up above w) as [[[]|e1] w1]; cbn [fst snd] in *; [| discriminate].
      intros _. destruct (IH eq_refl) as (Hw1 & Hup & Hfiles & Hdirs & Hframe).
      split; [| split; [| split; [| split]]].
      * unfold enter. rewrite Hw1. reflexivity.
      * unfold enter, is_directory. cbn [fs set_fs]. rewrite lookup_insert_eq. eauto.
      * intros p t text. destruct (decide (p = path)) as [-> | Hne].
        -- unfold enter. cbn [fs set_fs]. rewrite lookup_insert_eq, Hpath.
           split; discriminate.
        -- rewrite (enter_same_files_but up path _ w1 Hup p Hne). apply Hfiles.
      * eapply keeps_directories_trans; [exact Hdirs | apply enter_keeps_directories].
      * intros p Hp. unfold enter. cbn [fs set_fs].
        rewrite lookup_insert_ne by (intros <-; apply Hp; left; reflexivity).
        rewrite lookup_insert_ne by (intros <-; apply Hp; right; left; reflexivity).
        apply Hframe. intros Hin. apply Hp. right. exact Hin.
Qed.

(** [mkdir] succeeds exactly on the trees in which the directory is there
    or can be made. *)
Lemma makedirs_makeable (path : string) (ancestors : list string) (w : World) :
  makeable (fs w) path ancestors <-> fst (makedirs path ancestors w) = Ok tt.
Proof.
  split.
  - intros Hmake. remember (fs w) as f eqn:Hf.
    induction Hmake as [path ancestors Hdir | path up above Hnone Hmake IH]; subst f.
    + rewrite makedirs_there by exact Hdir. reflexivity.
    + cbn [makedirs]. rewrite Hnone.
      destruct (makedirs up above w) as [[[]|e1] w1]; cbn [fst] in *;
        [reflexivity | discriminate].
  - revert path. induction ancestors as [|up above IH]; intros path; cbn [makedirs].
    + destruct (fs w !! path) as [[t text|t]|] eqn:Hpath; cbn [fst]; try discriminate.
      intros _. apply makeable_there. exists t. exact Hpath.
    + destruct (fs w !! path) as [[t text|t]|] eqn:Hpath; cbn [fst]; try discriminate.
      * intros _. apply makeable_there. exists t. exact Hpath.
      * specialize (IH up).
        destruct (makedirs up above w) as [[[]|e1] w1]; cbn [fst] in *; [| discriminate].
        intros _. apply makeable_below; [exact Hpath | apply IH; reflexivity].
Qed.

(** *** [open(path, "w")] *)

Lemma open_w_raises (path : string) (w : World) (e : exn) :
  fst (open_w path w) = Raise e ->
  open_w path w = (Raise OSError, log (EvWrite path) w).
Proof.
  unfold open_w. cbv zeta. cbn [fs log].
  destruct (fs w !! path) as [[t text|t]|]; cbn [fst]; [discriminate | reflexivity |].
  destruct (parents path) as [|up above]; [reflexivity |].
  destruct (fs w !! up) as [[t text|t]|]; cbn [fst]; [reflexivity | discriminate | reflexivity].
Qed.

Lemma open_w_directory (path : string) (w : World) :
  is_directory (fs w) path -> open_w path w = (Raise OSError, log (EvWrite path) w).
Proof. intros [t Ht]. unfold open_w. cbv zeta. cbn [fs log]. rewrite Ht. reflexivity. Qed.

(** Opening succeeds exactly on the paths that are [writable]. *)
Lemma open_w_writable (path : string) (w : World) :
  writable (fs w) path <-> fst (open_w path w) = Ok tt.
Proof.
  unfold writable, is_file, is_directory, open_w. cbv zeta. cbn [fs log]. split.
  - intros [(t & text & Ht) | (Hnone & up & above & Hup & t & Ht)].
    + rewrite Ht. reflexivity.
    + rewrite Hnone, Hup, Ht. reflexivity.
  - destruct (fs w !! path) as [[t text|t]|] eqn:Hpath; cbn [fst]; try discriminate.
    + intros _. left. eauto.
    + destruct (parents path) as [|up above]; [discriminate |].
      destruct (fs w !! up) as [[t text|t]|] eqn:Hup; cbn [fst]; try discriminate.
      intros _. right. split; [reflexivity |]. exists up, above. eauto.
Qed.

(** An opening that succeeds leaves an empty regular file at [path]; the
    other regular files and the directories stay. *)
Lemma open_w_returns (path : string) (w : World) :
  fst (open_w path w) = Ok tt ->
  snd (open_w path w) = set_fs (fs (snd (open_w path w))) (log (EvWrite path) w)
  /\ fs (snd (open_w path w)) !! path = Some (File (clock w) "")
  /\ same_files_but path (fs w) (fs (snd (open_w path w)))
  /\ keeps_directories (fs w) (fs (snd (open_w path w))).
Proof.
  unfold open_w. cbv zeta. cbn [fs log].
  destruct (fs w !! path) as [[t text|t]|] eqn:Hpath; cbn [fst snd]; try discriminate.
  - intros _. cbn [fs set_fs clock log].
    split; [reflexivity |]. split; [apply lookup_insert_eq |]. split.
    + intros p Hp t' text'. rewrite lookup_insert_ne by congruence. reflexivity.
    + intros p [tp Hp]. exists tp. rewrite lookup_insert_ne by congruence. exact Hp.
  - destruct (parents path) as [|up above]; [discriminate |].
    destruct (fs w !! up) as [[t text|t]|] eqn:Hup; cbn [fst snd]; try discriminate.
    intros _. split; [reflexivity |]. split; [| split].
    + unfold enter. cbn [fs set_fs clock log]. apply lookup_insert_eq.
    + apply (enter_same_files_but up path _ (log (EvWrite path) w)). exists t. exact Hup.
    + apply (enter_file_keeps_directories up path _ _ (log (EvWrite path) w)). exact Hpath.
Qed.

(** *** The writers *)

Lemma write_same_files_but (path text : string) (t : Z) (f : gmap string FsNode) :
  same_files_but path f (<[path := File t text]> f).
Proof. intros p Hp t' text'. rewrite lookup_insert_ne by congruence. reflexivity. Qed.

Lemma write_keeps_directories (path text : string) (t : Z) (f : gmap string FsNode) :
  is_file f path -> keeps_directories f (<[path := File t text]> f).
Proof.
  intros (t0 & text0 & Hfile) p [tp Hp]. exists tp.
  rewrite lookup_insert_ne by congruence. exact Hp.
Qed.

Lemma wrote_refl (w : World) : wrote w w [].
Proof. unfold wrote, appends. rewrite app_nil_r. auto. Qed.

Lemma wrote_trans (w w1 w2 : World) (ev1 ev2 : list Event) :
  wrote w w1 ev1 -> wrote w1 w2 ev2 -> wrote w w2 (ev1 ++ ev2).
Proof.
  unfold wrote, appends. intros (C1 & G1 & E1 & T1) (C2 & G2 & E2 & T2).
  rewrite C2, G2, E2, T2, T1, app_assoc. auto.
Qed.

Lemma wrote_set_fs (f : gmap string FsNode) (w : World) (events : list Event) :
  wrote w (set_fs f (mkWorld (clock w) (fs w) (config w) (endpoint w) (trace w ++ events)))
    events.
Proof. unfold wrote, appends. cbn. auto. Qed.

(** [mkdir] and [open] change nothing but the file system and the
    trace. *)
Lemma mkdir_wrote (path : string) (w : World) :
  wrote w (snd (mkdir path w)) [EvMkdir path].
Proof.
  unfold mkdir.
  destruct (fst (makedirs path (parents path) (log (EvMkdir path) w))) as [[]|e] eqn:Hres.
  - destruct (makedirs_returns _ _ _ Hres) as (-> & _). apply wrote_set_fs.
  - rewrite (makedirs_raises _ _ _ _ Hres). cbn [snd]. unfold wrote, appends. cbn. auto.
Qed.

Lemma open_w_wrote (path : string) (w : World) :
  wrote w (snd (open_w path w)) [EvWrite path].
Proof.
  destruct (fst (open_w path w)) as [[]|e] eqn:Hres.
  - destruct (open_w_returns _ _ Hres) as (-> & _). apply wrote_set_fs.
  - rewrite (open_w_raises _ _ _ Hres). cbn [snd]. unfold wrote, appends. cbn. auto.
Qed.

(** A writer handed a path.  When the path can be opened and the writer
    renders the table, the text is in the file, and nothing else has
    changed among the regular files. *)
Lemma to_file_rendered (path text : string) (w : World) :
  writable (fs w) path ->
  fst (to_file path (Rendered text) w) = Ok tt
  /\ fs (snd (to_file path (Rendered text) w)) !! path = Some (File (clock w) text)
  /\ same_files_but path (fs w) (fs (snd (to_file path (Rendered text) w)))
  /\ keeps_directories (fs w) (fs (snd (to_file path (Rendered text) w)))
  /\ wrote w (snd (to_file path (Rendered text) w)) [EvWrite path].
Proof.
  intros Hopen. apply open_w_writable in Hopen.
  pose proof (open_w_wrote path w) as Hw.
  destruct (open_w_returns path w Hopen) as (_ & Hfile & Hfiles & Hdirs).
  unfold to_file, bind. destruct (open_w path w) as [[[]|e] w2]; cbn [fst snd] in *;
    [| discriminate].
  unfold write. cbn [fst snd fs set_fs].
  destruct Hw as (Hclock & Hw'). rewrite Hclock.
  split; [reflexivity |]. split; [apply lookup_insert_eq |]. split; [| split].
  - eapply same_files_but_trans; [exact Hfiles | apply write_same_files_but].
  - eapply keeps_directories_trans; [exact Hdirs |].
    apply write_keeps_directories. unfold is_file. eauto.
  - unfold wrote in *. cbn. tauto.
Qed.

(** When the path cannot be opened, a writer that gets as far as opening it
    fails with the [OSError] of [open], and nothing has changed. *)
Lemma to_file_refused (path : string) (r : Rendering) (w : World) :
  ~ writable (fs w) path ->
  (forall e, r <> Broken e None) ->
  to_file path r w = (Raise OSError, log (EvWrite path) w).
Proof.
  intros Hshut Hopens.
  assert (Hres : open_w path w = (Raise OSError, log (EvWrite path) w)).
  { destruct (fst (open_w path w)) as [[]|e] eqn:Hres.
    - exfalso. apply Hshut. apply open_w_writable. exact Hres.
    - apply (open_w_raises _ _ _ Hres). }
  destruct r as [text | e [partial|]]; unfold to_file, bind.
  - rewrite Hres. reflexivity.
  - rewrite Hres. reflexivity.
  - exfalso. apply (Hopens e). reflexivity.
Qed.

(** A writer that breaks off after it has opened the path leaves what it
    had written. *)
Lemma to_file_broken (path partial : string) (e : exn) (w : World) :
  writable (fs w) path ->
  fst (to_file path (Broken e (Some partial)) w) = Raise e
  /\ fs (snd (to_file path (Broken e (Some partial)) w)) !! path
     = Some (File (clock w) partial)
  /\ same_files_but path (fs w) (fs (snd (to_file path (Broken e (Some partial)) w))).
Proof.
  intros Hopen. apply open_w_writable in Hopen.
  pose proof (open_w_wrote path w) as (Hclock & _).
  destruct (open_w_returns path w Hopen) as (_ & Hfile & Hfiles & Hdirs).
  unfold to_file, bind. destruct (open_w path w) as [[[]|e1] w2]; cbn [fst snd] in *;
    [| discriminate].
  unfold write, raise. cbn [fst snd fs set_fs]. rewrite Hclock.
  split; [reflexivity |]. split; [apply lookup_insert_eq |].
  eapply same_files_but_trans; [exact Hfiles | apply write_same_files_but].
Qed.

End FileFacts.

Section CacheFacts.
Context {lib : PyLib}.
Import ApiClient Sys Spec.

(** A cache file younger than 7 days whose content loads is returned by the
    first half of [list_domains], and the world stays as it is. *)
Lemma read_cache_fresh (w : World) (mtime : Z) (text : string) (data : Json) (df : DataFrame) :
  cache_file w mtime text ->
  clock w - mtime < CACHE_DURATION ->
  json_load text = Ok data ->
  pd_DataFrame data = Ok df ->
  read_cache w = (Ok (Some (VDataFrame df)), w).
Proof.
  unfold cache_file. intros Hfile Hage Hload Hframe.
  unfold read_cache, bind, get_config, exists_, try_except, now, stat_mtime, read_text, lift.
  rewrite Hfile. rewrite bool_decide_eq_true_2 by eauto. cbv beta iota.
  rewrite Hfile. cbv beta iota.
  apply Z.ltb_lt in Hage. rewrite Hage, Hfile, Hload, Hframe. reflexivity.
Qed.

(** In the states of [cache_miss] the first half of [list_domains] falls
    through without raising, and the world stays as it is. *)
Lemma read_cache_miss (w : World) :
  cache_miss w -> read_cache w = (Ok None, w).
Proof.
  unfold read_cache, bind, get_config, exists_, try_except, now, stat_mtime, read_text, lift.
  intros [Habsent | mtime text Hfile Hage | mtime text e Hfile Hload Hcaught | mtime Hdir];
    unfold cache_file in *.
  - rewrite Habsent. rewrite bool_decide_eq_false_2; [reflexivity |].
    intros [x Hx]; discriminate.
  - rewrite Hfile. rewrite bool_decide_eq_true_2 by eauto. cbv beta iota.
    rewrite Hfile. cbv beta iota.
    apply Z.ltb_ge in Hage. rewrite Hage. reflexivity.
  - rewrite Hfile. rewrite bool_decide_eq_true_2 by eauto. cbv beta iota.
    rewrite Hfile. cbv beta iota.
    destruct (clock w - mtime <? CACHE_DURATION)%Z; [| reflexivity].
    rewrite Hfile, Hload, Hcaught. reflexivity.
  - rewrite Hdir. rewrite bool_decide_eq_true_2 by eauto. cbv beta iota.
    rewrite Hdir. cbv beta iota.
    destruct (clock w - mtime <? CACHE_DURATION)%Z; [| reflexivity].
    rewrite Hdir. reflexivity.
Qed.

Lemma list_domains_of_fresh_cache (self : t) (w : World) (mtime : Z) (text : string)
    (data : Json) (df : DataFrame) :
  cache_file w mtime text ->
  clock w - mtime < CACHE_DURATION ->
  json_load text = Ok data ->
  pd_DataFrame data = Ok df ->
  list_domains self w = (Ok (VDataFrame df), w).
Proof.
  intros Hfile Hage Hload Hframe. unfold list_domains, bind.
  rewrite (read_cache_fresh w mtime text data df) by assumption. reflexivity.
Qed.

(** C3. A cache file that is less than 7 days old and whose content
    deserializes is what [list_domains] returns; the provider is not
    invoked (nothing at all happens in the world). *)
Theorem list_domains_serves_fresh_cache (self : t) (w : World) (mtime : Z) (text : string)
    (data : Json) (df : DataFrame) :
  cache_file w mtime text ->
  clock w - mtime < CACHE_DURATION ->
  json_load text = Ok data ->
  pd_DataFrame data = Ok df ->
  fst (list_domains self w) = Ok (VDataFrame df)
  /\ invocations (snd (list_domains self w)) = invocations w
  /\ snd (list_domains self w) = w.
Proof.
  intros Hfile Hage Hload Hframe.
  rewrite (list_domains_of_fresh_cache self w mtime text data df) by assumption.
  repeat split.
Qed.

(** C9. The cache is looked at before the credential: a client that is not
    ready still gets a fresh, loadable cache back, and no [ApiTokenError]. *)
Theorem list_domains_cache_precedes_credential (self : t) (w : World) (mtime : Z)
    (text : string) (data : Json) (df : DataFrame) :
  is_ready self = false ->
  cache_file w mtime text ->
  clock w - mtime < CACHE_DURATION ->
  json_load text = Ok data ->
  pd_DataFrame data = Ok df ->
  list_domains self w = (Ok (VDataFrame df), w)
  /\ forall msg, fst (list_domains self w) <> Raise (ApiTokenError msg).
Proof.
  intros _ Hfile Hage Hload Hframe.
  rewrite (list_domains_of_fresh_cache self w mtime text data df) by assumption.
  split; [reflexivity | intros msg; discriminate].
Qed.

(** What the handler of the cache read does not catch comes out of
    [list_domains]: an exception of [json.load] or of [pd.DataFrame] that is
    neither an [IOError] nor a [JSONDecodeError], raised on a cache file
    younger than 7 days, is raised to the caller and the provider is not
    asked. *)
Lemma list_domains_raises_uncaught (self : t) (w : World) (mtime : Z) (text : string)
    (e : exn) :
  cache_file w mtime text ->
  clock w - mtime < CACHE_DURATION ->
  and_then (json_load text) pd_DataFrame = Raise e ->
  is_IOError e || is_JSONDecodeError e = false ->
  list_domains self w = (Raise e, w).
Proof.
  unfold cache_file. intros Hfile Hage Hload Hcaught.
  unfold list_domains, read_cache, bind, get_config, exists_, try_except, now, stat_mtime,
    read_text, lift.
  rewrite Hfile. rewrite bool_decide_eq_true_2 by eauto. cbv beta iota.
  rewrite Hfile. cbv beta iota.
  apply Z.ltb_lt in Hage. rewrite Hage, Hfile.
  destruct (json_load text) as [data|e1]; cbn [and_then] in Hload.
  - rewrite Hload, Hcaught. reflexivity.
  - injection Hload as ->. rewrite Hcaught. reflexivity.
Qed.

(** In the states of [cache_miss] the call is its second half: whatever
    went wrong with the cache file is not raised, and the outcome is the
    one of fetching from the provider. *)
Lemma list_domains_of_miss (self : t) (w : World) :
  cache_miss w -> list_domains self w = fetch_domains self w.
Proof.
  intros Hmiss. unfold list_domains, bind. rewrite (read_cache_miss w Hmiss). reflexivity.
Qed.

(** What the [except] clauses for [ConnectionError], [HTTPError] and
    [Timeout] make of an exception. *)
Lemma reclassify_reclassified {A} (e : exn) (w : World) :
  match reclassify (A := A) e with
  | Some h => h w
  | None => (Raise e, w)
  end = (Raise (reclassified e), w).
Proof.
  destruct e as [status| | | | | | | | | | | | |]; cbn; try reflexivity.
  destruct (status =? 401)%Z; [reflexivity |].
  destruct (status >=? 500)%Z; reflexivity.
Qed.

Lemma mkdir_returns (path : string) (w : World) :
  fst (mkdir path w) = Ok tt ->
  is_directory (fs (snd (mkdir path w))) path
  /\ same_files (fs w) (fs (snd (mkdir path w)))
  /\ keeps_directories (fs w) (fs (snd (mkdir path w)))
  /\ (forall p, ~ In p (path :: parents path) -> fs (snd (mkdir path w)) !! p = fs w !! p).
Proof.
  unfold mkdir. intros Hres.
  destruct (makedirs_returns _ _ _ Hres) as (_ & H1 & H2 & H3 & H4). auto.
Qed.

Lemma mkdir_raises (path : string) (w : World) (e : exn) :
  fst (mkdir path w) = Raise e -> mkdir path w = (Raise OSError, log (EvMkdir path) w).
Proof. unfold mkdir. apply makedirs_raises. Qed.

Lemma mkdir_makeable (path : string) (w : World) :
  makeable (fs w) path (parents path) <-> fst (mkdir path w) = Ok tt.
Proof. unfold mkdir. apply (makedirs_makeable path (parents path) (log (EvMkdir path) w)). Qed.

(** The store of the cache, case by case: it returns, with the text of the
    table in the cache file; or the directory cannot be made; or the cache
    file cannot be opened; or [to_json] breaks off, after the cache file
    has been emptied.  No other regular file is touched. *)
Lemma store_cache_cases (df : DataFrame) (w : World) :
  same_files_but (CACHE_FILE (config w)) (fs w) (fs (snd (store_cache (VDataFrame df) w)))
  /\ keeps_directories (fs w) (fs (snd (store_cache (VDataFrame df) w)))
  /\ ((fst (store_cache (VDataFrame df) w) = Ok tt
       /\ wrote w (snd (store_cache (VDataFrame df) w))
            [EvMkdir (CONFIG_DIR (config w)); EvWrite (CACHE_FILE (config w))]
       /\ exists text,
            to_json df = Rendered text
            /\ fs (snd (store_cache (VDataFrame df) w)) !! CACHE_FILE (config w)
               = Some (File (clock w) text))
      \/ (store_cache (VDataFrame df) w
          = (Raise OSError, log (EvMkdir (CONFIG_DIR (config w))) w)
          /\ ~ makeable (fs w) (CONFIG_DIR (config w)) (parents (CONFIG_DIR (config w))))
      \/ (fst (store_cache (VDataFrame df) w) = Raise OSError
          /\ wrote w (snd (store_cache (VDataFrame df) w))
               [EvMkdir (CONFIG_DIR (config w)); EvWrite (CACHE_FILE (config w))]
          /\ same_files (fs w) (fs (snd (store_cache (VDataFrame df) w)))
          /\ ~ writable (fs (snd (mkdir (CONFIG_DIR (config w)) w))) (CACHE_FILE (config w)))
      \/ (exists e partial,
            to_json df = Broken e partial
            /\ fst (store_cache (VDataFrame df) w) = Raise e
            /\ wrote w (snd (store_cache (VDataFrame df) w))
                 [EvMkdir (CONFIG_DIR (config w)); EvWrite (CACHE_FILE (config w))]
            /\ fs (snd (store_cache (VDataFrame df) w)) !! CACHE_FILE (config w)
               = Some (File (clock w) (left_behind partial)))).
Proof.
  set (dir := CONFIG_DIR (config w)). set (cache := CACHE_FILE (config w)).
  pose proof (mkdir_wrote dir w) as Hw2.
  pose proof (mkdir_makeable dir w) as Hmake.
  pose proof (mkdir_returns dir w) as Hmade.
  pose proof (mkdir_raises dir w) as Hfail.
  unfold store_cache, bind, get_config. cbv beta iota. fold dir. fold cache.
  destruct (mkdir dir w) as [[[]|e1] w2]; cbn [fst snd] in *.
  - destruct (Hmade eq_refl) as (Hdir & Hfiles2 & Hdirs2 & _). clear Hmade Hfail.
    pose proof (open_w_wrote cache w2) as Hw3.
    pose proof (open_w_writable cache w2) as Hopen.
    pose proof (open_w_returns cache w2) as Hopened.
    pose proof (open_w_raises cache w2) as Hshut.
    destruct (open_w cache w2) as [[[]|e2] w3]; cbn [fst snd] in *.
    + destruct (Hopened eq_refl) as (_ & Hfile3 & Hfiles3 & Hdirs3). clear Hopened Hshut.
      pose proof (wrote_trans _ _ _ _ _ Hw2 Hw3) as Hw. cbn [app] in Hw.
      assert (Hclock : clock w3 = clock w) by (destruct Hw as (-> & _); reflexivity).
      assert (Hclock2 : clock w2 = clock w) by (destruct Hw2 as (-> & _); reflexivity).
      assert (Hfiles : same_files_but cache (fs w) (fs w3)).
      { eapply same_files_but_trans; [apply same_files_weaken; exact Hfiles2 | exact Hfiles3]. }
      assert (Hdirs : keeps_directories (fs w) (fs w3)).
      { eapply keeps_directories_trans; [exact Hdirs2 | exact Hdirs3]. }
      assert (Hput : forall text,
                 same_files_but cache (fs w)
                   (fs (set_fs (<[cache := File (clock w3) text]> (fs w3)) w3))
                 /\ keeps_directories (fs w)
                      (fs (set_fs (<[cache := File (clock w3) text]> (fs w3)) w3))
                 /\ wrote w (set_fs (<[cache := File (clock w3) text]> (fs w3)) w3)
                      [EvMkdir dir; EvWrite cache]
                 /\ fs (set_fs (<[cache := File (clock w3) text]> (fs w3)) w3) !! cache
                    = Some (File (clock w) text)).
      { intros text. cbn [fs set_fs]. split; [| split; [| split]].
        - eapply same_files_but_trans; [exact Hfiles | apply write_same_files_but].
        - eapply keeps_directories_trans; [exact Hdirs |].
          apply write_keeps_directories. unfold is_file. eauto.
        - unfold wrote, appends in *. cbn. tauto.
        - rewrite Hclock. apply lookup_insert_eq. }
      unfold attr_to_json, to_handle.
      destruct (to_json df) as [text | e [partial|]].
      * unfold write. cbn [fst snd]. destruct (Hput text) as (H1 & H2 & H3 & H4).
        split; [exact H1 |]. split; [exact H2 |]. left. eauto.
      * unfold bind, write, raise. cbn [fst snd].
        destruct (Hput partial) as (H1 & H2 & H3 & H4).
        split; [exact H1 |]. split; [exact H2 |]. right. right. right.
        exists e, (Some partial). cbn [left_behind]. auto.
      * unfold raise. cbn [fst snd].
        split; [exact Hfiles |]. split; [exact Hdirs |]. right. right. right.
        exists e, None. cbn [left_behind]. rewrite Hfile3, Hclock2. auto.
    + injection (Hshut e2 eq_refl) as -> ->. cbn [fs log] in *. clear Hopened.
      split; [apply same_files_weaken; exact Hfiles2 |]. split; [exact Hdirs2 |].
      right. right. left. split; [reflexivity |].
      split; [exact (wrote_trans _ _ _ _ _ Hw2 Hw3) |]. split; [exact Hfiles2 |].
      intros Hopen'. apply Hopen in Hopen'. discriminate.
  - injection (Hfail e1 eq_refl) as -> ->. cbn [fs log] in *.
    split; [apply same_files_but_refl |]. split; [apply keeps_directories_refl |].
    right. left. split; [reflexivity |].
    intros Hm. apply Hmake in Hm. discriminate.
Qed.

(** The store changes nothing but the file system and the trace, whatever
    it is given to store. *)
Lemma store_cache_wrote (v : Value) (w : World) :
  exists events, wrote w (snd (store_cache v w)) events.
Proof.
  pose proof (mkdir_wrote (CONFIG_DIR (config w)) w) as Hw2.
  unfold store_cache, bind, get_config. cbv beta iota.
  destruct (mkdir (CONFIG_DIR (config w)) w) as [[[]|e1] w2]; cbn [snd] in *; [| eauto].
  pose proof (open_w_wrote (CACHE_FILE (config w)) w2) as Hw3.
  destruct (open_w (CACHE_FILE (config w)) w2) as [[[]|e2] w3]; cbn [snd] in *;
    [| eexists; exact (wrote_trans _ _ _ _ _ Hw2 Hw3)].
  pose proof (wrote_trans _ _ _ _ _ Hw2 Hw3) as Hw.
  assert (Hput : forall text,
             wrote w (set_fs (<[CACHE_FILE (config w) := File (clock w3) text]> (fs w3)) w3)
               ([EvMkdir (CONFIG_DIR (config w))] ++ [EvWrite (CACHE_FILE (config w))])).
  { intros text. unfold wrote, appends in *. cbn. tauto. }
  unfold attr_to_json, to_handle.
  destruct v as [df|s|tn st]; [| eexists; exact Hw | eexists; exact Hw].
  destruct (to_json df) as [text | e [partial|]]; unfold bind, write, raise; cbn [snd];
    eexists; first [apply Hput | exact Hw].
Qed.

(** The cache can be stored: the store returns when [to_json] renders the
    table. *)
Lemma store_cache_storable (df : DataFrame) (text : string) (w : World) :
  storable (config w) (fs w) ->
  to_json df = Rendered text ->
  fst (store_cache (VDataFrame df) w) = Ok tt.
Proof.
  intros (Hmake & Hcache) Hjson.
  apply mkdir_makeable in Hmake.
  destruct (mkdir_returns _ _ Hmake) as (Hdir & Hfiles & _ & Hframe).
  assert (Hopen : writable (fs (snd (mkdir (CONFIG_DIR (config w)) w))) (CACHE_FILE (config w))).
  { destruct Hcache as [(t & c & Hfile) | (Hnone & (above & Hup) & Hout)].
    - left. exists t, c. apply Hfiles. exact Hfile.
    - right. split; [rewrite (Hframe _ Hout); exact Hnone |].
      exists (CONFIG_DIR (config w)), above. split; [exact Hup | exact Hdir]. }
  destruct (store_cache_cases df w) as (_ & _ & [Hok | [Hno | [Hshut | Hbroken]]]).
  - apply Hok.
  - destruct Hno as (_ & Hno). exfalso. apply Hno. apply mkdir_makeable. exact Hmake.
  - destruct Hshut as (_ & _ & _ & Hshut). exfalso. apply Hshut. exact Hopen.
  - destruct Hbroken as (e & partial & Hjson' & _). congruence.
Qed.

(** The fetch once the invoker has handed back a table that is not empty:
    the store, and then the table or the exception of the store as the
    [except] clauses let it out. *)
Lemma fetch_domains_of_table (self : t) (c : Client) (w w1 : World) (df : DataFrame) :
  client self = Some c ->
  _api_call_with_retry (list_domain c) w = (Ok (VDataFrame df), w1) ->
  empty df = false ->
  fetch_domains self w
  = match store_cache (VDataFrame df) w1 with
    | (Ok _, w2) => (Ok (VDataFrame df), w2)
    | (Raise e, w2) => (Raise (reclassified e), w2)
    end.
Proof.
  intros Hc Hrun Hempty.
  unfold fetch_domains, is_ready, the_client. rewrite Hc. cbn [negb].
  run_monad. rewrite Hrun. run_monad. rewrite Hempty. cbn [negb].
  destruct (store_cache (VDataFrame df) w1) as [[[]|e] w2];
    [reflexivity | apply reclassify_reclassified].
Qed.

(** The fetch when the invoker hands back anything else. *)
Lemma fetch_domains_of_other (self : t) (c : Client) (w w1 : World) (r : Result Value) :
  client self = Some c ->
  _api_call_with_retry (list_domain c) w = (r, w1) ->
  (forall df, r = Ok (VDataFrame df) -> empty df = true) ->
  snd (fetch_domains self w) = w1
  /\ (forall df, r = Ok (VDataFrame df) -> fst (fetch_domains self w) = r)
  /\ (forall e, r = Raise e -> fst (fetch_domains self w) = Raise (reclassified e)).
Proof.
  intros Hc Hrun Hr.
  unfold fetch_domains, is_ready, the_client. rewrite Hc. cbn [negb].
  run_monad. rewrite Hrun. run_monad.
  destruct r as [[df|s|tn st]|e]; run_monad.
  - rewrite (Hr df eq_refl). cbn [negb]. cbv beta iota.
    split; [reflexivity |]. split; [reflexivity | discriminate].
  - cbn [reclassify]. split; [reflexivity |]. split; discriminate.
  - cbn [reclassify]. split; [reflexivity |]. split; discriminate.
  - rewrite reclassify_reclassified.
    split; [reflexivity |]. split; [discriminate |]. intros e' [= <-]. reflexivity.
Qed.

(** A ready client starts the fetch by invoking the provider's domain
    listing. *)
Lemma fetch_domains_invokes (self : t) (c : Client) (w : World) :
  client self = Some c ->
  exists events,
    appends w (snd (fetch_domains self w)) (EvInvoke (api_name (list_domain c)) :: events).
Proof.
  intros Hc.
  destruct (api_call_with_retry_invokes (list_domain c) w) as [ev Hev].
  unfold appends in *.
  destruct (_api_call_with_retry (list_domain c) w) as [r w1] eqn:Hrun. cbn [snd] in Hev.
  assert (Hcases : (forall df, r = Ok (VDataFrame df) -> empty df = true)
                   \/ exists df, r = Ok (VDataFrame df) /\ empty df = false).
  { destruct r as [[df|s|tn st]|e]; try (left; discriminate).
    destruct (empty df) eqn:Hempty; [left; intros df' [= <-]; exact Hempty | right; eauto]. }
  destruct Hcases as [Hother | (df & -> & Hempty)].
  - destruct (fetch_domains_of_other self c w w1 r Hc Hrun Hother) as (-> & _).
    eexists; exact Hev.
  - rewrite (fetch_domains_of_table self c w w1 df Hc Hrun Hempty).
    destruct (store_cache_wrote (VDataFrame df) w1) as (events & _ & _ & _ & Htrace).
    unfold appends in Htrace.
    destruct (store_cache (VDataFrame df) w1) as [[[]|e] w2]; cbn [snd] in *;
      rewrite Htrace, Hev, <- app_assoc; eexists; reflexivity.
Qed.

(** A client without credential does not get past the test of
    [is_ready]. *)
Lemma fetch_domains_unready (self : t) (w : World) :
  is_ready self = false ->
  fetch_domains self w = (Raise (ApiTokenError "Token API tidak diatur."), w).
Proof. intros Hready. unfold fetch_domains. rewrite Hready. reflexivity. Qed.

(** A store that returns has written the text of the table to the cache
    file. *)
Lemma store_cache_returns (df : DataFrame) (w : World) :
  fst (store_cache (VDataFrame df) w) = Ok tt ->
  wrote w (snd (store_cache (VDataFrame df) w))
    [EvMkdir (CONFIG_DIR (config w)); EvWrite (CACHE_FILE (config w))]
  /\ exists text,
       to_json df = Rendered text
       /\ fs (snd (store_cache (VDataFrame df) w)) !! CACHE_FILE (config w)
          = Some (File (clock w) text).
Proof.
  intros Hres.
  destruct (store_cache_cases df w)
    as (_ & _ & [(_ & Hw & Htext) | [(Hno & _) | [(Hno & _) | (e & partial & _ & Hno & _)]]]);
    [auto | rewrite Hno in Hres; discriminate | congruence | congruence].
Qed.

(** A regular file in the place of the configuration directory, or a
    directory in the place of the cache file, makes the store fail with an
    [OSError]. *)
Lemma store_cache_blocked (df : DataFrame) (w : World) :
  is_file (fs w) (CONFIG_DIR (config w)) \/ is_directory (fs w) (CACHE_FILE (config w)) ->
  fst (store_cache (VDataFrame df) w) = Raise OSError.
Proof.
  intros Hblock.
  pose proof (mkdir_returns (CONFIG_DIR (config w)) w) as Hmade.
  pose proof (mkdir_raises (CONFIG_DIR (config w)) w) as Hfail.
  unfold store_cache, bind, get_config. cbv beta iota.
  destruct Hblock as [Hfile | Hdir].
  - unfold mkdir. rewrite makedirs_file by exact Hfile. reflexivity.
  - destruct (mkdir (CONFIG_DIR (config w)) w) as [[[]|e1] w2]; cbn [fst snd] in *.
    + destruct (Hmade eq_refl) as (_ & _ & Hdirs & _).
      rewrite open_w_directory by (apply Hdirs; exact Hdir). reflexivity.
    + specialize (Hfail e1 eq_refl). congruence.
Qed.

(** When [to_json] breaks off, the store fails: with the exception of
    [to_json], or before with an [OSError]. *)
Lemma store_cache_broken (df : DataFrame) (w : World) (e : exn) (partial : option string) :
  to_json df = Broken e partial ->
  fst (store_cache (VDataFrame df) w) = Raise OSError
  \/ fst (store_cache (VDataFrame df) w) = Raise e.
Proof.
  intros Hjson.
  destruct (store_cache_cases df w)
    as (_ & _ & [(_ & _ & text & Hno & _) | [(Hno & _) | [(Hno & _) | Hbroken]]]).
  - congruence.
  - rewrite Hno. left. reflexivity.
  - left. exact Hno.
  - destruct Hbroken as (e0 & partial0 & Hjson0 & Hres & _). right. congruence.
Qed.

(** C4, as the code has it.  A cache that is missing, at least 7 days old
    or fails to load with an [IOError] or a [JSONDecodeError] is a miss: the
    call is exactly the fetch from the provider, and nothing of the failed
    read is raised.  On a miss a client that is not ready gets
    [ApiTokenError] and nothing happens.  A ready client invokes the
    provider's domain listing.  When the invoker hands back a table that is
    not empty, the call returns it only once it is stored: whenever the call
    returns, the cache file holds the text that [to_json] made of the table.
    It does return it whenever the cache can be stored and [to_json] renders
    the table.  It raises instead of returning the table when the
    configuration directory is a regular file or the cache path a directory
    ([OSError]), and when [to_json] breaks off. *)
Theorem list_domains_miss_fetches_and_persists (self : t) (w : World) :
  cache_miss w ->
  list_domains self w = fetch_domains self w
  /\ (is_ready self = false ->
      list_domains self w = (Raise (ApiTokenError "Token API tidak diatur."), w))
  /\ (forall c, client self = Some c ->
        (exists events,
           appends w (snd (list_domains self w))
             (EvInvoke (api_name (list_domain c)) :: events))
        /\ forall df w1,
             _api_call_with_retry (list_domain c) w = (Ok (VDataFrame df), w1) ->
             empty df = false ->
             (forall v,
                fst (list_domains self w) = Ok v ->
                v = VDataFrame df
                /\ exists text,
                     to_json df = Rendered text
                     /\ cache_file (snd (list_domains self w)) (clock w1) text
                     /\ appends w1 (snd (list_domains self w))
                          [EvMkdir (CONFIG_DIR (config w)); EvWrite (CACHE_FILE (config w))])
             /\ (forall text,
                   storable (config w) (fs w) -> to_json df = Rendered text ->
                   fst (list_domains self w) = Ok (VDataFrame df))
             /\ (is_file (fs w) (CONFIG_DIR (config w))
                 \/ is_directory (fs w) (CACHE_FILE (config w)) ->
                 fst (list_domains self w) = Raise OSError)
             /\ (forall e partial,
                   to_json df = Broken e partial ->
                   fst (list_domains self w) = Raise OSError
                   \/ fst (list_domains self w) = Raise (reclassified e))).
Proof.
  intros Hmiss. rewrite (list_domains_of_miss self w Hmiss).
  split; [reflexivity |]. split; [apply fetch_domains_unready |].
  intros c Hc. split; [apply fetch_domains_invokes; exact Hc |].
  intros df w1 Hrun Hempty.
  destruct (api_call_with_retry_same_store (list_domain c) w) as (Hfs & Hcfg & _).
  rewrite Hrun in Hfs, Hcfg. cbn [snd] in Hfs, Hcfg.
  rewrite (fetch_domains_of_table self c w w1 df Hc Hrun Hempty).
  pose proof (store_cache_returns df w1) as Hreturns.
  pose proof (fun text => store_cache_storable df text w1) as Hstorable.
  pose proof (store_cache_blocked df w1) as Hblocked.
  pose proof (store_cache_broken df w1) as Hbroken.
  rewrite Hcfg, Hfs in *.
  destruct (store_cache (VDataFrame df) w1) as [[[]|e] w2]; cbn [fst snd] in *.
  - split; [| split; [| split]].
    + intros v [= <-]. split; [reflexivity |].
      destruct (Hreturns eq_refl) as ((_ & Hcfg2 & _ & Htrace) & text & Hjson & Hfile).
      exists text. split; [exact Hjson |]. split; [| exact Htrace].
      unfold cache_file. rewrite Hcfg2, Hcfg. exact Hfile.
    + reflexivity.
    + intros Hblock. specialize (Hblocked Hblock). discriminate.
    + intros e partial Hjson. destruct (Hbroken e partial Hjson); discriminate.
  - split; [| split; [| split]].
    + discriminate.
    + intros text Hcan Hjson. specialize (Hstorable text Hcan Hjson). discriminate.
    + intros Hblock. specialize (Hblocked Hblock). injection Hblocked as ->. reflexivity.
    + intros e0 partial Hjson.
      destruct (Hbroken e0 partial Hjson) as [[= ->] | [= ->]]; [left | right]; reflexivity.
Qed.

End CacheFacts.

(** ** The key decoder *)

Section DecoderFacts.
Import ApiClient Spec.

Lemma length_substring (s : string) (n m : nat) :
  String.length (substring n m s) = Nat.min m (String.length s - n).
Proof.
  revert n m. induction s as [|c s IH]; intros n m.
  - destruct n, m; reflexivity.
  - destruct n as [|n], m as [|m]; cbn [substring String.length]; rewrite ?IH;
      cbn [String.length]; lia.
Qed.

(** A slice that lies inside the key has the width of its range and copies
    the characters of the key at the positions of the range. *)
Lemma slice_is_range (key : string) (lo hi : nat) :
  (lo <= hi)%nat -> (hi <= String.length key)%nat ->
  is_range key lo hi (Str.slice lo hi key).
Proof.
  intros Hlo Hhi. unfold is_range, Str.slice. split.
  - rewrite length_substring. lia.
  - intros i Hi. rewrite substring_correct1 by assumption.
    f_equal. lia.
Qed.

(** Any slice is the range clipped to the key. *)
Lemma slice_is_clipped_range (key : string) (lo hi : nat) :
  (lo <= hi)%nat -> is_clipped_range key lo hi (Str.slice lo hi key).
Proof.
  intros Hlo. unfold is_clipped_range, Str.slice. split.
  - rewrite length_substring. lia.
  - intros i Hi. rewrite length_substring in Hi.
    rewrite substring_correct1 by lia. f_equal. lia.
Qed.

(** C5. On a key of at least 19 characters the decoder returns the six
    segments [key[0:4]], [key[4:6]], [key[6:8]], [key[8:13]], [key[13:16]]
    and [key[16:19]], each of full width; and the key
    ["0000230100001001000"] decodes to 0000, 23, 01, 00001, 001 and 000. *)
Theorem decode_datacontent_key_segments :
  (forall key : string,
     (19 <= String.length key)%nat ->
     exists domain year vertical_group vertical_item horizontal derived,
       _decode_datacontent_key key
       = [("domain", domain); ("year", year); ("vertical_group", vertical_group);
          ("vertical_item", vertical_item); ("horizontal", horizontal);
          ("derived", derived)]%string
       /\ is_range key 0 4 domain
       /\ is_range key 4 6 year
       /\ is_range key 6 8 vertical_group
       /\ is_range key 8 13 vertical_item
       /\ is_range key 13 16 horizontal
       /\ is_range key 16 19 derived)
  /\ _decode_datacontent_key "0000230100001001000"
     = [("domain", "0000"); ("year", "23"); ("vertical_group", "01");
        ("vertical_item", "00001"); ("horizontal", "001"); ("derived", "000")]%string.
Proof.
  split; [| reflexivity].
  intros key Hlen.
  exists (Str.slice 0 4 key), (Str.slice 4 6 key), (Str.slice 6 8 key),
    (Str.slice 8 13 key), (Str.slice 13 16 key), (Str.slice 16 19 key).
  split; [reflexivity |].
  repeat split; apply slice_is_range; lia.
Qed.

(** C10. The decoder is defined on every string: it returns the six fields
    [domain], [year], [vertical_group], [vertical_item], [horizontal] and
    [derived], in this order, each holding its range clipped to the key, so
    that a short key gives shortened or empty segments. *)
Theorem decode_datacontent_key_total (key : string) :
  Dict.keys (_decode_datacontent_key key)
  = ["domain"; "year"; "vertical_group"; "vertical_item"; "horizontal"; "derived"]%string
  /\ (exists domain year vertical_group vertical_item horizontal derived,
        _decode_datacontent_key key
        = [("domain", domain); ("year", year); ("vertical_group", vertical_group);
           ("vertical_item", vertical_item); ("horizontal", horizontal);
           ("derived", derived)]%string
        /\ is_clipped_range key 0 4 domain
        /\ is_clipped_range key 4 6 year
        /\ is_clipped_range key 6 8 vertical_group
        /\ is_clipped_range key 8 13 vertical_item
        /\ is_clipped_range key 13 16 horizontal
        /\ is_clipped_range key 16 19 derived)
  /\ _decode_datacontent_key "00002301000"
     = [("domain", "0000"); ("year", "23"); ("vertical_group", "01");
        ("vertical_item", "000"); ("horizontal", ""); ("derived", "")]%string
  /\ _decode_datacontent_key ""
     = [("domain", ""); ("year", ""); ("vertical_group", "");
        ("vertical_item", ""); ("horizontal", ""); ("derived", "")]%string.
Proof.
  split; [reflexivity |]. split; [| split; reflexivity].
  exists (Str.slice 0 4 key), (Str.slice 4 6 key), (Str.slice 6 8 key),
    (Str.slice 8 13 key), (Str.slice 13 16 key), (Str.slice 16 19 key).
  split; [reflexivity |].
  repeat split; apply slice_is_clipped_range; lia.
Qed.

End DecoderFacts.

(** ** The metadata aggregator *)

Section MetadataFacts.
Context {lib : PyLib}.
Import ApiClient Sys Spec.

Lemma fetch_world (params : Dict.t string) (model : string) (w : World) :
  snd (fetch params model w) = log (EvHttpGet base_url (Dict.set params "model" model)) w.
Proof.
  unfold fetch, bind, requests_get, raise_for_status, lift.
  destruct (endpoint w base_url (Dict.set params "model" model)) as [response|e];
    [| reflexivity].
  destruct ((400 <=? status_code response)%Z && (status_code response <? 600)%Z);
    cbn; [reflexivity |].
  destruct (json response); reflexivity.
Qed.

(** One [fetch_for_domain] issues its four requests, whatever comes back. *)
Lemma fetch_for_domain_requests (token var_id target_domain : string) (w : World) :
  appends w (snd (fetch_for_domain token var_id target_domain w))
    (metadata_requests token var_id target_domain).
Proof.
  unfold appends, fetch_for_domain, bind, gather4.
  set (params := [("domain", target_domain); ("var", var_id); ("key", token)]%string).
  pose proof (fetch_world params "vervar" w) as H1.
  destruct (fetch params "vervar" w) as [r1 w1]. cbn [snd] in H1.
  pose proof (fetch_world params "turvar" w1) as H2.
  destruct (fetch params "turvar" w1) as [r2 w2]. cbn [snd] in H2.
  pose proof (fetch_world params "th" w2) as H3.
  destruct (fetch params "th" w2) as [r3 w3]. cbn [snd] in H3.
  pose proof (fetch_world params "turth" w3) as H4.
  destruct (fetch params "turth" w3) as [r4 w4]. cbn [snd] in H4.
  assert (Hw4 : trace w4 = trace w ++ metadata_requests token var_id target_domain).
  { subst w4 w3 w2 w1. cbn. rewrite <- !app_assoc. reflexivity. }
  destruct r1 as [j1|e1]; [| exact Hw4].
  destruct r2 as [j2|e2]; [| exact Hw4].
  destruct r3 as [j3|e3]; [| exact Hw4].
  destruct r4 as [j4|e4]; [| exact Hw4].
  cbn [and_then]. unfold lift.
  destruct (extract_list j1 vervar_mapping); [| exact Hw4].
  destruct (extract_list j2 turvar_mapping); [| exact Hw4].
  destruct (extract_list j3 th_mapping); [| exact Hw4].
  destruct (extract_list j4 turth_mapping); exact Hw4.
Qed.

(** The test of the fallback for a complete result is the negation of
    [incomplete]. *)
Lemma complete_not_incomplete (m : Metadata) :
  nonempty (vertical_vars m) && nonempty (horizontal_vars m) && nonempty (years m)
  = negb (incomplete m).
Proof.
  unfold incomplete.
  destruct (nonempty (vertical_vars m)), (nonempty (horizontal_vars m)),
    (nonempty (years m)); reflexivity.
Qed.

(** The fallback step for an incomplete result of a domain other than
    ["0000"]: domain ["0000"] is fetched; its result replaces the original
    one when it is complete, and the original one stays otherwise. *)
Lemma resolve_fallback_incomplete (token var_id domain_id : string) (m : Metadata) (w : World) :
  incomplete m = true ->
  domain_id <> "0000"%string ->
  resolve_fallback token var_id domain_id m w
  = match fetch_for_domain token var_id "0000" w with
    | (Ok fallback, w') =>
        (Ok (if incomplete fallback then m else set_source_domain fallback "0000"), w')
    | (Raise e, w') => (Raise e, w')
    end.
Proof.
  intros Hinc Hdom. unfold resolve_fallback, bind.
  rewrite Hinc. apply String.eqb_neq in Hdom. rewrite Hdom. cbn [negb andb].
  destruct (fetch_for_domain token var_id "0000" w) as [[fallback|e] w']; [| reflexivity].
  rewrite complete_not_incomplete. destruct (incomplete fallback); reflexivity.
Qed.

(** The call for a ready client with a stored token, once the fetch for the
    requested domain has returned. *)
Lemma get_dynamic_table_metadata_after_fetch (self : t) (domain_id var_id token : string)
    (w w1 : World) (m : Metadata) :
  is_ready self = true ->
  load_token (config w) = Some token ->
  token <> ""%string ->
  fetch_for_domain token var_id domain_id w = (Ok m, w1) ->
  get_dynamic_table_metadata self domain_id var_id w
  = match resolve_fallback token var_id domain_id m w1 with
    | (Ok m', w2) => if incomplete m' then (Raise metadata_unavailable, w2) else (Ok m', w2)
    | (Raise e, w2) => match reclassify e with
                       | Some h => h w2
                       | None => (Raise e, w2)
                       end
    end.
Proof.
  intros Hready Htoken Hne Hfetch.
  unfold get_dynamic_table_metadata, handle_api_errors. rewrite Hready. cbn [negb].
  unfold try_except, bind, get_config. cbv beta iota. rewrite Htoken.
  unfold Str.truthy. apply String.eqb_neq in Hne. rewrite Hne. cbn [negb].
  rewrite Hfetch. cbv beta iota.
  destruct (resolve_fallback token var_id domain_id m w1) as [[m'|e] w2]; [| reflexivity].
  destruct (incomplete m'); reflexivity.
Qed.

(** C6. A call for a domain other than ["0000"] whose result misses one of
    the three required lists fetches domain ["0000"] as well.  A complete
    fallback result is returned, with [source_domain] ["0000"]; with an
    incomplete one the original result is kept; and whenever the result
    kept after this step is still incomplete, the call raises
    [BpsApiDataError]. *)
Theorem metadata_fallback_resolution (self : t) (domain_id var_id token : string)
    (w w1 : World) (m : Metadata) :
  is_ready self = true ->
  load_token (config w) = Some token ->
  token <> ""%string ->
  domain_id <> "0000"%string ->
  fetch_for_domain token var_id domain_id w = (Ok m, w1) ->
  incomplete m = true ->
  appends w1 (snd (get_dynamic_table_metadata self domain_id var_id w))
    (metadata_requests token var_id "0000")
  /\ (forall fallback w2,
        fetch_for_domain token var_id "0000" w1 = (Ok fallback, w2) ->
        incomplete fallback = false ->
        resolve_fallback token var_id domain_id m w1
        = (Ok (set_source_domain fallback "0000"), w2)
        /\ get_dynamic_table_metadata self domain_id var_id w
           = (Ok (set_source_domain fallback "0000"), w2)
        /\ source_domain (set_source_domain fallback "0000") = "0000"%string)
  /\ (forall fallback w2,
        fetch_for_domain token var_id "0000" w1 = (Ok fallback, w2) ->
        incomplete fallback = true ->
        resolve_fallback token var_id domain_id m w1 = (Ok m, w2)
        /\ get_dynamic_table_metadata self domain_id var_id w
           = (Raise metadata_unavailable, w2))
  /\ (forall m' w2,
        resolve_fallback token var_id domain_id m w1 = (Ok m', w2) ->
        incomplete m' = true ->
        get_dynamic_table_metadata self domain_id var_id w
        = (Raise metadata_unavailable, w2)).
Proof.
  intros Hready Htoken Hne Hdom Hfetch Hinc.
  rewrite (get_dynamic_table_metadata_after_fetch self domain_id var_id token w w1 m)
    by assumption.
  pose proof (resolve_fallback_incomplete token var_id domain_id m w1 Hinc Hdom) as Hres.
  pose proof (fetch_for_domain_requests token var_id "0000" w1) as Hreq.
  split; [| split; [| split]].
  - rewrite Hres. unfold appends in *.
    destruct (fetch_for_domain token var_id "0000" w1) as [[fallback|e] w2];
      cbn [snd] in Hreq.
    + destruct (incomplete fallback) eqn:Hfb.
      * rewrite Hinc. exact Hreq.
      * assert (Hset : incomplete (set_source_domain fallback "0000") = false)
          by (destruct fallback; exact Hfb).
        rewrite Hset. exact Hreq.
    + destruct e as [status| | | | | | | | | | | | |]; cbn; try exact Hreq.
      destruct (status =? 401)%Z; [exact Hreq |].
      destruct (status >=? 500)%Z; exact Hreq.
  - intros fallback w2 Hfb Hcomplete. rewrite Hres, Hfb, Hcomplete.
    assert (Hset : incomplete (set_source_domain fallback "0000") = false)
      by (destruct fallback; exact Hcomplete).
    rewrite Hset. repeat split.
  - intros fallback w2 Hfb Hstill. rewrite Hres, Hfb, Hstill, Hinc. split; reflexivity.
  - intros m' w2 Hkept Hstill. rewrite Hkept, Hstill. reflexivity.
Qed.

End MetadataFacts.

(** ** Normalization of tables *)

Section NormalizeFacts.
Import ApiClient Spec.

Lemma pretty_N_go_nonempty (x : N) (s : string) :
  s <> ""%string -> pretty_N_go x s <> ""%string.
Proof.
  revert s. induction (N.lt_wf_0 x) as [x _ IH]; intros s Hs.
  destruct (N.eq_dec x 0%N) as [-> | Hx].
  - rewrite pretty_N_go_0. exact Hs.
  - rewrite pretty_N_go_step by lia.
    apply IH; [apply N.div_lt; lia | discriminate].
Qed.

Lemma pretty_N_nonempty (x : N) : pretty x <> ""%string.
Proof.
  unfold pretty, pretty_N. destruct (decide (x = 0%N)) as [_ | Hx]; [discriminate |].
  rewrite pretty_N_go_step by lia.
  apply pretty_N_go_nonempty. discriminate.
Qed.

(** [str] of an integer is never the empty string. *)
Lemma pretty_Z_nonempty (n : Z) : pretty n <> ""%string.
Proof.
  destruct n as [|p|p]; unfold pretty, pretty_Z.
  - discriminate.
  - apply pretty_N_nonempty.
  - discriminate.
Qed.

Lemma name_columns_named (i : nat) (cols : list Label) :
  Forall named (name_columns i cols).
Proof.
  revert i. induction cols as [|col rest IH]; intros i; cbn [name_columns].
  - constructor.
  - constructor; [| apply IH].
    destruct (eq_empty_str col || isna col) eqn:Htest.
    + eexists; split; [reflexivity | discriminate].
    + exists (str col). split; [reflexivity |].
      destruct col as [s|n| |]; cbn in Htest |- *; try discriminate.
      * rewrite orb_false_r in Htest. apply String.eqb_neq. exact Htest.
      * apply pretty_Z_nonempty.
Qed.

Lemma name_columns_fixed (i : nat) (cols : list Label) :
  Forall named cols -> name_columns i cols = cols.
Proof.
  intros Hnamed. revert i.
  induction Hnamed as [|col rest (s & -> & Hs) _ IH]; intros i; cbn [name_columns].
  - reflexivity.
  - rewrite IH. cbn. apply String.eqb_neq in Hs. rewrite Hs. reflexivity.
Qed.

Lemma dropna_all_has_value (rs : list (Label * list Cell)) :
  Forall has_value (dropna_all rs).
Proof.
  unfold dropna_all. apply List.Forall_forall. intros r Hr.
  apply List.filter_In in Hr. exact (proj2 Hr).
Qed.

Lemma renumber_has_value (i : nat) (rs : list (Label * list Cell)) :
  Forall has_value rs -> Forall has_value (renumber i rs).
Proof.
  intros H. revert i. induction H as [|[l cells] rest Hr _ IH]; intros i; cbn [renumber];
    constructor; [exact Hr | apply IH].
Qed.

Lemma dropna_all_fixed (rs : list (Label * list Cell)) :
  Forall has_value rs -> dropna_all rs = rs.
Proof.
  intros H. induction H as [|r rest Hr _ IH]; [reflexivity |].
  unfold dropna_all in *. cbn [List.filter]. unfold has_value in Hr. rewrite Hr, IH.
  reflexivity.
Qed.

Lemma renumber_renumber (i : nat) (rs : list (Label * list Cell)) :
  renumber i (renumber i rs) = renumber i rs.
Proof.
  revert i. induction rs as [|[l cells] rest IH]; intros i; cbn [renumber];
    [reflexivity | rewrite IH; reflexivity].
Qed.

(** Normalizing a normalized table changes nothing, whatever the table. *)
Lemma clean_bps_dataframe_twice (df : DataFrame) :
  _clean_bps_dataframe (_clean_bps_dataframe df) = _clean_bps_dataframe df.
Proof.
  unfold _clean_bps_dataframe at 1. cbn [columns rows _clean_bps_dataframe].
  rewrite name_columns_fixed by apply name_columns_named.
  unfold reset_index.
  rewrite dropna_all_fixed by (apply renumber_has_value, dropna_all_has_value).
  rewrite renumber_renumber. reflexivity.
Qed.

(** C8. On a table with a flat header that is not empty, normalizing twice
    gives what normalizing once gives. *)
Theorem clean_bps_dataframe_idempotent (x : DataFrame) :
  is_multi (columns x) = false ->
  empty x = false ->
  _clean_bps_dataframe (_clean_bps_dataframe x) = _clean_bps_dataframe x.
Proof. intros _ _. apply clean_bps_dataframe_twice. Qed.

End NormalizeFacts.

(** ** Export *)

Section ExportFacts.
Context {lib : PyLib}.
Import ApiClient Sys Spec.

(** Viewing a static table leaves the file system, the configuration and
    the endpoint alone. *)
Lemma view_static_table_same_store (self : t) (domain_id table_id : string) (w : World) :
  same_store w (snd (view_static_table self domain_id table_id w)).
Proof.
  unfold view_static_table, handle_api_errors.
  destruct (is_ready self); cbn [negb]; [| unfold same_store; auto].
  unfold try_except, bind, the_client.
  destruct (client self) as [c|]; [| unfold same_store; cbn; auto].
  unfold ret at 1. cbv beta iota.
  pose proof (api_call_with_retry_same_store (view_statictable c domain_id table_id) w) as Hs.
  destruct (_api_call_with_retry (view_statictable c domain_id table_id) w) as [[v|e] w1];
    cbn [snd] in Hs.
  - destruct v as [df|s|tn st]; cbn; try exact Hs.
    destruct (empty df); cbn; exact Hs.
  - destruct e as [status| | | | | | | | | | | | |]; cbn; try exact Hs.
    destruct (status =? 401)%Z; [exact Hs |].
    destruct (status >=? 500)%Z; exact Hs.
Qed.

(** A table that [view_static_table] returns is not empty. *)
Lemma view_static_table_not_empty (self : t) (domain_id table_id : string) (w w1 : World)
    (df : DataFrame) :
  view_static_table self domain_id table_id w = (Ok df, w1) -> empty df = false.
Proof.
  unfold view_static_table, handle_api_errors.
  destruct (is_ready self); cbn [negb]; [| discriminate].
  unfold try_except, bind, the_client.
  destruct (client self) as [c|]; [| discriminate].
  unfold ret at 1. cbv beta iota.
  destruct (_api_call_with_retry (view_statictable c domain_id table_id) w) as [[v|e] w2].
  - destruct v as [df'|s|tn st]; cbn; try discriminate.
    destruct (empty df') eqn:Hempty; cbn; [discriminate |].
    intros [= <- <-]. exact Hempty.
  - destruct e as [status| | | | | | | | | | | | |]; cbn; try discriminate.
    destruct (status =? 401)%Z; [discriminate |].
    destruct (status >=? 500)%Z; discriminate.
Qed.

(** What [download_table] does once the table is there and the destination
    is taken: it raises [FileExistsError] and writes nothing. *)
Lemma download_table_after_view (self : t) (domain_id table_id filename format : string)
    (w w1 : World) (df : DataFrame) :
  is_ready self = true ->
  view_static_table self domain_id table_id w = (Ok df, w1) ->
  is_Some (fs w !! destination w filename) ->
  download_table self domain_id table_id filename format false w
  = (Raise (FileExistsError (destination w filename)), w1).
Proof.
  intros Hready Hview Hthere.
  pose proof (view_static_table_same_store self domain_id table_id w) as (Hfs & Hcfg & _).
  pose proof (view_static_table_not_empty self domain_id table_id w w1 df Hview) as Hempty.
  rewrite Hview in Hfs, Hcfg. cbn [snd] in Hfs, Hcfg.
  unfold download_table. rewrite Hready. cbn [negb].
  unfold bind at 1. rewrite Hview.
  unfold bind at 1. rewrite Hempty. unfold ret at 1.
  unfold bind at 1. unfold get_config at 1.
  unfold destination in *. rewrite Hcfg.
  destruct (download_path (config w)) as [config_path|].
  - destruct (Str.truthy (Some config_path)).
    + unfold bind, is_dir, exists_, ret, raise. rewrite Hfs.
      destruct (fs w !! config_path) as [[tm tx|tm]|];
        rewrite bool_decide_eq_true_2 by assumption; reflexivity.
    + unfold bind, exists_, ret, raise. rewrite Hfs.
      rewrite bool_decide_eq_true_2 by assumption. reflexivity.
  - unfold bind, exists_, ret, raise. rewrite Hfs.
    rewrite bool_decide_eq_true_2 by assumption. reflexivity.
Qed.

(** C7, as the code has it.  With [overwrite=False] and a destination that
    exists, the call fails and the file system, the destination included,
    stays as it is.  The failure is the first one on the way: that of a
    client that is not ready ([ApiTokenError]), else the one that the fetch
    of the table raises, and [FileExistsError] only when the table has been
    fetched, because the destination is looked at after the fetch. *)
Theorem download_table_keeps_existing (self : t) (domain_id table_id filename format : string)
    (w : World) :
  is_Some (fs w !! destination w filename) ->
  (exists e, fst (download_table self domain_id table_id filename format false w) = Raise e)
  /\ fs (snd (download_table self domain_id table_id filename format false w)) = fs w
  /\ (is_ready self = false ->
      download_table self domain_id table_id filename format false w
      = (Raise (ApiTokenError "Token API tidak diatur."), w))
  /\ (forall e w1,
        is_ready self = true ->
        view_static_table self domain_id table_id w = (Raise e, w1) ->
        download_table self domain_id table_id filename format false w = (Raise e, w1))
  /\ (forall df w1,
        is_ready self = true ->
        view_static_table self domain_id table_id w = (Ok df, w1) ->
        download_table self domain_id table_id filename format false w
        = (Raise (FileExistsError (destination w filename)), w1)).
Proof.
  intros Hthere.
  assert (Hunready : is_ready self = false ->
             download_table self domain_id table_id filename format false w
             = (Raise (ApiTokenError "Token API tidak diatur."), w)).
  { intros Hready. unfold download_table. rewrite Hready. reflexivity. }
  assert (Hfetch : forall e w1,
             is_ready self = true ->
             view_static_table self domain_id table_id w = (Raise e, w1) ->
             download_table self domain_id table_id filename format false w = (Raise e, w1)).
  { intros e w1 Hready Hview. unfold download_table. rewrite Hready. cbn [negb].
    unfold bind at 1. rewrite Hview. reflexivity. }
  assert (Hlast : forall df w1,
             is_ready self = true ->
             view_static_table self domain_id table_id w = (Ok df, w1) ->
             download_table self domain_id table_id filename format false w
             = (Raise (FileExistsError (destination w filename)), w1)).
  { intros df w1 Hready Hview. apply (download_table_after_view _ _ _ _ _ _ _ df); assumption. }
  pose proof (view_static_table_same_store self domain_id table_id w) as (Hfs & _).
  split; [| split; [| split; [exact Hunready | split; [exact Hfetch | exact Hlast]]]].
  - destruct (is_ready self) eqn:Hready.
    + destruct (view_static_table self domain_id table_id w) as [[df|e] w1] eqn:Hview.
      * rewrite (Hlast df w1) by auto. eexists; reflexivity.
      * rewrite (Hfetch e w1) by auto. eexists; reflexivity.
    + rewrite Hunready by reflexivity. eexists; reflexivity.
  - destruct (is_ready self) eqn:Hready.
    + destruct (view_static_table self domain_id table_id w) as [[df|e] w1] eqn:Hview;
        cbn [snd] in Hfs.
      * rewrite (Hlast df w1) by auto. exact Hfs.
      * rewrite (Hfetch e w1) by auto. exact Hfs.
    + rewrite Hunready by reflexivity. reflexivity.
Qed.

End ExportFacts.

(** ** Concrete runs *)

Section Runs.
Import ApiClient Spec.

(** A provider that answers HTTP 429 three times meets the premise of C1:
    the invoker raises [HTTPError] 429 after three invocations. *)
Lemma retry_exhausted_raises_http_429_witness :
  fst (_api_call_with_retry (Demo.rate_limited "list_domain" 3 (VStr "late")) (Demo.no_cache 0))
  = Raise (HTTPError 429)
  /\ invocations
       (snd (_api_call_with_retry (Demo.rate_limited "list_domain" 3 (VStr "late"))
               (Demo.no_cache 0)))
     = 3%nat.
Proof.
  destruct (retry_exhausted_raises_http_429
              (Demo.rate_limited "list_domain" 3 (VStr "late")) (Demo.no_cache 0))
    as (Hres & _ & _ & Hcount).
  - intros i Hi. destruct i as [|[|[|i]]]; [reflexivity | reflexivity | reflexivity | lia].
  - split; [exact Hres | exact Hcount].
Defined.

(** A provider that answers HTTP 429 twice and then returns. *)
Lemma retry_twice_then_success_witness :
  fst (_api_call_with_retry (Demo.rate_limited "list_domain" 2 (VStr "done")) (Demo.no_cache 0))
  = Ok (VStr "done")
  /\ sleeps
       (snd (_api_call_with_retry (Demo.rate_limited "list_domain" 2 (VStr "done"))
               (Demo.no_cache 0)))
     = [1; 2]
  /\ invocations
       (snd (_api_call_with_retry (Demo.rate_limited "list_domain" 2 (VStr "done"))
               (Demo.no_cache 0)))
     = 3%nat.
Proof.
  destruct (retry_twice_then_success
              (Demo.rate_limited "list_domain" 2 (VStr "done")) (Demo.no_cache 0) (VStr "done")
              eq_refl eq_refl eq_refl)
    as (Hres & Hsleeps & Hcount & _).
  split; [exact Hres | split; [exact Hsleeps | exact Hcount]].
Defined.

(** A cache file written one hour ago that holds [[1]]. *)
Lemma list_domains_serves_fresh_cache_witness :
  fst (list_domains (lib := Demo.lib) (Demo.ready 0) (Demo.with_cache 3600000000 0 "[1]"))
  = Ok (VDataFrame (mkDataFrame (Index [LInt 0]) [(LInt 0, [Val (JNum 1)])]))
  /\ snd (list_domains (lib := Demo.lib) (Demo.ready 0) (Demo.with_cache 3600000000 0 "[1]"))
     = Demo.with_cache 3600000000 0 "[1]".
Proof.
  destruct (list_domains_serves_fresh_cache (lib := Demo.lib) (Demo.ready 0)
              (Demo.with_cache 3600000000 0 "[1]") 0 "[1]" (JList [JNum 1])
              (mkDataFrame (Index [LInt 0]) [(LInt 0, [Val (JNum 1)])]))
    as (Hres & _ & Hworld).
  - vm_compute. reflexivity.
  - vm_compute. reflexivity.
  - reflexivity.
  - reflexivity.
  - split; [exact Hres | exact Hworld].
Defined.

(** The same cache file, read by a client without credential. *)
Lemma list_domains_cache_precedes_credential_witness :
  list_domains (lib := Demo.lib) Demo.unready (Demo.with_cache 3600000000 0 "[1]")
  = (Ok (VDataFrame (mkDataFrame (Index [LInt 0]) [(LInt 0, [Val (JNum 1)])])),
     Demo.with_cache 3600000000 0 "[1]").
Proof.
  destruct (list_domains_cache_precedes_credential (lib := Demo.lib) Demo.unready
              (Demo.with_cache 3600000000 0 "[1]") 0 "[1]" (JList [JNum 1])
              (mkDataFrame (Index [LInt 0]) [(LInt 0, [Val (JNum 1)])]))
    as (Hrun & _).
  - reflexivity.
  - vm_compute. reflexivity.
  - vm_compute. reflexivity.
  - reflexivity.
  - reflexivity.
  - exact Hrun.
Defined.

(** C4 as stated fails: with no cache file and a client that is not ready,
    [list_domains] raises [ApiTokenError] and the provider is not invoked. *)
Lemma list_domains_miss_without_credential :
  cache_miss (lib := Demo.lib) (Demo.no_cache 0)
  /\ list_domains (lib := Demo.lib) Demo.unready (Demo.no_cache 0)
     = (Raise (ApiTokenError "Token API tidak diatur."), Demo.no_cache 0)
  /\ invocations (snd (list_domains (lib := Demo.lib) Demo.unready (Demo.no_cache 0))) = 0%nat.
Proof.
  split; [apply miss_absent; vm_compute; reflexivity |].
  split; vm_compute; reflexivity.
Qed.

(** A ready client in a home where it has not run yet: the provider is
    asked, the directory of the configuration is made, and the table is in
    the cache file when the call returns. *)
Lemma list_domains_miss_fetches_and_persists_witness :
  fst (list_domains (lib := Demo.lib) (Demo.ready 0) (Cases.at_home 10))
  = Ok (VDataFrame Demo.domains)
  /\ cache_file (lib := Demo.lib)
       (snd (list_domains (lib := Demo.lib) (Demo.ready 0) (Cases.at_home 10)))
       10 "json:domain_id,domain_name:2".
Proof.
  destruct (list_domains_miss_fetches_and_persists (lib := Demo.lib) (Demo.ready 0)
              (Cases.at_home 10))
    as (_ & _ & Hready).
  - apply miss_absent. vm_compute. reflexivity.
  - destruct (Hready (Demo.provider 0) eq_refl) as (_ & Hstore).
    destruct (Hstore Demo.domains (log (EvInvoke "list_domain") (Cases.at_home 10))
                eq_refl eq_refl)
      as (Honly & Hdoes & _).
    assert (Hres : fst (list_domains (lib := Demo.lib) (Demo.ready 0) (Cases.at_home 10))
                   = Ok (VDataFrame Demo.domains)).
    { apply (Hdoes "json:domain_id,domain_name:2"); [| reflexivity].
      split.
      - apply (makeable_below _ "/home/user/.stadata-x" "/home/user" ["/home"; "/"]);
          [vm_compute; reflexivity |].
        apply makeable_there. exists 0. vm_compute. reflexivity.
      - right. split; [vm_compute; reflexivity |].
        split; [exists ["/home/user"; "/home"; "/"]; vm_compute; reflexivity |].
        vm_compute. intros [H | [H | [H | [H | []]]]]; discriminate. }
    split; [exact Hres |].
    destruct (Honly _ Hres) as (_ & text & Hjson & Hfile & _).
    injection Hjson as <-. exact Hfile.
Defined.

(** The key of the specification, through the general statement of C5: its
    first segment is the four characters 0000. *)
Lemma decode_datacontent_key_segments_witness :
  (19 <= String.length "0000230100001001000")%nat
  /\ exists domain rest,
       _decode_datacontent_key "0000230100001001000" = ("domain", domain) :: rest
       /\ is_range "0000230100001001000" 0 4 domain.
Proof.
  split; [vm_compute; lia |].
  destruct (proj1 decode_datacontent_key_segments "0000230100001001000")
    as (domain & year & vgroup & vitem & horizontal & derived & Hdecode & Hdomain & _).
  - vm_compute. lia.
  - exists domain. eexists. split; [exact Hdecode | exact Hdomain].
Defined.

(** A regional domain without reference lists, in front of an endpoint that
    has them for domain 0000: the national lists come back. *)
Lemma metadata_fallback_resolution_witness :
  exists fallback,
    fst (get_dynamic_table_metadata (lib := Demo.lib) (Demo.ready 0) "1100" "70"
           (Demo.online Demo.national_only))
    = Ok fallback
    /\ source_domain fallback = "0000"%string
    /\ incomplete fallback = false.
Proof.
  destruct (fetch_for_domain (lib := Demo.lib) "secret" "70" "1100"
              (Demo.online Demo.national_only)) as [r w1] eqn:Hfirst.
  destruct (fetch_for_domain (lib := Demo.lib) "secret" "70" "0000" w1)
    as [r2 w2] eqn:Hsecond.
  vm_compute in Hfirst. injection Hfirst as <- <-.
  vm_compute in Hsecond. injection Hsecond as <- <-.
  destruct (metadata_fallback_resolution (lib := Demo.lib) (Demo.ready 0) "1100" "70" "secret"
              (Demo.online Demo.national_only) _ _ eq_refl eq_refl
              ltac:(discriminate) ltac:(discriminate) eq_refl eq_refl)
    as (_ & Hcomplete & _ & _).
  destruct (Hcomplete _ _ eq_refl eq_refl) as (_ & Hrun & Hsource).
  eexists. split; [rewrite Hrun; reflexivity |]. split; [exact Hsource | reflexivity].
Defined.

(** C7 as stated fails: with [overwrite=False] and an existing destination,
    a ready client whose provider cannot be reached fails with
    [NoInternetError], and a client without credential with
    [ApiTokenError]; neither failure is [FileExistsError]. *)
Lemma download_table_existing_other_failure :
  is_Some (fs (Demo.with_export 5)
             !! destination (lib := Demo.lib) (Demo.with_export 5) "table.csv")
  /\ fst (download_table (lib := Demo.lib) Demo.cut_off "0000" "1" "table.csv" "csv" false
            (Demo.with_export 5))
     = Raise (NoInternetError "Tidak ada koneksi internet.")
  /\ fst (download_table (lib := Demo.lib) Demo.unready "0000" "1" "table.csv" "csv" false
            (Demo.with_export 5))
     = Raise (ApiTokenError "Token API tidak diatur.").
Proof.
  split; [vm_compute; eauto |].
  split; vm_compute; reflexivity.
Qed.

(** A ready client whose provider returns the table: the existing
    [table.csv] makes the call fail with [FileExistsError] and keeps its
    bytes. *)
Lemma download_table_keeps_existing_witness :
  fst (download_table (lib := Demo.lib) (Demo.ready 0) "0000" "1" "table.csv" "csv" false
         (Demo.with_export 5))
  = Raise (FileExistsError "/home/user/table.csv")
  /\ fs (snd (download_table (lib := Demo.lib) (Demo.ready 0) "0000" "1" "table.csv" "csv"
                false (Demo.with_export 5)))
     !! "/home/user/table.csv"
     = Some (File 0 "old bytes").
Proof.
  destruct (download_table_keeps_existing (lib := Demo.lib) (Demo.ready 0) "0000" "1"
              "table.csv" "csv" (Demo.with_export 5))
    as (_ & Hfs & _ & _ & Hraise).
  - vm_compute. eauto.
  - split.
    + rewrite (Hraise Demo.domains (log (EvInvoke "view_statictable") (Demo.with_export 5))
                 eq_refl eq_refl).
      reflexivity.
    + rewrite Hfs. vm_compute. reflexivity.
Defined.

(** A flat table with an unnamed column and an empty row. *)
Lemma clean_bps_dataframe_idempotent_witness :
  _clean_bps_dataframe
    (_clean_bps_dataframe
       (mkDataFrame (Index [LStr "Provinsi"; LStr ""; LInt 2023])
          [(LInt 0, [Val (JStr "ACEH"); NA; Val (JNum 15000)]); (LInt 1, [NA; NA; NA])]))
  = mkDataFrame (Index [LStr "Provinsi"; LStr "Unnamed_1"; LStr "2023"])
      [(LInt 0, [Val (JStr "ACEH"); NA; Val (JNum 15000)])].
Proof.
  rewrite (clean_bps_dataframe_idempotent
             (mkDataFrame (Index [LStr "Provinsi"; LStr ""; LInt 2023])
                [(LInt 0, [Val (JStr "ACEH"); NA; Val (JNum 15000)]); (LInt 1, [NA; NA; NA])])
             eq_refl eq_refl).
  vm_compute. reflexivity.
Defined.

End Runs.

(** * Further properties of the access layer *)

(** ** The retrying invoker, for any operation *)

Section RetryOutcome.
Import ApiClient Sys.

Lemma rate_limit_dec (e : exn) : {e = HTTPError 429} + {e <> HTTPError 429}.
Proof.
  destruct e as [status| | | | | | | | | | | | |]; try (right; discriminate).
  destruct (Z.eq_dec status 429) as [-> | Hne]; [left; reflexivity | right; congruence].
Qed.

Lemma rate_limit_dec_result (f : ApiFunction) (w : World) (k : nat) :
  {api_run f (invocations w + k) = Raise (HTTPError 429)}
  + {api_run f (invocations w + k) <> Raise (HTTPError 429)}.
Proof.
  destruct (api_run f (invocations w + k)) as [v|e]; [right; discriminate |].
  destruct (rate_limit_dec e) as [-> | Hne]; [left; reflexivity | right; congruence].
Qed.

(** An outcome that ends the loop at once: a value, or an exception other
    than HTTP 429. *)
Lemma retry_loop_final (f : ApiFunction) (attempt : nat) (rest : list nat) (w : World) :
  api_run f (invocations w) <> Raise (HTTPError 429) ->
  retry_loop f (attempt :: rest) w
  = (api_run f (invocations w), log (EvInvoke (api_name f)) w).
Proof.
  intros Hne. destruct (api_run f (invocations w)) as [v|e] eqn:Hrun.
  - apply retry_loop_ok. exact Hrun.
  - apply retry_loop_other; [exact Hrun | congruence].
Qed.

(** X1. Whatever the operation does, the invoker hands out the outcome of
    its last invocation: it invokes the operation [k + 1] times for some
    [k < 3], the first [k] invocations answered HTTP 429, it slept the first
    [k] of the delays 1 and 2, and it stopped at the first outcome that is
    not HTTP 429 or at the third invocation.  So it never invokes more than
    three times and raises nothing the operation did not raise. *)
Theorem api_call_with_retry_outcome (f : ApiFunction) (w : World) :
  exists k,
    (k < 3)%nat
    /\ (forall j, (j < k)%nat -> api_run f (invocations w + j) = Raise (HTTPError 429))
    /\ (api_run f (invocations w + k) = Raise (HTTPError 429) -> k = 2%nat)
    /\ fst (_api_call_with_retry f w) = api_run f (invocations w + k)
    /\ invocations (snd (_api_call_with_retry f w)) = (invocations w + k + 1)%nat
    /\ sleeps (snd (_api_call_with_retry f w)) = sleeps w ++ firstn k [1; 2].
Proof.
  unfold _api_call_with_retry. cbn [seq max_retries].
  destruct (rate_limit_dec_result f w 0) as [H0 | H0].
  2: { exists 0%nat. rewrite Nat.add_0_r in *.
       rewrite retry_loop_final by exact H0. cbn [fst snd].
       split; [lia |]. split; [intros j Hj; lia |]. split; [intros H; contradiction |].
       split; [reflexivity |]. split; [count_invocations; lia |].
       unfold sleeps. cbn [snd log trace]. rewrite sleeps_app. reflexivity. }
  rewrite Nat.add_0_r in H0.
  rewrite retry_loop_429_again; [| exact H0 | cbn; lia].
  destruct (rate_limit_dec_result f w 1) as [H1 | H1].
  2: { exists 1%nat.
       rewrite retry_loop_final by (count_invocations; exact H1). cbn [fst snd].
       split; [lia |]. split.
       { intros j Hj. assert (j = 0%nat) as -> by lia. rewrite Nat.add_0_r. exact H0. }
       split; [intros H; contradiction |].
       split; [count_invocations; reflexivity |]. split; [count_invocations; lia |].
       unfold sleeps. cbn. rewrite <- !app_assoc, sleeps_app. reflexivity. }
  rewrite retry_loop_429_again; [| count_invocations; exact H1 | cbn; lia].
  exists 2%nat. split; [lia |]. split.
  { intros j Hj. destruct j as [|[|j]]; [rewrite Nat.add_0_r; exact H0 | exact H1 | lia]. }
  split; [reflexivity |].
  destruct (rate_limit_dec_result f w 2) as [H2 | H2].
  - rewrite retry_loop_429_last; [| count_invocations; exact H2 | cbn; lia].
    cbn [fst snd]. split; [symmetry; exact H2 |]. split; [count_invocations; lia |].
    unfold sleeps. cbn. rewrite <- !app_assoc, sleeps_app. reflexivity.
  - rewrite retry_loop_final by (count_invocations; exact H2). cbn [fst snd].
    split; [count_invocations; reflexivity |]. split; [count_invocations; lia |].
    unfold sleeps. cbn. rewrite <- !app_assoc, sleeps_app. reflexivity.
Qed.

End RetryOutcome.

Section RetryOtherFailures.
Import ApiClient Sys.

(** X2. A failure that is not HTTP 429 is not retried: the invoker raises it
    after a single invocation, without sleeping. *)
Theorem api_call_with_retry_other_failure (f : ApiFunction) (w : World) (e : exn) :
  api_run f (invocations w) = Raise e ->
  e <> HTTPError 429 ->
  _api_call_with_retry f w = (Raise e, log (EvInvoke (api_name f)) w)
  /\ invocations (snd (_api_call_with_retry f w)) = (invocations w + 1)%nat
  /\ sleeps (snd (_api_call_with_retry f w)) = sleeps w
  /\ clock (snd (_api_call_with_retry f w)) = clock w.
Proof.
  intros Hrun Hne. unfold _api_call_with_retry. cbn [seq max_retries].
  rewrite (retry_loop_other f 0 _ w e Hrun Hne). cbn [snd].
  split; [reflexivity |]. split; [count_invocations; lia |]. split; [| reflexivity].
  unfold sleeps. cbn [log trace]. rewrite sleeps_app. cbn. apply app_nil_r.
Qed.

End RetryOtherFailures.

(** ** The decorated operations *)

Section DecoratedFacts.
Context {lib : PyLib}.
Import ApiClient Sys Spec.

(** A decorated call of a provider operation, for a ready client: what the
    first invocation leaves when it is final. *)
Lemma decorated_call_final (self : t) (c : Client) (g : Client -> ApiFunction) (w : World) :
  client self = Some c ->
  api_run (g c) (invocations w) <> Raise (HTTPError 429) ->
  handle_api_errors self (c' <- the_client self ;; _api_call_with_retry (g c')) w
  = match api_run (g c) (invocations w) with
    | Ok v => (Ok v, log (EvInvoke (api_name (g c))) w)
    | Raise e =>
        match reclassify e with
        | Some h => h (log (EvInvoke (api_name (g c))) w)
        | None => (Raise e, log (EvInvoke (api_name (g c))) w)
        end
    end.
Proof.
  intros Hc Hfinal. unfold handle_api_errors, is_ready, the_client. rewrite Hc. cbn [negb].
  unfold try_except, bind. unfold ret at 1. cbv beta iota.
  unfold _api_call_with_retry. cbn [seq max_retries].
  rewrite retry_loop_final by exact Hfinal.
  destruct (api_run (g c) (invocations w)); reflexivity.
Qed.

(** X3. A client that is not ready is refused by every decorated operation
    and by [download_table]: [ApiTokenError], and nothing happens in the
    world (no provider invocation, no request, no write). *)
Theorem unready_client_is_refused (self : t) (w : World) :
  is_ready self = false ->
  (forall domain_id,
      list_static_tables self domain_id w
      = (Raise (ApiTokenError "Token API tidak diatur."), w))
  /\ (forall domain_id table_id,
        view_static_table self domain_id table_id w
        = (Raise (ApiTokenError "Token API tidak diatur."), w))
  /\ (forall domain_id,
        list_dynamic_tables self domain_id w
        = (Raise (ApiTokenError "Token API tidak diatur."), w))
  /\ (forall domain_id var_id,
        get_dynamic_table_metadata self domain_id var_id w
        = (Raise (ApiTokenError "Token API tidak diatur."), w))
  /\ (forall domain_id var_id vertical_var_id year horizontal_var_ids vertical_var_item_ids
             source_domain,
        get_dynamic_table_data self domain_id var_id vertical_var_id year horizontal_var_ids
          vertical_var_item_ids source_domain w
        = (Raise (ApiTokenError "Token API tidak diatur."), w))
  /\ (forall domain_id table_id filename format overwrite,
        download_table self domain_id table_id filename format overwrite w
        = (Raise (ApiTokenError "Token API tidak diatur."), w)).
Proof.
  intros Hready.
  repeat split; intros;
    unfold list_static_tables, view_static_table, list_dynamic_tables,
      get_dynamic_table_metadata, get_dynamic_table_data, download_table, handle_api_errors;
    rewrite Hready; reflexivity.
Qed.

(** X4. [list_static_tables] for a ready client, by the first answer of the
    provider: a value is returned as it is; a connection failure or a
    timeout becomes [NoInternetError], HTTP 401 [ApiTokenError], an HTTP
    status from 500 on [BpsServerError]; any other HTTP status but 429 and
    any other exception come out unchanged.  In each case the provider was
    invoked once. *)
Theorem list_static_tables_first_answer (self : t) (c : Client) (domain_id : string)
    (w : World) :
  client self = Some c ->
  (forall v,
      api_run (list_statictable c [domain_id]) (invocations w) = Ok v ->
      list_static_tables self domain_id w
      = (Ok v, log (EvInvoke (api_name (list_statictable c [domain_id]))) w))
  /\ (api_run (list_statictable c [domain_id]) (invocations w) = Raise ConnectionError ->
      list_static_tables self domain_id w
      = (Raise (NoInternetError "Tidak ada koneksi internet."),
         log (EvInvoke (api_name (list_statictable c [domain_id]))) w))
  /\ (api_run (list_statictable c [domain_id]) (invocations w) = Raise Timeout ->
      list_static_tables self domain_id w
      = (Raise (NoInternetError "Koneksi ke server BPS timeout."),
         log (EvInvoke (api_name (list_statictable c [domain_id]))) w))
  /\ (api_run (list_statictable c [domain_id]) (invocations w) = Raise (HTTPError 401) ->
      list_static_tables self domain_id w
      = (Raise (ApiTokenError "Token API tidak valid."),
         log (EvInvoke (api_name (list_statictable c [domain_id]))) w))
  /\ (forall status,
        500 <= status ->
        api_run (list_statictable c [domain_id]) (invocations w) = Raise (HTTPError status) ->
        list_static_tables self domain_id w
        = (Raise (BpsServerError "Server BPS sedang mengalami masalah."),
           log (EvInvoke (api_name (list_statictable c [domain_id]))) w))
  /\ (forall status,
        status < 500 -> status <> 401 -> status <> 429 ->
        api_run (list_statictable c [domain_id]) (invocations w) = Raise (HTTPError status) ->
        list_static_tables self domain_id w
        = (Raise (HTTPError status),
           log (EvInvoke (api_name (list_statictable c [domain_id]))) w))
  /\ (forall e,
        is_IOError e = false ->
        api_run (list_statictable c [domain_id]) (invocations w) = Raise e ->
        list_static_tables self domain_id w
        = (Raise e, log (EvInvoke (api_name (list_statictable c [domain_id]))) w)).
Proof.
  intros Hc.
  assert (Hrun : forall r,
             api_run (list_statictable c [domain_id]) (invocations w) = r ->
             r <> Raise (HTTPError 429) ->
             list_static_tables self domain_id w
             = match r with
               | Ok v => (Ok v, log (EvInvoke (api_name (list_statictable c [domain_id]))) w)
               | Raise e =>
                   match reclassify e with
                   | Some h => h (log (EvInvoke (api_name (list_statictable c [domain_id]))) w)
                   | None =>
                       (Raise e, log (EvInvoke (api_name (list_statictable c [domain_id]))) w)
                   end
               end).
  { intros r Hr Hne. subst r. unfold list_static_tables.
    apply (decorated_call_final self c (fun c' => list_statictable c' [domain_id]) w Hc Hne). }
  repeat split.
  - intros v Hv. rewrite (Hrun _ Hv) by discriminate. reflexivity.
  - intros He. rewrite (Hrun _ He) by discriminate. reflexivity.
  - intros He. rewrite (Hrun _ He) by discriminate. reflexivity.
  - intros He. rewrite (Hrun _ He) by discriminate. reflexivity.
  - intros status Hs He. rewrite (Hrun _ He) by (intros [=]; lia). cbn [reclassify].
    destruct (Z.eqb_spec status 401) as [-> | _]; [lia |].
    destruct (Z.geb_spec status 500) as [_ | Hlt]; [reflexivity | lia].
  - intros status Hlt H401 H429 He. rewrite (Hrun _ He) by congruence. cbn [reclassify].
    destruct (Z.eqb_spec status 401) as [-> | _]; [congruence |].
    destruct (Z.geb_spec status 500) as [Hge | _]; [lia | reflexivity].
  - intros e Hio He. rewrite (Hrun _ He) by (intros [= ->]; discriminate).
    destruct e; try discriminate; reflexivity.
Qed.

End DecoratedFacts.

(** ** Viewing a static table *)

Section ViewFacts.
Context {lib : PyLib}.
Import ApiClient Sys Spec.

(** X5. What [view_static_table] returns is a table with at least one row
    and one column, the client was ready, and the call changed neither the
    files nor the configuration. *)
Theorem view_static_table_returns_filled_table (self : t) (domain_id table_id : string)
    (w w1 : World) (df : DataFrame) :
  view_static_table self domain_id table_id w = (Ok df, w1) ->
  empty df = false /\ is_ready self = true /\ same_store w w1.
Proof.
  intros Hview. split; [| split].
  - apply (view_static_table_not_empty self domain_id table_id w w1 df Hview).
  - revert Hview. unfold view_static_table, handle_api_errors.
    destruct (is_ready self); [reflexivity | discriminate].
  - pose proof (view_static_table_same_store self domain_id table_id w) as Hs.
    rewrite Hview in Hs. exact Hs.
Qed.

(** X6. [view_static_table] turns an answer that is no table, and a table
    that is empty, into [BpsApiDataError]: for a message the error quotes
    at most its first 500 characters. *)
Theorem view_static_table_rejects_unusable_answers (self : t) (c : Client)
    (domain_id table_id : string) (w : World) :
  client self = Some c ->
  (forall s,
      api_run (view_statictable c domain_id table_id) (invocations w) = Ok (VStr s) ->
      view_static_table self domain_id table_id w
      = (Raise (BpsApiDataError (unexpected_data "str" s)),
         log (EvInvoke (api_name (view_statictable c domain_id table_id))) w)
      /\ (String.length (Str.slice 0 500 s) <= 500)%nat
      /\ String.prefix (Str.slice 0 500 s) s = true)
  /\ (forall df,
        api_run (view_statictable c domain_id table_id) (invocations w) = Ok (VDataFrame df) ->
        empty df = true ->
        view_static_table self domain_id table_id w
        = (Raise (BpsApiDataError "Tabel BPS kosong atau tidak tersedia"),
           log (EvInvoke (api_name (view_statictable c domain_id table_id))) w)).
Proof.
  intros Hc.
  assert (Hrun : forall v,
             api_run (view_statictable c domain_id table_id) (invocations w) = Ok v ->
             _api_call_with_retry (view_statictable c domain_id table_id) w
             = (Ok v, log (EvInvoke (api_name (view_statictable c domain_id table_id))) w)).
  { intros v Hv. unfold _api_call_with_retry. cbn [seq max_retries].
    apply retry_loop_ok. exact Hv. }
  split.
  - intros s Hs. split; [| split].
    + unfold view_static_table, handle_api_errors, is_ready, the_client.
      rewrite Hc. cbn [negb]. unfold try_except, bind. unfold ret at 1. cbv beta iota.
      rewrite (Hrun _ Hs). reflexivity.
    + unfold Str.slice. rewrite length_substring. lia.
    + unfold Str.slice. cbn [Nat.sub]. clear.
      generalize 500%nat as n. induction s as [|ch s IH]; intros n.
      * destruct n; reflexivity.
      * destruct n as [|n]; [reflexivity |]. cbn [substring String.prefix].
        destruct (Ascii.ascii_dec ch ch) as [_ | Hne]; [apply IH | congruence].
  - intros df Hdf Hempty.
    unfold view_static_table, handle_api_errors, is_ready, the_client.
    rewrite Hc. cbn [negb]. unfold try_except, bind. unfold ret at 1. cbv beta iota.
    rewrite (Hrun _ Hdf). cbv beta iota. rewrite Hempty. reflexivity.
Qed.

Lemma view_static_table_returns_filled_table_witness :
  empty Demo.domains = false /\ is_ready (Demo.ready 0) = true.
Proof.
  destruct (view_static_table_returns_filled_table (Demo.ready 0) "0000" "1"
              (Demo.no_cache 0) (log (EvInvoke "view_statictable") (Demo.no_cache 0))
              Demo.domains eq_refl)
    as (Hfilled & Hready & _).
  split; [exact Hfilled | exact Hready].
Defined.

Lemma view_static_table_rejects_unusable_answers_witness :
  fst (view_static_table Cases.talkative "0000" "1" (Demo.no_cache 0))
  = Raise (BpsApiDataError
             "API BPS mengembalikan data tak terduga (tipe: str): Maintenance")
  /\ fst (view_static_table Cases.empty_handed "0000" "1" (Demo.no_cache 0))
     = Raise (BpsApiDataError "Tabel BPS kosong atau tidak tersedia").
Proof.
  split.
  - destruct (view_static_table_rejects_unusable_answers Cases.talkative
                (Cases.answering (VStr "Maintenance")) "0000" "1" (Demo.no_cache 0) eq_refl)
      as (Hmsg & _).
    destruct (Hmsg "Maintenance" eq_refl) as (Hrun & _ & _).
    rewrite Hrun. reflexivity.
  - destruct (view_static_table_rejects_unusable_answers Cases.empty_handed
                (Cases.answering (VDataFrame Cases.no_rows)) "0000" "1" (Demo.no_cache 0)
                eq_refl)
      as (_ & Hempty).
    rewrite (Hempty Cases.no_rows eq_refl eq_refl). reflexivity.
Defined.

End ViewFacts.

(** ** More on the domain cache *)

Section CacheMoreFacts.
Context {lib : PyLib}.
Import ApiClient Sys Spec.

(** Reading the cache changes nothing in the world. *)
Lemma read_cache_world (w : World) : snd (read_cache w) = w.
Proof.
  unfold read_cache, bind, get_config, exists_, try_except, now, stat_mtime, read_text, lift,
    ret.
  destruct (fs w !! CACHE_FILE (config w)) as [[mtime text | mtime] |] eqn:Hnode.
  - rewrite bool_decide_eq_true_2 by eauto. cbv beta iota. rewrite Hnode. cbv beta iota.
    destruct (clock w - mtime <? CACHE_DURATION)%Z; [| reflexivity].
    rewrite Hnode. cbv beta iota.
    destruct (json_load text) as [data | e].
    + destruct (pd_DataFrame data) as [df | e]; [reflexivity |].
      destruct (is_IOError e || is_JSONDecodeError e); reflexivity.
    + destruct (is_IOError e || is_JSONDecodeError e); reflexivity.
  - rewrite bool_decide_eq_true_2 by eauto. cbv beta iota. rewrite Hnode. cbv beta iota.
    destruct (clock w - mtime <? CACHE_DURATION)%Z; [| reflexivity].
    rewrite Hnode. reflexivity.
  - rewrite bool_decide_eq_false_2; [reflexivity |]. intros [x Hx]; discriminate.
Qed.

(** X7. A table without rows that the provider hands back on a cache miss
    is returned but not cached: no file is written. *)
Theorem list_domains_does_not_cache_empty_table (self : t) (c : Client) (w w1 : World)
    (df : DataFrame) :
  client self = Some c ->
  cache_miss w ->
  _api_call_with_retry (list_domain c) w = (Ok (VDataFrame df), w1) ->
  empty df = true ->
  list_domains self w = (Ok (VDataFrame df), w1)
  /\ fs (snd (list_domains self w)) = fs w.
Proof.
  intros Hc Hmiss Hrun Hempty.
  destruct (api_call_with_retry_same_store (list_domain c) w) as (Hfs & _).
  rewrite Hrun in Hfs. cbn [snd] in Hfs.
  rewrite (list_domains_of_miss self w Hmiss).
  assert (Hfetch : fetch_domains self w = (Ok (VDataFrame df), w1)).
  { unfold fetch_domains, is_ready, the_client. rewrite Hc. cbn [negb].
    run_monad. rewrite Hrun. run_monad. rewrite Hempty. reflexivity. }
  rewrite Hfetch. split; [reflexivity | exact Hfs].
Qed.

(** X8. Writing and reading the cache compose: after a call that fetched a
    table, stored it and returned, a call made less than 7 days later, by
    any client, ready or not, is served what the stored text loads to, and
    the provider is not asked again. *)
Theorem list_domains_serves_what_it_stored (self other : t) (c : Client) (w w1 : World)
    (df : DataFrame) (v : Value) :
  client self = Some c ->
  cache_miss w ->
  _api_call_with_retry (list_domain c) w = (Ok (VDataFrame df), w1) ->
  empty df = false ->
  fst (list_domains self w) = Ok v ->
  exists text,
    to_json df = Rendered text
    /\ forall data df' elapsed,
         json_load text = Ok data ->
         pd_DataFrame data = Ok df' ->
         0 <= elapsed < CACHE_DURATION ->
         list_domains other (advance elapsed (snd (list_domains self w)))
         = (Ok (VDataFrame df'), advance elapsed (snd (list_domains self w))).
Proof.
  intros Hc Hmiss Hrun Hempty.
  destruct (api_call_with_retry_same_store (list_domain c) w) as (_ & Hcfg & _).
  rewrite Hrun in Hcfg. cbn [snd] in Hcfg.
  rewrite (list_domains_of_miss self w Hmiss).
  rewrite (fetch_domains_of_table self c w w1 df Hc Hrun Hempty).
  pose proof (store_cache_returns df w1) as Hreturns.
  destruct (store_cache (VDataFrame df) w1) as [[[]|e] w2]; cbn [fst snd] in *;
    [| discriminate].
  intros _. destruct (Hreturns eq_refl) as ((Hclock & Hcfg2 & _) & text & Hjson & Hfile).
  exists text. split; [exact Hjson |].
  intros data df' elapsed Hload Hframe Helapsed.
  apply (list_domains_of_fresh_cache other _ (clock w1) text data df').
  - unfold cache_file. cbn [fs config advance]. rewrite Hcfg2. exact Hfile.
  - cbn [clock advance]. lia.
  - exact Hload.
  - exact Hframe.
Qed.

(** X9. What a call of [list_domains] that fails leaves behind.  No regular
    file other than the cache file has changed and every directory is still
    there.  The file system is as it was, unless the provider had handed
    back a table that is not empty, which the call then failed to store.
    And the cache file is as it was, stale or corrupt as it may be, unless
    [to_json] broke off: then the call fails with the exception of
    [to_json], and the cache file, emptied when it was opened, holds what
    [to_json] had written, which is nothing for a table that it refuses. *)
Theorem list_domains_failure_keeps_files (self : t) (w : World) (e : exn) :
  fst (list_domains self w) = Raise e ->
  same_files_but (CACHE_FILE (config w)) (fs w) (fs (snd (list_domains self w)))
  /\ keeps_directories (fs w) (fs (snd (list_domains self w)))
  /\ (fs (snd (list_domains self w)) = fs w
      \/ exists c df w1,
           client self = Some c
           /\ _api_call_with_retry (list_domain c) w = (Ok (VDataFrame df), w1)
           /\ empty df = false)
  /\ (forall t text,
        cache_file w t text ->
        cache_file (snd (list_domains self w)) t text
        \/ exists c df w1 e0 partial,
             client self = Some c
             /\ _api_call_with_retry (list_domain c) w = (Ok (VDataFrame df), w1)
             /\ to_json df = Broken e0 partial
             /\ e = reclassified e0
             /\ cache_file (snd (list_domains self w)) (clock w1) (left_behind partial)).
Proof.
  assert (Hsame : forall w', fs w' = fs w -> config w' = config w ->
             same_files_but (CACHE_FILE (config w)) (fs w) (fs w')
             /\ keeps_directories (fs w) (fs w')
             /\ (fs w' = fs w
                 \/ exists c df w1,
                      client self = Some c
                      /\ _api_call_with_retry (list_domain c) w = (Ok (VDataFrame df), w1)
                      /\ empty df = false)
             /\ (forall t text,
                   cache_file w t text ->
                   cache_file w' t text
                   \/ exists c df w1 e0 partial,
                        client self = Some c
                        /\ _api_call_with_retry (list_domain c) w = (Ok (VDataFrame df), w1)
                        /\ to_json df = Broken e0 partial
                        /\ e = reclassified e0
                        /\ cache_file w' (clock w1) (left_behind partial))).
  { intros w' Hfs Hcfg. rewrite Hfs.
    split; [apply same_files_but_refl |]. split; [apply keeps_directories_refl |].
    split; [left; reflexivity |].
    intros t text Hfile. left. unfold cache_file in *. rewrite Hfs, Hcfg. exact Hfile. }
  unfold list_domains, bind.
  pose proof (read_cache_world w) as Hw.
  destruct (read_cache w) as [[[v|] | e1] w0]; cbn [snd] in Hw; subst w0.
  - discriminate.
  - destruct (client self) as [c|] eqn:Hc.
    2: { rewrite fetch_domains_unready by (unfold is_ready; rewrite Hc; reflexivity).
         intros _. apply Hsame; reflexivity. }
    destruct (api_call_with_retry_same_store (list_domain c) w) as (Hfs & Hcfg & _).
    destruct (_api_call_with_retry (list_domain c) w) as [r w1] eqn:Hrun.
    cbn [snd] in Hfs, Hcfg.
    assert (Hcases : (forall df, r = Ok (VDataFrame df) -> empty df = true)
                     \/ exists df, r = Ok (VDataFrame df) /\ empty df = false).
    { destruct r as [[df|s|tn st]|e1]; try (left; discriminate).
      destruct (empty df) eqn:Hempty; [left; intros df' [= <-]; exact Hempty | right; eauto]. }
    destruct Hcases as [Hother | (df & -> & Hempty)].
    + destruct (fetch_domains_of_other self c w w1 r Hc Hrun Hother) as (-> & _).
      intros _. apply Hsame; assumption.
    + rewrite (fetch_domains_of_table self c w w1 df Hc Hrun Hempty).
      pose proof (store_cache_cases df w1) as (Hfiles & Hdirs & Hcases).
      rewrite Hcfg, Hfs in *.
      destruct (store_cache (VDataFrame df) w1) as [[[]|e1] w2]; cbn [fst snd] in *;
        [discriminate |].
      intros [= <-].
      split; [exact Hfiles |]. split; [exact Hdirs |].
      split; [right; exists c, df, w1; auto |].
      intros t text Hfile. unfold cache_file in *.
      destruct Hcases as [(Hno & _) | [(Hmk & _) | [Hshut | Hbroken]]].
      * discriminate.
      * left. injection Hmk as _ ->. cbn [fs config log]. rewrite Hfs, Hcfg. exact Hfile.
      * left. destruct Hshut as (_ & (_ & -> & _) & Hkept & _). rewrite Hcfg.
        apply Hkept. exact Hfile.
      * right. destruct Hbroken as (e0 & partial & Hjson & [= ->] & (_ & -> & _) & Hleft).
        exists c, df, w1, e0, partial. rewrite Hcfg. auto.
  - intros _. apply Hsame; reflexivity.
Qed.

(** X10.  The handler of the cache read is selective.  A cache file younger
    than 7 days whose text loads as JSON that [pd.DataFrame] refuses makes
    [list_domains] raise the [ValueError] of [pd.DataFrame]: the provider is
    not asked, not even by a ready client. *)
Theorem list_domains_raises_frame_error (self : t) (w : World) (mtime : Z) (text msg : string)
    (data : Json) :
  cache_file w mtime text ->
  clock w - mtime < CACHE_DURATION ->
  json_load text = Ok data ->
  pd_DataFrame data = Raise (ValueError msg) ->
  list_domains self w = (Raise (ValueError msg), w).
Proof.
  intros Hfile Hage Hload Hframe.
  apply (list_domains_raises_uncaught self w mtime text (ValueError msg) Hfile Hage);
    [| reflexivity].
  rewrite Hload. exact Hframe.
Qed.

End CacheMoreFacts.

Section CacheMoreRuns.
Import ApiClient Sys Spec.

Lemma list_domains_does_not_cache_empty_table_witness :
  fst (list_domains (lib := Demo.lib) Cases.empty_handed (Demo.no_cache 0))
  = Ok (VDataFrame Cases.no_rows)
  /\ fs (snd (list_domains (lib := Demo.lib) Cases.empty_handed (Demo.no_cache 0))) = ∅.
Proof.
  destruct (list_domains_does_not_cache_empty_table (lib := Demo.lib) Cases.empty_handed
              (Cases.answering (VDataFrame Cases.no_rows)) (Demo.no_cache 0)
              (log (EvInvoke "list_domain") (Demo.no_cache 0)) Cases.no_rows eq_refl)
    as (Hrun & Hfs).
  - apply miss_absent. vm_compute. reflexivity.
  - reflexivity.
  - reflexivity.
  - rewrite Hrun. split; [reflexivity | exact Hfs].
Defined.

Lemma list_domains_serves_what_it_stored_witness :
  fst (list_domains (lib := Cases.lib) Demo.unready
         (advance 86400000000
            (snd (list_domains (lib := Cases.lib) (Demo.ready 0) (Cases.at_home 0)))))
  = Ok (VDataFrame Demo.domains).
Proof.
  destruct (list_domains_serves_what_it_stored (lib := Cases.lib) (Demo.ready 0) Demo.unready
              (Demo.provider 0) (Cases.at_home 0)
              (log (EvInvoke "list_domain") (Cases.at_home 0))
              Demo.domains (VDataFrame Demo.domains))
    as (text & Hjson & Hserved).
  - reflexivity.
  - apply miss_absent. vm_compute. reflexivity.
  - reflexivity.
  - reflexivity.
  - vm_compute. reflexivity.
  - injection Hjson as <-.
    rewrite (Hserved Cases.domain_records Demo.domains 86400000000).
    + reflexivity.
    + vm_compute. reflexivity.
    + vm_compute. reflexivity.
    + unfold CACHE_DURATION, microseconds_per_second. lia.
Defined.

(** A provider that hands back a table with two columns of the same label,
    in front of a cache file that is 8 days old: [to_json] refuses the
    table, the call fails with its [ValueError], and the old cache is
    gone. *)
Lemma list_domains_failure_keeps_files_witness :
  fst (list_domains (lib := Demo.lib) Cases.doubling (Cases.settled 700000000000 0 "[1]"))
  = Raise (ValueError "DataFrame columns must be unique for orient='records'.")
  /\ cache_file (lib := Demo.lib)
       (snd (list_domains (lib := Demo.lib) Cases.doubling
               (Cases.settled 700000000000 0 "[1]")))
       700000000000 "".
Proof.
  assert (Hres : fst (list_domains (lib := Demo.lib) Cases.doubling
                        (Cases.settled 700000000000 0 "[1]"))
                 = Raise (ValueError "DataFrame columns must be unique for orient='records'."))
    by (vm_compute; reflexivity).
  split; [exact Hres |].
  destruct (list_domains_failure_keeps_files (lib := Demo.lib) Cases.doubling
              (Cases.settled 700000000000 0 "[1]") _ Hres)
    as (_ & _ & _ & Hcache).
  destruct (Hcache 0 "[1]") as [Hkept | (c & df & w1 & e0 & partial & Hc & Hrun & Hjson & _ & Hleft)].
  - vm_compute. reflexivity.
  - vm_compute in Hkept. discriminate.
  - injection Hc as <-. injection Hrun as <- <-. injection Hjson as <- <-. exact Hleft.
Defined.

Lemma list_domains_raises_frame_error_witness :
  list_domains (lib := Demo.lib) (Demo.ready 0) (Demo.with_cache 10 0 "7")
  = (Raise (ValueError "DataFrame constructor not properly called!"),
     Demo.with_cache 10 0 "7").
Proof.
  apply (list_domains_raises_frame_error (lib := Demo.lib) (Demo.ready 0)
           (Demo.with_cache 10 0 "7") 0 "7" "DataFrame constructor not properly called!"
           (JNum 7)).
  - vm_compute. reflexivity.
  - vm_compute. reflexivity.
  - reflexivity.
  - reflexivity.
Defined.

End CacheMoreRuns.

(** ** More on the metadata aggregator *)

Section MetadataMoreFacts.
Context {lib : PyLib}.
Import ApiClient Sys Spec.

Lemma fetch_same_store (params : Dict.t string) (model : string) (w : World) :
  same_store w (snd (fetch params model w)).
Proof. rewrite fetch_world. unfold same_store. auto. Qed.

(** What a [fetch_for_domain] that returns has returned: the four lists are
    extracted from four JSON documents and their labels cleaned, and
    [source_domain] is the domain asked for. *)
Lemma fetch_for_domain_returns (token var_id target_domain : string) (w w1 : World)
    (m : Metadata) :
  fetch_for_domain token var_id target_domain w = (Ok m, w1) ->
  exists j1 j2 j3 j4 l1 l2 l3 l4,
    extract_list j1 vervar_mapping = Ok l1
    /\ extract_list j2 turvar_mapping = Ok l2
    /\ extract_list j3 th_mapping = Ok l3
    /\ extract_list j4 turth_mapping = Ok l4
    /\ m = mkMetadata (map clean_label l1) (map clean_label l2) (map clean_label l3)
             (map clean_label l4) target_domain.
Proof.
  unfold fetch_for_domain, bind, gather4.
  set (params := [("domain", target_domain); ("var", var_id); ("key", token)]%string).
  destruct (fetch params "vervar" w) as [r1 w1'].
  destruct (fetch params "turvar" w1') as [r2 w2].
  destruct (fetch params "th" w2) as [r3 w3].
  destruct (fetch params "turth" w3) as [r4 w4].
  destruct r1 as [j1|e1]; [| discriminate].
  destruct r2 as [j2|e2]; [| discriminate].
  destruct r3 as [j3|e3]; [| discriminate].
  destruct r4 as [j4|e4]; [| discriminate].
  cbn [and_then]. unfold lift.
  destruct (extract_list j1 vervar_mapping) as [l1|] eqn:H1; [| discriminate].
  destruct (extract_list j2 turvar_mapping) as [l2|] eqn:H2; [| discriminate].
  destruct (extract_list j3 th_mapping) as [l3|] eqn:H3; [| discriminate].
  destruct (extract_list j4 turth_mapping) as [l4|] eqn:H4; [| discriminate].
  unfold ret. intros [= <- <-].
  exists j1, j2, j3, j4, l1, l2, l3, l4. repeat split; assumption.
Qed.

Lemma fetch_for_domain_same_store (token var_id target_domain : string) (w : World) :
  same_store w (snd (fetch_for_domain token var_id target_domain w)).
Proof.
  unfold fetch_for_domain, bind, gather4.
  set (params := [("domain", target_domain); ("var", var_id); ("key", token)]%string).
  pose proof (fetch_same_store params "vervar" w) as (F1 & C1 & E1).
  destruct (fetch params "vervar" w) as [r1 w1]. cbn [snd] in F1, C1, E1.
  pose proof (fetch_same_store params "turvar" w1) as (F2 & C2 & E2).
  destruct (fetch params "turvar" w1) as [r2 w2]. cbn [snd] in F2, C2, E2.
  pose proof (fetch_same_store params "th" w2) as (F3 & C3 & E3).
  destruct (fetch params "th" w2) as [r3 w3]. cbn [snd] in F3, C3, E3.
  pose proof (fetch_same_store params "turth" w3) as (F4 & C4 & E4).
  destruct (fetch params "turth" w3) as [r4 w4]. cbn [snd] in F4, C4, E4.
  assert (Hs : same_store w w4).
  { unfold same_store. repeat split; congruence. }
  destruct r1 as [j1|e1]; [| exact Hs].
  destruct r2 as [j2|e2]; [| exact Hs].
  destruct r3 as [j3|e3]; [| exact Hs].
  destruct r4 as [j4|e4]; [| exact Hs].
  cbn [and_then]. unfold lift.
  destruct (extract_list j1 vervar_mapping); [| exact Hs].
  destruct (extract_list j2 turvar_mapping); [| exact Hs].
  destruct (extract_list j3 th_mapping); [| exact Hs].
  destruct (extract_list j4 turth_mapping); exact Hs.
Qed.

(** X11. A [fetch_for_domain] that returns has issued exactly its four
    requests, for the domain asked for, has left files and configuration
    alone, and reports the domain asked for as [source_domain]. *)
Theorem fetch_for_domain_result (token var_id target_domain : string) (w w1 : World)
    (m : Metadata) :
  fetch_for_domain token var_id target_domain w = (Ok m, w1) ->
  source_domain m = target_domain
  /\ appends w w1 (metadata_requests token var_id target_domain)
  /\ same_store w w1.
Proof.
  intros Hfetch. split; [| split].
  - destruct (fetch_for_domain_returns _ _ _ _ _ _ Hfetch)
      as (j1 & j2 & j3 & j4 & l1 & l2 & l3 & l4 & _ & _ & _ & _ & ->).
    reflexivity.
  - pose proof (fetch_for_domain_requests token var_id target_domain w) as Hreq.
    rewrite Hfetch in Hreq. exact Hreq.
  - pose proof (fetch_for_domain_same_store token var_id target_domain w) as Hs.
    rewrite Hfetch in Hs. exact Hs.
Qed.

(** The handler of the decorator never turns a failure into a result. *)
Lemma reclassify_raises {A} (e : exn) (w : World) :
  exists e', match reclassify (A := A) e with
             | Some h => h w
             | None => (Raise e, w)
             end = (Raise e', w).
Proof.
  destruct e as [status| | | | | | | | | | | | |]; cbn; try (eexists; reflexivity).
  destruct (status =? 401)%Z; [eexists; reflexivity |].
  destruct (status >=? 500)%Z; eexists; reflexivity.
Qed.

(** X12. Metadata that [get_dynamic_table_metadata] returns is usable: the
    three required lists are not empty, and [source_domain] is the domain
    asked for or ["0000"]. *)
Theorem get_dynamic_table_metadata_result_usable (self : t) (domain_id var_id : string)
    (w : World) (m : Metadata) :
  fst (get_dynamic_table_metadata self domain_id var_id w) = Ok m ->
  incomplete m = false
  /\ (source_domain m = domain_id \/ source_domain m = "0000"%string).
Proof.
  unfold get_dynamic_table_metadata, handle_api_errors.
  destruct (is_ready self); cbn [negb]; [| discriminate].
  unfold try_except, bind, get_config. cbv beta iota.
  destruct (load_token (config w)) as [token|]; [| discriminate].
  destruct (negb (Str.truthy (Some token))); [discriminate |].
  destruct (fetch_for_domain token var_id domain_id w) as [[m0|e0] w1] eqn:Hfirst.
  2: { destruct (reclassify_raises (A := Metadata) e0 w1) as [e' ->]. discriminate. }
  destruct (fetch_for_domain_returns _ _ _ _ _ _ Hfirst)
    as (j1 & j2 & j3 & j4 & l1 & l2 & l3 & l4 & _ & _ & _ & _ & Hm0).
  assert (Hsrc0 : source_domain m0 = domain_id) by (rewrite Hm0; reflexivity).
  clear Hm0. cbv beta iota. unfold resolve_fallback, bind.
  destruct (incomplete m0 && negb (String.eqb domain_id "0000")) eqn:Htest.
  - destruct (fetch_for_domain token var_id "0000" w1) as [[fb|e1] w2].
    + rewrite complete_not_incomplete.
      destruct (incomplete fb) eqn:Hfb; cbn [negb]; unfold ret; cbv beta iota.
      * destruct (incomplete m0) eqn:Hm0; [discriminate |].
        cbn [fst]. intros [= <-]. split; [exact Hm0 | left; exact Hsrc0].
      * assert (Hset : incomplete (set_source_domain fb "0000") = false)
          by (destruct fb; exact Hfb).
        rewrite Hset. cbn [fst]. intros [= <-]. split; [exact Hset | right; reflexivity].
    + cbv beta iota. destruct (reclassify_raises (A := Metadata) e1 w2) as [e' ->].
      discriminate.
  - unfold ret. cbv beta iota.
    destruct (incomplete m0) eqn:Hm0; [discriminate |].
    cbn [fst]. intros [= <-]. split; [exact Hm0 | left; exact Hsrc0].
Qed.

(** X13. No fallback without need: when the result for the requested domain
    is complete, or the requested domain is ["0000"] itself, the call ends
    with the first fetch: the complete result is returned as it is, the
    incomplete one of ["0000"] makes the call raise [BpsApiDataError], and
    no further request is made. *)
Theorem metadata_without_fallback (self : t) (domain_id var_id token : string)
    (w w1 : World) (m : Metadata) :
  is_ready self = true ->
  load_token (config w) = Some token ->
  token <> ""%string ->
  fetch_for_domain token var_id domain_id w = (Ok m, w1) ->
  incomplete m = false \/ domain_id = "0000"%string ->
  get_dynamic_table_metadata self domain_id var_id w
  = (if incomplete m then Raise metadata_unavailable else Ok m, w1).
Proof.
  intros Hready Htoken Hne Hfetch Hcase.
  rewrite (get_dynamic_table_metadata_after_fetch self domain_id var_id token w w1 m)
    by assumption.
  assert (Hres : resolve_fallback token var_id domain_id m w1 = (Ok m, w1)).
  { unfold resolve_fallback. destruct Hcase as [Hcomplete | ->].
    - rewrite Hcomplete. reflexivity.
    - rewrite andb_false_r. reflexivity. }
  rewrite Hres. destruct (incomplete m); reflexivity.
Qed.

(** X14. A ready client still needs the stored token for the dynamic
    tables: when [config.load_token()] gives nothing, both calls raise
    [ApiTokenError] and no request is sent. *)
Theorem dynamic_tables_need_stored_token (self : t) (w : World) :
  is_ready self = true ->
  Str.truthy (load_token (config w)) = false ->
  (forall domain_id var_id,
      get_dynamic_table_metadata self domain_id var_id w
      = (Raise (ApiTokenError "Token API tidak diatur."), w))
  /\ (forall domain_id var_id vertical_var_id year horizontal_var_ids vertical_var_item_ids
             source_domain,
        get_dynamic_table_data self domain_id var_id vertical_var_id year horizontal_var_ids
          vertical_var_item_ids source_domain w
        = (Raise (ApiTokenError "Token API tidak diatur."), w)).
Proof.
  intros Hready Hnone.
  split; intros;
    unfold get_dynamic_table_metadata, get_dynamic_table_data, handle_api_errors;
    rewrite Hready; cbn [negb]; unfold try_except, bind, get_config; cbv beta iota;
    destruct (load_token (config w)) as [token|]; try reflexivity;
    rewrite Hnone; reflexivity.
Qed.

End MetadataMoreFacts.

Section DecoratedRuns.
Import ApiClient Sys Spec.

Lemma api_call_with_retry_other_failure_witness :
  _api_call_with_retry (Demo.unreachable "list_domain") (Demo.no_cache 0)
  = (Raise ConnectionError, log (EvInvoke "list_domain") (Demo.no_cache 0)).
Proof.
  destruct (api_call_with_retry_other_failure (Demo.unreachable "list_domain")
              (Demo.no_cache 0) ConnectionError eq_refl ltac:(discriminate))
    as (Hrun & _).
  exact Hrun.
Defined.

Lemma unready_client_is_refused_witness :
  download_table (lib := Demo.lib) Demo.unready "0000" "1" "table.csv" "csv" true
    (Demo.no_cache 0)
  = (Raise (ApiTokenError "Token API tidak diatur."), Demo.no_cache 0).
Proof.
  destruct (unready_client_is_refused (lib := Demo.lib) Demo.unready (Demo.no_cache 0) eq_refl)
    as (_ & _ & _ & _ & _ & Hdownload).
  apply Hdownload.
Defined.

Lemma list_static_tables_first_answer_witness :
  list_static_tables Cases.talkative "0000" (Demo.no_cache 0)
  = (Ok (VStr "Maintenance"), log (EvInvoke "list_statictable") (Demo.no_cache 0)).
Proof.
  destruct (list_static_tables_first_answer Cases.talkative
              (Cases.answering (VStr "Maintenance")) "0000" (Demo.no_cache 0) eq_refl)
    as (Hvalue & _).
  apply (Hvalue (VStr "Maintenance") eq_refl).
Defined.

Lemma fetch_for_domain_result_witness :
  exists m w1,
    fetch_for_domain (lib := Demo.lib) "secret" "70" "0000" (Demo.online Demo.national_only)
    = (Ok m, w1)
    /\ source_domain m = "0000"%string
    /\ length (trace w1) = 4%nat.
Proof.
  destruct (fetch_for_domain (lib := Demo.lib) "secret" "70" "0000"
              (Demo.online Demo.national_only)) as [r w1] eqn:Hfetch.
  vm_compute in Hfetch. injection Hfetch as <- <-.
  destruct (fetch_for_domain_result (lib := Demo.lib) "secret" "70" "0000"
              (Demo.online Demo.national_only) _ _ eq_refl)
    as (Hsource & _ & _).
  eexists. eexists. split; [reflexivity |]. split; [exact Hsource | reflexivity].
Defined.

Lemma get_dynamic_table_metadata_result_usable_witness :
  exists m,
    fst (get_dynamic_table_metadata (lib := Demo.lib) (Demo.ready 0) "1100" "70"
           (Demo.online Demo.national_only))
    = Ok m
    /\ incomplete m = false.
Proof.
  destruct (get_dynamic_table_metadata (lib := Demo.lib) (Demo.ready 0) "1100" "70"
              (Demo.online Demo.national_only)) as [r w1] eqn:Hrun.
  vm_compute in Hrun. injection Hrun as <- <-.
  eexists. split; [reflexivity |].
  destruct (get_dynamic_table_metadata_result_usable (lib := Demo.lib) (Demo.ready 0)
              "1100" "70" (Demo.online Demo.national_only) _ eq_refl)
    as (Husable & _).
  exact Husable.
Defined.

Lemma metadata_without_fallback_witness :
  exists m,
    fst (get_dynamic_table_metadata (lib := Demo.lib) (Demo.ready 0) "0000" "70"
           (Demo.online Demo.national_only))
    = Ok m
    /\ length (trace (snd (get_dynamic_table_metadata (lib := Demo.lib) (Demo.ready 0) "0000"
                              "70" (Demo.online Demo.national_only))))
       = 4%nat.
Proof.
  destruct (fetch_for_domain (lib := Demo.lib) "secret" "70" "0000"
              (Demo.online Demo.national_only)) as [r w1] eqn:Hfetch.
  vm_compute in Hfetch. injection Hfetch as <- <-.
  rewrite (metadata_without_fallback (lib := Demo.lib) (Demo.ready 0) "0000" "70" "secret"
             (Demo.online Demo.national_only) _ _ eq_refl eq_refl ltac:(discriminate)
             eq_refl (or_intror eq_refl)).
  eexists. split; reflexivity.
Defined.

Lemma dynamic_tables_need_stored_token_witness :
  get_dynamic_table_metadata (lib := Demo.lib) (Demo.ready 0) "0000" "70" Cases.tokenless
  = (Raise (ApiTokenError "Token API tidak diatur."), Cases.tokenless).
Proof.
  destruct (dynamic_tables_need_stored_token (lib := Demo.lib) (Demo.ready 0) Cases.tokenless
              eq_refl eq_refl)
    as (Hmeta & _).
  apply Hmeta.
Defined.

End DecoratedRuns.

(** ** Normalizing the reference lists *)

Section ExtractFacts.
Context {lib : PyLib}.
Import ApiClient Spec.

Lemma dict_keys_set {V} (d : Dict.t V) (k : string) (v : V) (x : string) :
  In x (Dict.keys (Dict.set d k v)) -> x = k \/ In x (Dict.keys d).
Proof.
  unfold Dict.keys. induction d as [|[k' v'] d IH]; cbn [Dict.set map fst In].
  - intros [<- | []]. left; reflexivity.
  - destruct (String.eqb k' k); cbn [map fst In].
    + intros [<- | H]; right; [left; reflexivity | right; exact H].
    + intros [<- | H]; [right; left; reflexivity |].
      destruct (IH H) as [-> | H']; [left; reflexivity | right; right; exact H'].
Qed.

Lemma dict_set_nonempty {V} (d : Dict.t V) (k : string) (v : V) : Dict.set d k v <> [].
Proof. destruct d as [|[k' v'] d]; cbn; [| destruct (String.eqb k' k)]; discriminate. Qed.


(** The keys of a mapped item are keys it had or destination names of the
    mapping, and an item that started with a key keeps one. *)
Lemma map_fields_keys (item : Json) (mapping : Dict.t string) (acc r : Dict.t Json) :
  map_fields item mapping acc = Ok r ->
  (forall x, In x (Dict.keys r) -> In x (Dict.keys acc) \/ In x (map snd mapping))
  /\ (acc <> [] -> r <> []).
Proof.
  revert acc. induction mapping as [|[src dst] rest IH]; intros acc; cbn [map_fields].
  - intros [= <-]. split; [intros x Hx; left; exact Hx | auto].
  - destruct (item_get item src) as [[v|]|e]; cbn [and_then]; [| | discriminate].
    + intros Hrec. destruct (IH _ Hrec) as (Hkeys & Hne). split.
      * intros x Hx. destruct (Hkeys x Hx) as [Hset | Hrest].
        -- destruct (dict_keys_set _ _ _ _ Hset) as [-> | Hacc];
             [right; left; reflexivity | left; exact Hacc].
        -- right; right; exact Hrest.
      * intros _. apply Hne, dict_set_nonempty.
    + intros Hrec. destruct (IH _ Hrec) as (Hkeys & Hne). split; [| exact Hne].
      intros x Hx. destruct (Hkeys x Hx) as [Hacc | Hrest];
        [left; exact Hacc | right; right; exact Hrest].
Qed.

Lemma collect_items_invariant (P : Dict.t Json -> Prop) (data1 : list Json)
    (mapping : Dict.t string) (acc r : list (Dict.t Json)) :
  (forall item new_item, map_fields item mapping [] = Ok new_item -> new_item <> [] ->
                         P new_item) ->
  collect_items data1 mapping acc = Ok r ->
  Forall P acc ->
  Forall P r /\ (length r <= length acc + length data1)%nat.
Proof.
  intros HP. revert acc. induction data1 as [|item rest IH]; intros acc; cbn [collect_items].
  - intros [= <-] Hacc. split; [exact Hacc | lia].
  - destruct (map_fields item mapping []) as [new_item|e] eqn:Hmap; cbn [and_then];
      [| discriminate].
    destruct new_item as [|kv new_item].
    + intros Hrec Hacc. destruct (IH _ Hrec Hacc) as (Hall & Hlen).
      split; [exact Hall | cbn [length]; lia].
    + intros Hrec Hacc.
      assert (Hacc' : Forall P (acc ++ [kv :: new_item])).
      { apply Forall_app. split; [exact Hacc |]. constructor; [| constructor].
        apply (HP item); [exact Hmap | discriminate]. }
      destruct (IH _ Hrec Hacc') as (Hall & Hlen).
      split; [exact Hall |]. rewrite length_app in Hlen. cbn [length] in *. lia.
Qed.

(** The test of [extract_list] for the flag ["available"], and what it does
    with a document that passes it. *)
Lemma extract_list_object (fields : Dict.t Json) (mapping : Dict.t string) :
  extract_list (JObj fields) mapping
  = match Dict.get fields "data-availability" with
    | Some (JStr flag) =>
        if String.eqb flag "available" then
          match Dict.get fields "data" with
          | Some (JList [_; JList data1]) => collect_items data1 mapping []
          | _ => Ok []
          end
        else Ok []
    | _ => Ok []
    end.
Proof.
  unfold extract_list.
  destruct (Dict.get fields "data-availability") as [[| | |flag| |]|]; try reflexivity.
  destruct (String.eqb_spec flag "available") as [-> | Hne]; [reflexivity |].
  repeat (destruct flag as [|[[] [] [] [] [] [] [] []] flag];
          try reflexivity; try (exfalso; apply Hne; reflexivity)).
Qed.

(** X15. Every item that [extract_list] returns has at least one field, its
    fields are named by destination names of the mapping (source fields that
    the mapping does not list are dropped), and there are no more items
    than the document lists. *)
Theorem extract_list_items (data_json : Json) (mapping : Dict.t string)
    (items : list (Dict.t Json)) :
  extract_list data_json mapping = Ok items ->
  Forall (fun item => item <> []
                      /\ forall k, In k (Dict.keys item) -> In k (map snd mapping)) items
  /\ (forall fields meta data1,
        data_json = JObj fields ->
        Dict.get fields "data" = Some (JList [meta; JList data1]) ->
        (length items <= length data1)%nat).
Proof.
  intros Hextract.
  destruct data_json as [| | | | |fields]; try discriminate.
  rewrite extract_list_object in Hextract.
  assert (Hnil : Forall (fun item : Dict.t Json =>
                           item <> []
                           /\ forall k, In k (Dict.keys item) -> In k (map snd mapping)) []
                 /\ (forall fields' meta data1,
                       JObj fields = JObj fields' ->
                       Dict.get fields' "data" = Some (JList [meta; JList data1]) ->
                       (@length (Dict.t Json) [] <= length data1)%nat)).
  { split; [constructor | intros; cbn; lia]. }
  destruct (Dict.get fields "data-availability") as [[| | |flag| |]|];
    try (injection Hextract as <-; exact Hnil).
  destruct (String.eqb flag "available"); [| injection Hextract as <-; exact Hnil].
  destruct (Dict.get fields "data") as [[| | | |[|meta [|[| | | |data1|] [|extra rest]]]|]|]
    eqn:Hdata; try (injection Hextract as <-; exact Hnil).
  destruct (collect_items_invariant
              (fun item => item <> []
                           /\ forall k, In k (Dict.keys item) -> In k (map snd mapping))
              data1 mapping [] items) as (Hall & Hlen).
  - intros item new_item Hmap Hne. split; [exact Hne |].
    intros k Hk. destruct (map_fields_keys _ _ _ _ Hmap) as (Hkeys & _).
    destruct (Hkeys k Hk) as [[] | Hdst]. exact Hdst.
  - exact Hextract.
  - constructor.
  - split; [exact Hall |].
    intros fields' meta' data1' [= <-] Hdata'. rewrite Hdata in Hdata'.
    injection Hdata' as <- <-. cbn [length] in Hlen. lia.
Qed.

(** X16. [extract_list] does not raise on an object that is not marked
    available, that has no ["data"], or whose ["data"] is not a pair with a
    list in second place: the category is empty.  Nor does it raise on a
    well-shaped document whose items are all objects. *)
Theorem extract_list_tolerates_shapes (fields : Dict.t Json) (mapping : Dict.t string) :
  (Dict.get fields "data-availability" <> Some (JStr "available") ->
   extract_list (JObj fields) mapping = Ok [])
  /\ (Dict.get fields "data" = None -> extract_list (JObj fields) mapping = Ok [])
  /\ (forall data,
        Dict.get fields "data" = Some data ->
        (forall meta data1, data <> JList [meta; JList data1]) ->
        extract_list (JObj fields) mapping = Ok [])
  /\ (forall meta data1,
        Dict.get fields "data-availability" = Some (JStr "available") ->
        Dict.get fields "data" = Some (JList [meta; JList data1]) ->
        Forall (fun item => exists item_fields, item = JObj item_fields) data1 ->
        exists items, extract_list (JObj fields) mapping = Ok items).
Proof.
  rewrite extract_list_object. split; [| split; [| split]].
  - intros Hflag.
    destruct (Dict.get fields "data-availability") as [[| | |flag| |]|]; try reflexivity.
    destruct (String.eqb_spec flag "available") as [-> | _]; [congruence | reflexivity].
  - intros ->.
    destruct (Dict.get fields "data-availability") as [[| | |flag| |]|]; try reflexivity.
    destruct (String.eqb flag "available"); reflexivity.
  - intros data -> Hshape.
    destruct (Dict.get fields "data-availability") as [[| | |flag| |]|]; try reflexivity.
    destruct (String.eqb flag "available"); [| reflexivity].
    destruct data as [| | | |[|meta [|[| | | |data1|] [|extra rest]]]|]; try reflexivity.
    exfalso. apply (Hshape meta data1). reflexivity.
  - intros meta data1 -> -> Hobjects. cbn [String.eqb Ascii.eqb Bool.eqb].
    assert (Hmap : forall item_fields acc,
               exists new_item, map_fields (JObj item_fields) mapping acc = Ok new_item).
    { intros item_fields. induction mapping as [|[src dst] rest IH]; intros acc;
        cbn [map_fields item_get and_then]; [eexists; reflexivity |].
      destruct (Dict.get item_fields src); apply IH. }
    generalize (@nil (Dict.t Json)) as acc.
    induction Hobjects as [|item rest (item_fields & ->) _ IH]; intros acc;
      cbn [collect_items]; [eexists; reflexivity |].
    destruct (Hmap item_fields []) as [new_item ->]. cbn [and_then].
    destruct new_item; apply IH.
Qed.

End ExtractFacts.

Section ExtractRuns.
Import ApiClient Spec.

Lemma extract_list_items_witness :
  extract_list
    (Demo.available [JObj [("th_id", JNum 123); ("th", JStr "2023"); ("unit", JStr "-")];
                     JObj [("unit", JStr "-")]])
    th_mapping
  = Ok [[("id", JNum 123); ("label", JStr "2023")]]
  /\ Forall (fun item => item <> []
                         /\ forall k, In k (Dict.keys item) -> In k ["id"; "label"]%string)
       [[("id", JNum 123); ("label", JStr "2023")]].
Proof.
  split; [reflexivity |].
  destruct (extract_list_items
              (Demo.available [JObj [("th_id", JNum 123); ("th", JStr "2023");
                                     ("unit", JStr "-")];
                               JObj [("unit", JStr "-")]])
              th_mapping [[("id", JNum 123); ("label", JStr "2023")]] eq_refl)
    as (Hitems & _).
  exact Hitems.
Defined.

Lemma extract_list_tolerates_shapes_witness :
  extract_list Demo.not_available vervar_mapping = Ok []
  /\ extract_list (JObj [("data-availability", JStr "available"); ("data", JStr "none")])
       vervar_mapping
     = Ok [].
Proof.
  split.
  - destruct (extract_list_tolerates_shapes
                [("data-availability", JStr "list-not-available")] vervar_mapping)
      as (Hflag & _).
    apply Hflag. discriminate.
  - destruct (extract_list_tolerates_shapes
                [("data-availability", JStr "available"); ("data", JStr "none")]
                vervar_mapping)
      as (_ & _ & Hshape & _).
    apply (Hshape (JStr "none")); [reflexivity | discriminate].
Defined.

End ExtractRuns.

(** ** Labels *)

Section LabelFacts.
Context {lib : PyLib}.
Import ApiClient Spec.









End LabelFacts.

Section LabelRuns.
Import ApiClient Spec.


End LabelRuns.

(** ** More on the key decoder *)

Section DecoderMoreFacts.
Import ApiClient Spec.

Lemma substring_adjacent (s : string) (n m k : nat) :
  (substring n m s ++ substring (n + m) k s)%string = substring n (m + k) s.
Proof.
  revert n m k. induction s as [|c s IH]; intros n m k.
  - destruct n, m, k; reflexivity.
  - destruct n as [|n].
    + destruct m as [|m]; [reflexivity |].
      cbn [substring Nat.add]. rewrite <- (IH 0%nat m k). reflexivity.
    + cbn [substring Nat.add]. destruct m; apply IH.
Qed.

Lemma substring_whole (s : string) (m : nat) :
  (String.length s <= m)%nat -> substring 0 m s = s.
Proof.
  revert m. induction s as [|c s IH]; intros m Hlen; [destruct m; reflexivity |].
  cbn [String.length] in Hlen. destruct m as [|m]; [lia |].
  cbn [substring]. rewrite IH by lia. reflexivity.
Qed.

Lemma substring_of_prefix (s t : string) (n m : nat) :
  (n + m <= String.length s)%nat -> substring n m (s ++ t)%string = substring n m s.
Proof.
  revert n m. induction s as [|c s IH]; intros n m Hlen; cbn [String.length] in Hlen.
  - assert (n = 0%nat) as -> by lia. assert (m = 0%nat) as -> by lia.
    destruct t; reflexivity.
  - destruct n as [|n].
    + destruct m as [|m]; [reflexivity |].
      simpl. f_equal. apply IH. lia.
    + simpl. destruct m; apply IH; lia.
Qed.

(** X18. The six segments, put together again, are the first 19 characters
    of the key: decoding loses nothing of a key of up to 19 characters, and
    ignores what follows the 19th. *)
Theorem decode_datacontent_key_concat (key : string) :
  Str.join "" (map snd (_decode_datacontent_key key)) = Str.slice 0 19 key
  /\ ((String.length key <= 19)%nat ->
      Str.join "" (map snd (_decode_datacontent_key key)) = key)
  /\ (forall tail,
        (19 <= String.length key)%nat ->
        _decode_datacontent_key (key ++ tail)%string = _decode_datacontent_key key).
Proof.
  assert (Hjoin : Str.join "" (map snd (_decode_datacontent_key key)) = Str.slice 0 19 key).
  { unfold _decode_datacontent_key, Str.slice. cbn [map snd Str.join Nat.sub].
    change (substring 0 4 key ++ substring 4 2 key ++ substring 6 2 key
            ++ substring 8 5 key ++ substring 13 3 key ++ substring 16 3 key
            = substring 0 19 key)%string.
    rewrite (substring_adjacent key 13 3 3 :
               (substring 13 3 key ++ substring 16 3 key)%string = substring 13 6 key).
    rewrite (substring_adjacent key 8 5 6 :
               (substring 8 5 key ++ substring 13 6 key)%string = substring 8 11 key).
    rewrite (substring_adjacent key 6 2 11 :
               (substring 6 2 key ++ substring 8 11 key)%string = substring 6 13 key).
    rewrite (substring_adjacent key 4 2 13 :
               (substring 4 2 key ++ substring 6 13 key)%string = substring 4 15 key).
    exact (substring_adjacent key 0 4 15). }
  split; [exact Hjoin |]. split.
  - intros Hlen. rewrite Hjoin. unfold Str.slice. apply substring_whole. cbn. exact Hlen.
  - intros tail Hlen. unfold _decode_datacontent_key, Str.slice.
    rewrite !substring_of_prefix by (cbn; lia). reflexivity.
Qed.

Lemma decode_datacontent_key_concat_witness :
  Str.join "" (map snd (_decode_datacontent_key "0000230100001001000"))
  = "0000230100001001000"%string
  /\ _decode_datacontent_key "0000230100001001000-extra"
     = _decode_datacontent_key "0000230100001001000".
Proof.
  destruct (decode_datacontent_key_concat "0000230100001001000") as (_ & Hsame & Htail).
  split.
  - apply Hsame. vm_compute. lia.
  - apply (Htail "-extra"%string). vm_compute. lia.
Defined.

End DecoderMoreFacts.

(** ** Dynamic table data *)

Section DataFacts.
Context {lib : PyLib}.
Import ApiClient Sys Spec.

(** The test for the flag ["available"], as a comparison of strings. *)
Lemma match_available {A} (o : option Json) (yes no : A) :
  match o with
  | Some (JStr "available") => yes
  | _ => no
  end
  = match o with
    | Some (JStr flag) => if String.eqb flag "available" then yes else no
    | _ => no
    end.
Proof.
  destruct o as [[| | |flag| |]|]; try reflexivity.
  destruct (String.eqb_spec flag "available") as [-> | Hne]; [reflexivity |].
  repeat (destruct flag as [|[[] [] [] [] [] [] [] []] flag];
          try reflexivity; try (exfalso; apply Hne; reflexivity)).
Qed.

Lemma bind_get_config {A} (k : Config -> M A) (w : World) :
  (cfg <- get_config ;; k cfg) w = k (config w) w.
Proof. reflexivity. Qed.

(** The handler of the decorator leaves the world of the body. *)
Lemma handled_world {A} (body : M A) (w w1 : World) :
  snd (body w) = w1 ->
  snd (let (r, w') := body w in
       match r with
       | Ok a => (Ok a, w')
       | Raise e =>
           match reclassify e with
           | Some h => h w'
           | None => (Raise e, w')
           end
       end) = w1.
Proof.
  destruct (body w) as [[a|e] w']; cbn [snd]; intros <-; [reflexivity |].
  destruct (reclassify_raises (A := A) e w') as [e' ->]. reflexivity.
Qed.

(** A request followed by steps that leave the world alone. *)
Lemma request_world {A} (url : string) (params : Dict.t string) (k : Response -> M A)
    (w : World) :
  (forall response w', snd (k response w') = w') ->
  snd ((response <- requests_get url params ;; k response) w)
  = log (EvHttpGet url params) w.
Proof.
  intros Hk. unfold bind, requests_get.
  destruct (endpoint w url params) as [response|e]; [apply Hk | reflexivity].
Qed.

(** X19. [get_dynamic_table_data], for a ready client with a stored token,
    sends exactly one request.  Its [domain] is [source_domain] when one is
    given and not empty, else [domain_id]; [vervar], [turvar] and [turth]
    are sent only for a selection that is not empty, the lists joined by
    semicolons. *)
Theorem get_dynamic_table_data_request (self : t)
    (domain_id var_id vertical_var_id year token : string)
    (horizontal_var_ids vertical_var_item_ids : list string) (source_domain : option string)
    (w : World) :
  is_ready self = true ->
  load_token (config w) = Some token ->
  token <> ""%string ->
  exists params,
    snd (get_dynamic_table_data self domain_id var_id vertical_var_id year horizontal_var_ids
           vertical_var_item_ids source_domain w)
    = log (EvHttpGet base_url params) w
    /\ Dict.get params "model" = Some "data"%string
    /\ Dict.get params "domain"
       = Some (match source_domain with
               | Some d => if String.eqb d "" then domain_id else d
               | None => domain_id
               end)
    /\ Dict.get params "var" = Some var_id
    /\ Dict.get params "key" = Some token
    /\ Dict.get params "th" = Some year
    /\ Dict.get params "vervar"
       = (if String.eqb vertical_var_id "" then None else Some vertical_var_id)
    /\ Dict.get params "turvar"
       = (if nonempty horizontal_var_ids then Some (Str.join ";" horizontal_var_ids)
          else None)
    /\ Dict.get params "turth"
       = (if nonempty vertical_var_item_ids then Some (Str.join ";" vertical_var_item_ids)
          else None).
Proof.
  intros Hready Htoken Hne.
  unfold get_dynamic_table_data, handle_api_errors. rewrite Hready. cbn [negb].
  unfold try_except. rewrite bind_get_config, Htoken.
  unfold Str.truthy at 1. apply String.eqb_neq in Hne. rewrite Hne. cbn [negb].
  cbv zeta. eexists. split.
  - apply handled_world. apply request_world. intros response w'.
    unfold bind, raise_for_status, lift, raise, ret.
    destruct ((400 <=? status_code response)%Z && (status_code response <? 600)%Z);
      [reflexivity |].
    destruct (json response) as [[| | | | |fields]|e]; try reflexivity.
    rewrite match_available.
    destruct (Dict.get fields "data-availability") as [[| | |flag| |]|]; try reflexivity.
    destruct (String.eqb flag "available"); [| reflexivity].
    destruct (Dict.get fields "datacontent") as [[| | | | |datacontent]|]; try reflexivity.
    destruct (pd_DataFrame _) as [df|e]; [| reflexivity].
    destruct (empty df); reflexivity.
  - unfold Str.truthy.
    destruct source_domain as [d|]; [destruct (String.eqb d "") |];
      destruct (String.eqb vertical_var_id ""); cbn [negb];
      destruct (nonempty horizontal_var_ids); destruct (nonempty vertical_var_item_ids);
      repeat split; reflexivity.
Qed.

(** A result that comes through the handler of the decorator is a result of
    the body. *)
Lemma handled_ok {A} (body : M A) (w : World) (a : A) :
  fst (let (r, w') := body w in
       match r with
       | Ok a => (Ok a, w')
       | Raise e =>
           match reclassify e with
           | Some h => h w'
           | None => (Raise e, w')
           end
       end) = Ok a ->
  fst (body w) = Ok a.
Proof.
  destruct (body w) as [[a'|e] w']; cbn [fst]; [auto |].
  destruct (reclassify_raises (A := A) e w') as [e' ->]. discriminate.
Qed.

(** X20. A table that [get_dynamic_table_data] returns is never empty, and
    it is the table of the decoded records of a good response: the status
    is no error status, the document is marked available, and its
    [datacontent] is a mapping, each entry of which gave one record. *)
Theorem get_dynamic_table_data_result (self : t)
    (domain_id var_id vertical_var_id year : string)
    (horizontal_var_ids vertical_var_item_ids : list string) (source_domain : option string)
    (w : World) (df : DataFrame) :
  fst (get_dynamic_table_data self domain_id var_id vertical_var_id year horizontal_var_ids
         vertical_var_item_ids source_domain w)
  = Ok df ->
  empty df = false
  /\ exists params response fields datacontent,
       endpoint w base_url params = Ok response
       /\ (400 <=? status_code response)%Z && (status_code response <? 600)%Z = false
       /\ json response = Ok (JObj fields)
       /\ Dict.get fields "data-availability" = Some (JStr "available")
       /\ Dict.get fields "datacontent" = Some (JObj datacontent)
       /\ pd_DataFrame
            (JList (map (fun kv => JObj (decode_record (fst kv) (snd kv))) datacontent))
          = Ok df.
Proof.
  unfold get_dynamic_table_data, handle_api_errors.
  destruct (is_ready self); cbn [negb]; [| discriminate].
  unfold try_except. intros Hrun. apply handled_ok in Hrun. revert Hrun.
  rewrite bind_get_config.
  destruct (load_token (config w)) as [token|]; [| discriminate].
  destruct (negb (Str.truthy (Some token))); [discriminate |].
  cbv zeta. unfold bind at 1. unfold requests_get at 1.
  match goal with
  | |- context [endpoint w base_url ?p] =>
      set (params := p); destruct (endpoint w base_url params) as [response|e] eqn:Hanswer
  end; [| discriminate].
  unfold bind, raise_for_status, lift, raise, ret.
  destruct ((400 <=? status_code response)%Z && (status_code response <? 600)%Z) eqn:Hstatus;
    [discriminate |].
  destruct (json response) as [[| | | | |fields]|e] eqn:Hjson; try discriminate.
  rewrite match_available.
  destruct (Dict.get fields "data-availability") as [[| | |flag| |]|] eqn:Hflag;
    try discriminate.
  destruct (String.eqb_spec flag "available") as [-> | _]; [| discriminate].
  destruct (Dict.get fields "datacontent") as [[| | | | |datacontent]|] eqn:Hcontent;
    try discriminate.
  destruct (pd_DataFrame _) as [df'|e] eqn:Hframe; [| discriminate].
  destruct (empty df') eqn:Hempty; [discriminate |].
  cbn [fst]. intros [= <-]. split; [exact Hempty |].
  exists params, response, fields, datacontent. repeat split; assumption.
Qed.

End DataFacts.

Section DataRuns.
Import ApiClient Sys Spec.

Lemma get_dynamic_table_data_request_witness :
  exists params,
    snd (get_dynamic_table_data (lib := Cases.lib) (Demo.ready 0) "1100" "70" "1" "123"
           ["0"; "1"]%string ["9999"]%string (Some "0000"%string) Cases.with_data)
    = log (EvHttpGet base_url params) Cases.with_data
    /\ Dict.get params "domain" = Some "0000"%string
    /\ Dict.get params "turvar" = Some "0;1"%string.
Proof.
  destruct (get_dynamic_table_data_request (lib := Cases.lib) (Demo.ready 0) "1100" "70" "1"
              "123" "secret" ["0"; "1"]%string ["9999"]%string (Some "0000"%string)
              Cases.with_data eq_refl eq_refl ltac:(discriminate))
    as (params & Hworld & _ & Hdomain & _ & _ & _ & _ & Hturvar & _).
  exists params. split; [exact Hworld |]. split; [exact Hdomain | exact Hturvar].
Defined.

Lemma get_dynamic_table_data_result_witness :
  exists df,
    fst (get_dynamic_table_data (lib := Cases.lib) (Demo.ready 0) "1100" "70" "1" "123"
           ["0"]%string ["9999"]%string None Cases.with_data)
    = Ok df
    /\ empty df = false
    /\ length (rows df) = 1%nat.
Proof.
  destruct (get_dynamic_table_data (lib := Cases.lib) (Demo.ready 0) "1100" "70" "1" "123"
              ["0"]%string ["9999"]%string None Cases.with_data) as [r w1] eqn:Hrun.
  vm_compute in Hrun. injection Hrun as <- <-.
  eexists. split; [reflexivity |].
  destruct (get_dynamic_table_data_result (lib := Cases.lib) (Demo.ready 0) "1100" "70" "1"
              "123" ["0"]%string ["9999"]%string None Cases.with_data _ eq_refl)
    as (Hfilled & _).
  split; [exact Hfilled | reflexivity].
Defined.

End DataRuns.

(** ** More on normalization *)

Section NormalizeMoreFacts.
Import ApiClient Spec.

Lemma name_columns_length (i : nat) (cols : list Label) :
  length (name_columns i cols) = length cols.
Proof.
  revert i. induction cols as [|col rest IH]; intros i; cbn [name_columns length];
    [reflexivity | rewrite IH; reflexivity].
Qed.

Lemma name_columns_nth (k i : nat) (cols : list Label) :
  nth_error (name_columns k cols) i
  = option_map
      (fun col => if eq_empty_str col || isna col then LStr ("Unnamed_" ++ pretty (k + i)%nat)
                  else LStr (str col))
      (nth_error cols i).
Proof.
  revert k i. induction cols as [|col rest IH]; intros k i; cbn [name_columns].
  - destruct i; reflexivity.
  - destruct i as [|i]; cbn [nth_error option_map].
    + rewrite Nat.add_0_r. reflexivity.
    + rewrite IH. replace (S k + i)%nat with (k + S i)%nat by lia. reflexivity.
Qed.

Lemma renumber_cells (i : nat) (rs : list (Label * list Cell)) :
  map snd (renumber i rs) = map snd rs.
Proof.
  revert i. induction rs as [|[l cells] rest IH]; intros i; cbn [renumber map snd];
    [reflexivity | rewrite IH; reflexivity].
Qed.

Lemma renumber_labels (i : nat) (rs : list (Label * list Cell)) :
  map fst (renumber i rs) = map (fun n => LInt (Z.of_nat n)) (seq i (length rs)).
Proof.
  revert i. induction rs as [|[l cells] rest IH]; intros i;
    cbn [renumber map fst length seq]; [reflexivity | rewrite IH; reflexivity].
Qed.

Lemma dropna_all_cells (rs : list (Label * list Cell)) :
  map snd (dropna_all rs) = List.filter (existsb cell_notna) (map snd rs).
Proof.
  unfold dropna_all. induction rs as [|[l cells] rest IH]; cbn [List.filter map snd];
    [reflexivity |].
  destruct (existsb cell_notna cells); cbn [map snd]; rewrite IH; reflexivity.
Qed.

(** X21. What normalization returns: a flat header with as many columns as
    before, every label a string that is not empty; the rows that hold at
    least one value, their cells untouched and in their order, labelled
    0, 1, 2, ... *)
Theorem clean_bps_dataframe_shape (df : DataFrame) :
  (exists labels,
      columns (_clean_bps_dataframe df) = Index labels
      /\ Forall named labels
      /\ length labels = ncols (columns df))
  /\ map snd (rows (_clean_bps_dataframe df))
     = List.filter (existsb cell_notna) (map snd (rows df))
  /\ map fst (rows (_clean_bps_dataframe df))
     = map (fun n => LInt (Z.of_nat n)) (seq 0 (length (rows (_clean_bps_dataframe df))))
  /\ Forall has_value (rows (_clean_bps_dataframe df))
  /\ (length (rows (_clean_bps_dataframe df)) <= length (rows df))%nat.
Proof.
  unfold _clean_bps_dataframe. cbn [columns rows]. split; [| split; [| split; [| split]]].
  - eexists. split; [reflexivity |]. split; [apply name_columns_named |].
    rewrite name_columns_length.
    destruct (columns df) as [labels | tuples]; cbn [ncols];
      [reflexivity | apply length_map].
  - unfold reset_index. rewrite renumber_cells. apply dropna_all_cells.
  - unfold reset_index. rewrite renumber_labels. f_equal. f_equal.
    clear. generalize 0%nat. induction (dropna_all (rows df)) as [|[l c] rest IH]; intros i;
      cbn [renumber length]; [reflexivity | rewrite <- IH; reflexivity].
  - unfold reset_index. apply renumber_has_value, dropna_all_has_value.
  - unfold reset_index.
    assert (Hlen : forall i rs, length (renumber i rs) = length rs).
    { intros i rs. revert i. induction rs as [|[l c] rest IH]; intros i;
        cbn [renumber length]; [reflexivity | rewrite IH; reflexivity]. }
    rewrite Hlen. unfold dropna_all. apply List.filter_length_le.
Qed.

(** X22. The fallback label of a column carries its position in the header.
    In a flat header the column at position [i] is renamed [Unnamed_i] when
    its label is the empty string or missing, and to [str] of its label
    otherwise; in a hierarchical header the same holds of its flattened
    label. *)
Theorem clean_bps_dataframe_label_at (df : DataFrame) (i : nat) :
  (forall labels col,
      columns df = Index labels ->
      nth_error labels i = Some col ->
      exists labels',
        columns (_clean_bps_dataframe df) = Index labels'
        /\ nth_error labels' i
           = Some (if eq_empty_str col || isna col then LStr ("Unnamed_" ++ pretty i)
                   else LStr (str col)))
  /\ (forall tuples col,
        columns df = MultiIndex tuples ->
        nth_error tuples i = Some col ->
        exists labels',
          columns (_clean_bps_dataframe df) = Index labels'
          /\ nth_error labels' i
             = Some (if String.eqb (flatten_column col) ""
                     then LStr ("Unnamed_" ++ pretty i)
                     else LStr (flatten_column col))).
Proof.
  unfold _clean_bps_dataframe. cbn [columns]. split.
  - intros labels col -> Hcol. eexists. split; [reflexivity |].
    rewrite name_columns_nth, Hcol. reflexivity.
  - intros tuples col -> Hcol. eexists. split; [reflexivity |].
    rewrite name_columns_nth, nth_error_map, Hcol. cbn [option_map eq_empty_str isna str].
    rewrite orb_false_r. reflexivity.
Qed.

(** A flat header with a missing label, and a hierarchical header one of
    whose columns is named by a no-break space alone. *)
Lemma clean_bps_dataframe_label_at_witness :
  (exists labels',
     columns (_clean_bps_dataframe
                (mkDataFrame (Index [LStr "Provinsi"; LNaN; LInt 2023]) []))
     = Index labels'
     /\ nth_error labels' 1 = Some (LStr "Unnamed_1"))
  /\ (exists labels',
        columns (_clean_bps_dataframe
                   (mkDataFrame
                      (MultiIndex [[LStr "Provinsi"; LNaN]; [LStr Cases.nbsp; LNone]]) []))
        = Index labels'
        /\ nth_error labels' 1 = Some (LStr "Unnamed_1")).
Proof.
  split.
  - destruct (clean_bps_dataframe_label_at
                (mkDataFrame (Index [LStr "Provinsi"; LNaN; LInt 2023]) []) 1)
      as (Hflat & _).
    apply (Hflat [LStr "Provinsi"; LNaN; LInt 2023] LNaN); reflexivity.
  - destruct (clean_bps_dataframe_label_at
                (mkDataFrame
                   (MultiIndex [[LStr "Provinsi"; LNaN]; [LStr Cases.nbsp; LNone]]) []) 1)
      as (_ & Hmulti).
    apply (Hmulti [[LStr "Provinsi"; LNaN]; [LStr Cases.nbsp; LNone]]
             [LStr Cases.nbsp; LNone]); reflexivity.
Defined.

End NormalizeMoreFacts.

(** ** More on export *)

Section ExportMoreFacts.
Context {lib : PyLib}.
Import ApiClient Sys Spec.

(** [download_table] once the table is there and the destination is free
    or may be overwritten: the writer of the format is handed the
    destination, and what it raises is raised. *)
Lemma download_table_proceeds (self : t) (domain_id table_id filename format : string)
    (overwrite : bool) (w w1 : World) (df : DataFrame) :
  is_ready self = true ->
  view_static_table self domain_id table_id w = (Ok df, w1) ->
  fs w !! destination w filename = None \/ overwrite = true ->
  download_table self domain_id table_id filename format overwrite w
  = match Screen.written format (_clean_bps_dataframe df) with
    | Some rendering =>
        match to_file (destination w filename) rendering w1 with
        | (Ok _, w2) => (Ok (destination w filename), w2)
        | (Raise e, w2) => (Raise e, w2)
        end
    | None => (Raise (ValueError ("Format tidak didukung: " ++ format)%string), w1)
    end.
Proof.
  intros Hready Hview Hfree.
  pose proof (view_static_table_same_store self domain_id table_id w) as (Hfs & Hcfg & _).
  pose proof (view_static_table_not_empty self domain_id table_id w w1 df Hview) as Hempty.
  rewrite Hview in Hfs, Hcfg. cbn [snd] in Hfs, Hcfg.
  unfold download_table. rewrite Hready. cbn [negb].
  unfold bind at 1. rewrite Hview.
  unfold bind at 1. rewrite Hempty. unfold ret at 1.
  unfold bind at 1. unfold get_config at 1.
  unfold destination in *. rewrite Hcfg.
  assert (Hgo : forall base_path,
             fs w !! path_join base_path filename = None \/ overwrite = true ->
             (present <- exists_ (path_join base_path filename) ;;
              if present && negb overwrite
              then raise (FileExistsError (path_join base_path filename))
              else
                (if String.eqb format "csv"
                 then to_file (path_join base_path filename)
                        (to_csv (_clean_bps_dataframe df))
                 else if String.eqb format "xlsx"
                      then to_file (path_join base_path filename)
                             (to_excel (_clean_bps_dataframe df))
                 else if String.eqb format "json"
                      then to_file (path_join base_path filename)
                             (to_json (_clean_bps_dataframe df))
                 else raise (ValueError ("Format tidak didukung: " ++ format)%string)) ;;
                ret (path_join base_path filename)) w1
             = match Screen.written format (_clean_bps_dataframe df) with
               | Some rendering =>
                   match to_file (path_join base_path filename) rendering w1 with
                   | (Ok _, w2) => (Ok (path_join base_path filename), w2)
                   | (Raise e, w2) => (Raise e, w2)
                   end
               | None => (Raise (ValueError ("Format tidak didukung: " ++ format)%string), w1)
               end).
  { intros base_path Hbase. unfold bind at 1. unfold exists_. rewrite Hfs.
    assert (Htest : bool_decide (is_Some (fs w !! path_join base_path filename))
                    && negb overwrite = false).
    { destruct Hbase as [Hnone | ->]; [| apply andb_false_r].
      rewrite Hnone. rewrite bool_decide_eq_false_2; [reflexivity |].
      intros [x Hx]; discriminate. }
    rewrite Htest. unfold Screen.written, bind, raise, ret.
    destruct (String.eqb format "csv"); [reflexivity |].
    destruct (String.eqb format "xlsx"); [reflexivity |].
    destruct (String.eqb format "json"); reflexivity. }
  destruct (download_path (config w)) as [config_path|].
  - destruct (Str.truthy (Some config_path)).
    + unfold bind at 1. unfold bind at 1. unfold is_dir at 1. rewrite Hfs.
      destruct (fs w !! config_path) as [[tm tx|tm]|];
        [exact (Hgo cwd Hfree) | exact (Hgo config_path Hfree) | exact (Hgo cwd Hfree)].
    + exact (Hgo cwd Hfree).
  - exact (Hgo cwd Hfree).
Qed.

(** X23. [download_table] with a destination that is free, or with
    [overwrite=True], one of the formats csv, xlsx and json whose writer
    renders the table, and a destination that can be opened for writing (a
    regular file, or a name that is free in a directory that is there): the
    normalized table is written to the destination in that format, the
    destination is returned, no other regular file changes and every
    directory is still there. *)
Theorem download_table_writes_destination (self : t)
    (domain_id table_id filename format content : string) (overwrite : bool) (w w1 : World)
    (df : DataFrame) :
  is_ready self = true ->
  view_static_table self domain_id table_id w = (Ok df, w1) ->
  fs w !! destination w filename = None \/ overwrite = true ->
  Screen.written format (_clean_bps_dataframe df) = Some (Rendered content) ->
  writable (fs w) (destination w filename) ->
  fst (download_table self domain_id table_id filename format overwrite w)
  = Ok (destination w filename)
  /\ fs (snd (download_table self domain_id table_id filename format overwrite w))
     !! destination w filename
     = Some (File (clock w1) content)
  /\ same_files_but (destination w filename) (fs w)
       (fs (snd (download_table self domain_id table_id filename format overwrite w)))
  /\ keeps_directories (fs w)
       (fs (snd (download_table self domain_id table_id filename format overwrite w)))
  /\ appends w1 (snd (download_table self domain_id table_id filename format overwrite w))
       [EvWrite (destination w filename)].
Proof.
  intros Hready Hview Hfree Hwritten Hopen.
  pose proof (view_static_table_same_store self domain_id table_id w) as (Hfs & _).
  rewrite Hview in Hfs. cbn [snd] in Hfs.
  rewrite (download_table_proceeds self domain_id table_id filename format overwrite w w1 df)
    by assumption.
  rewrite Hwritten. rewrite <- Hfs in Hopen |- *.
  destruct (to_file_rendered (destination w filename) content w1 Hopen)
    as (Hres & Hfile & Hfiles & Hdirs & (_ & _ & _ & Htrace)).
  destruct (to_file (destination w filename) (Rendered content) w1) as [[[]|e] w2];
    cbn [fst snd] in *; [| discriminate].
  auto.
Qed.

(** X28. [download_table] when the file cannot be written, once the table
    is fetched and the destination is free or may be overwritten.  A
    destination that cannot be opened for writing (a directory, or a name in
    a directory that is missing) makes the call fail with the [OSError] of
    the writer that opens it, and nothing has changed.  A writer that
    refuses the table before it opens the destination, as [to_json] does
    with duplicate column labels, makes the call fail with its exception,
    and nothing has changed either.  A writer that breaks off after it has
    opened a destination that can be written makes the call fail with its
    exception and leaves in the destination what it had written.  None of
    these exceptions is reclassified. *)
Theorem download_table_cannot_write (self : t)
    (domain_id table_id filename format : string) (overwrite : bool) (w w1 : World)
    (df : DataFrame) (rendering : Rendering) :
  is_ready self = true ->
  view_static_table self domain_id table_id w = (Ok df, w1) ->
  fs w !! destination w filename = None \/ overwrite = true ->
  Screen.written format (_clean_bps_dataframe df) = Some rendering ->
  (~ writable (fs w) (destination w filename) ->
   (forall e, rendering <> Broken e None) ->
   download_table self domain_id table_id filename format overwrite w
   = (Raise OSError, log (EvWrite (destination w filename)) w1))
  /\ (forall e,
        rendering = Broken e None ->
        download_table self domain_id table_id filename format overwrite w = (Raise e, w1))
  /\ (forall e partial,
        rendering = Broken e (Some partial) ->
        writable (fs w) (destination w filename) ->
        fst (download_table self domain_id table_id filename format overwrite w) = Raise e
        /\ fs (snd (download_table self domain_id table_id filename format overwrite w))
           !! destination w filename
           = Some (File (clock w1) partial)
        /\ same_files_but (destination w filename) (fs w)
             (fs (snd (download_table self domain_id table_id filename format overwrite w))))
  /\ fs w1 = fs w.
Proof.
  intros Hready Hview Hfree Hwritten.
  pose proof (view_static_table_same_store self domain_id table_id w) as (Hfs & _).
  rewrite Hview in Hfs. cbn [snd] in Hfs.
  rewrite (download_table_proceeds self domain_id table_id filename format overwrite w w1 df)
    by assumption.
  rewrite Hwritten. split; [| split; [| split; [| exact Hfs]]].
  - intros Hshut Hopens. rewrite <- Hfs in Hshut.
    rewrite (to_file_refused _ _ _ Hshut Hopens). reflexivity.
  - intros e ->. reflexivity.
  - intros e partial -> Hopen. rewrite <- Hfs in Hopen |- *.
    destruct (to_file_broken (destination w filename) partial e w1 Hopen)
      as (Hres & Hfile & Hfiles).
    destruct (to_file (destination w filename) (Broken e (Some partial)) w1) as [[[]|e1] w2];
      cbn [fst snd] in *; [discriminate |].
    injection Hres as ->. split; [reflexivity | split; [exact Hfile | exact Hfiles]].
Qed.

(** X24. [download_table] with any other format raises [ValueError] and
    writes nothing, but only after the table has been fetched: the format is
    looked at last. *)
Theorem download_table_rejects_format (self : t)
    (domain_id table_id filename format : string) (overwrite : bool) (w w1 : World)
    (df : DataFrame) :
  is_ready self = true ->
  view_static_table self domain_id table_id w = (Ok df, w1) ->
  fs w !! destination w filename = None \/ overwrite = true ->
  format <> "csv"%string -> format <> "xlsx"%string -> format <> "json"%string ->
  download_table self domain_id table_id filename format overwrite w
  = (Raise (ValueError ("Format tidak didukung: " ++ format)%string), w1)
  /\ fs w1 = fs w.
Proof.
  intros Hready Hview Hfree Hcsv Hxlsx Hjson.
  pose proof (view_static_table_same_store self domain_id table_id w) as (Hfs & _).
  rewrite Hview in Hfs. cbn [snd] in Hfs.
  rewrite (download_table_proceeds self domain_id table_id filename format overwrite w w1 df)
    by assumption.
  unfold Screen.written.
  apply String.eqb_neq in Hcsv, Hxlsx, Hjson. rewrite Hcsv, Hxlsx, Hjson.
  split; [reflexivity | exact Hfs].
Qed.

(** X25. Building a client never raises and changes nothing.  The token is
    the one given when that is not empty, else the stored one; and the client
    is ready exactly when this token is not empty and [stadata.Client]
    accepts it. *)
Theorem init_client (tok : option string) (w : World) :
  exists self,
    __init__ tok w = (Ok self, w)
    /\ token self = (if Str.truthy tok then tok else load_token (config w))
    /\ (is_ready self = true <->
        exists s c, token self = Some s /\ s <> ""%string /\ stadata_Client s = Ok c
                    /\ client self = Some c).
Proof.
  unfold __init__, bind, get_config, ret. cbv beta iota zeta.
  eexists. split; [reflexivity |]. cbn [token client]. split; [reflexivity |].
  unfold is_ready. cbn [client].
  destruct (if Str.truthy tok then tok else load_token (config w)) as [s|]; [| split].
  - unfold Str.truthy. destruct (String.eqb_spec s "") as [-> | Hne]; cbn [negb].
    + split; [discriminate |]. intros (s' & c & [= <-] & Hs & _). congruence.
    + destruct (stadata_Client s) as [c|e] eqn:Hclient.
      * split; [intros _; exists s, c; auto | reflexivity].
      * split; [discriminate |]. intros (s' & c & [= <-] & _ & Hc & _).
        rewrite Hclient in Hc. discriminate.
  - discriminate.
  - intros (s & c & Hs & _). discriminate.
Qed.

End ExportMoreFacts.

Section ExportRuns.
Import ApiClient Sys Spec.

(** A ready client in a home directory that is there: the export is
    made. *)
Lemma download_table_writes_destination_witness :
  fst (download_table (lib := Demo.lib) (Demo.ready 0) "0000" "1" "table.csv" "json" false
         (Cases.at_home 5))
  = Ok "/home/user/table.csv"%string
  /\ fs (snd (download_table (lib := Demo.lib) (Demo.ready 0) "0000" "1" "table.csv" "json"
                false (Cases.at_home 5)))
     !! "/home/user/table.csv"
     = Some (File 5 "json:domain_id,domain_name:2").
Proof.
  destruct (download_table_writes_destination (lib := Demo.lib) (Demo.ready 0) "0000" "1"
              "table.csv" "json" "json:domain_id,domain_name:2" false (Cases.at_home 5)
              (log (EvInvoke "view_statictable") (Cases.at_home 5)) Demo.domains
              eq_refl eq_refl)
    as (Hpath & Hfile & _).
  - left. vm_compute. reflexivity.
  - reflexivity.
  - right. split; [vm_compute; reflexivity |].
    exists "/home/user"%string, ["/home"; "/"]%string.
    split; [vm_compute; reflexivity |]. exists 0. vm_compute. reflexivity.
  - split; [exact Hpath | exact Hfile].
Defined.

(** The same export onto a directory of that name, with [overwrite=True],
    and the export of a table with two columns of the same label: both
    fail, with [OSError] and with the [ValueError] of [to_json]. *)
Lemma download_table_cannot_write_witness :
  fst (download_table (lib := Demo.lib) (Demo.ready 0) "0000" "1" "table.csv" "csv" true
         (Cases.taken 5))
  = Raise OSError
  /\ fst (download_table (lib := Demo.lib) Cases.doubling "0000" "1" "table.json" "json" false
            (Cases.at_home 5))
     = Raise (ValueError "DataFrame columns must be unique for orient='records'.").
Proof.
  split.
  - destruct (download_table_cannot_write (lib := Demo.lib) (Demo.ready 0) "0000" "1"
                "table.csv" "csv" true (Cases.taken 5)
                (log (EvInvoke "view_statictable") (Cases.taken 5)) Demo.domains
                (Rendered "csv:domain_id,domain_name:2") eq_refl eq_refl (or_intror eq_refl)
                eq_refl)
      as (Hshut & _).
    rewrite Hshut; [reflexivity | | discriminate].
    intros [(t & text & Hfile) | (Hnone & _)]; vm_compute in *; discriminate.
  - destruct (download_table_cannot_write (lib := Demo.lib) Cases.doubling "0000" "1"
                "table.json" "json" false (Cases.at_home 5)
                (log (EvInvoke "view_statictable") (Cases.at_home 5)) Cases.twins
                (Broken (ValueError "DataFrame columns must be unique for orient='records'.")
                   None)
                eq_refl eq_refl)
      as (_ & Hrefused & _ & _).
    + left. vm_compute. reflexivity.
    + vm_compute. reflexivity.
    + rewrite (Hrefused _ eq_refl). reflexivity.
Defined.

Lemma download_table_rejects_format_witness :
  download_table (lib := Demo.lib) (Demo.ready 0) "0000" "1" "table.pdf" "pdf" false
    (Demo.with_export 5)
  = (Raise (ValueError "Format tidak didukung: pdf"),
     log (EvInvoke "view_statictable") (Demo.with_export 5)).
Proof.
  destruct (download_table_rejects_format (lib := Demo.lib) (Demo.ready 0) "0000" "1"
              "table.pdf" "pdf" false (Demo.with_export 5)
              (log (EvInvoke "view_statictable") (Demo.with_export 5)) Demo.domains
              eq_refl eq_refl)
    as (Hrun & _).
  - left. vm_compute. reflexivity.
  - discriminate.
  - discriminate.
  - discriminate.
  - exact Hrun.
Defined.

End ExportRuns.

(** ** The download of a built table *)

Section ScreenFacts.
Context {lib : PyLib}.
Import ApiClient Sys Spec Screen.

(** The download to [dest]: the notifications are the start, a warning when
    [dest] is taken, and the end, which tells of the file or of what the
    writer raised. *)
Lemma perform_dynamic_download_run (df : DataFrame) (filename file_format : string)
    (app : App) :
  perform_dynamic_download df filename file_format app
  = (Ok tt,
     match written file_format (_clean_bps_dataframe df) with
     | Some rendering =>
         match to_file (destination (world app) filename) rendering (world app) with
         | (Ok _, w2) =>
             mkApp w2
               (notifications app
                ++ DownloadStarted filename
                   :: (if bool_decide
                            (is_Some (fs (world app) !! destination (world app) filename))
                       then [OverwriteWarning (destination (world app) filename)] else [])
                ++ [DownloadDone (destination (world app) filename)])
         | (Raise e, w2) =>
             mkApp w2
               (notifications app
                ++ DownloadStarted filename
                   :: (if bool_decide
                            (is_Some (fs (world app) !! destination (world app) filename))
                       then [OverwriteWarning (destination (world app) filename)] else [])
                ++ [DownloadFailed e])
         end
     | None =>
         mkApp (world app)
           (notifications app
            ++ DownloadStarted filename
               :: (if bool_decide
                        (is_Some (fs (world app) !! destination (world app) filename))
                   then [OverwriteWarning (destination (world app) filename)] else [])
            ++ [DownloadDone (destination (world app) filename)])
     end).
Proof.
  destruct app as [w ns].
  assert (Hgo : forall base_path,
             ui_try
               (ui_bind (run (exists_ (path_join base_path filename))) (fun present =>
                ui_bind (if present
                         then notify (OverwriteWarning (path_join base_path filename))
                         else ui_ret tt) (fun _ =>
                ui_bind
                  (if String.eqb file_format "csv"
                   then run (to_file (path_join base_path filename)
                               (to_csv (_clean_bps_dataframe df)))
                   else if String.eqb file_format "xlsx"
                        then run (to_file (path_join base_path filename)
                                    (to_excel (_clean_bps_dataframe df)))
                   else if String.eqb file_format "json"
                        then run (to_file (path_join base_path filename)
                                    (to_json (_clean_bps_dataframe df)))
                   else ui_ret tt) (fun _ =>
                notify (DownloadDone (path_join base_path filename))))))
               (fun e => notify (DownloadFailed e))
               (mkApp w (ns ++ [DownloadStarted filename]))
             = (Ok tt,
                match written file_format (_clean_bps_dataframe df) with
                | Some rendering =>
                    match to_file (path_join base_path filename) rendering w with
                    | (Ok _, w2) =>
                        mkApp w2
                          (ns ++ DownloadStarted filename
                              :: (if bool_decide
                                       (is_Some (fs w !! path_join base_path filename))
                                  then [OverwriteWarning (path_join base_path filename)]
                                  else [])
                              ++ [DownloadDone (path_join base_path filename)])
                    | (Raise e, w2) =>
                        mkApp w2
                          (ns ++ DownloadStarted filename
                              :: (if bool_decide
                                       (is_Some (fs w !! path_join base_path filename))
                                  then [OverwriteWarning (path_join base_path filename)]
                                  else [])
                              ++ [DownloadFailed e])
                    end
                | None =>
                    mkApp w
                      (ns ++ DownloadStarted filename
                          :: (if bool_decide (is_Some (fs w !! path_join base_path filename))
                              then [OverwriteWarning (path_join base_path filename)] else [])
                          ++ [DownloadDone (path_join base_path filename)])
                end)).
  { intros base_path.
    assert (Hwrite : forall rendering,
               ui_try
                 (ui_bind (run (exists_ (path_join base_path filename))) (fun present =>
                  ui_bind (if present
                           then notify (OverwriteWarning (path_join base_path filename))
                           else ui_ret tt) (fun _ =>
                  ui_bind (run (to_file (path_join base_path filename) rendering)) (fun _ =>
                  notify (DownloadDone (path_join base_path filename))))))
                 (fun e => notify (DownloadFailed e))
                 (mkApp w (ns ++ [DownloadStarted filename]))
               = (Ok tt,
                  match to_file (path_join base_path filename) rendering w with
                  | (Ok _, w2) =>
                      mkApp w2
                        (ns ++ DownloadStarted filename
                            :: (if bool_decide
                                     (is_Some (fs w !! path_join base_path filename))
                                then [OverwriteWarning (path_join base_path filename)]
                                else [])
                            ++ [DownloadDone (path_join base_path filename)])
                  | (Raise e, w2) =>
                      mkApp w2
                        (ns ++ DownloadStarted filename
                            :: (if bool_decide
                                     (is_Some (fs w !! path_join base_path filename))
                                then [OverwriteWarning (path_join base_path filename)]
                                else [])
                            ++ [DownloadFailed e])
                  end)).
    { intros rendering. unfold ui_try, ui_bind, run, exists_, notify, ui_ret.
      cbn [world notifications].
      destruct (bool_decide (is_Some (fs w !! path_join base_path filename)));
        cbn [world notifications];
        destruct (to_file (path_join base_path filename) rendering w) as [[[]|e] w2];
        cbn [world notifications]; rewrite <- !app_assoc; reflexivity. }
    unfold written.
    destruct (String.eqb file_format "csv"); [apply Hwrite |].
    destruct (String.eqb file_format "xlsx"); [apply Hwrite |].
    destruct (String.eqb file_format "json"); [apply Hwrite |].
    unfold ui_try, ui_bind, run, exists_, notify, ui_ret. cbn [world notifications].
    destruct (bool_decide (is_Some (fs w !! path_join base_path filename)));
      cbn [world notifications]; rewrite <- !app_assoc; reflexivity. }
  unfold destination. cbn [world notifications].
  assert (Hbase : forall base_path,
             ui_try
               (ui_bind (ui_ret base_path) (fun base_path =>
                ui_bind (run (exists_ (path_join base_path filename))) (fun present =>
                ui_bind (if present
                         then notify (OverwriteWarning (path_join base_path filename))
                         else ui_ret tt) (fun _ =>
                ui_bind
                  (if String.eqb file_format "csv"
                   then run (to_file (path_join base_path filename)
                               (to_csv (_clean_bps_dataframe df)))
                   else if String.eqb file_format "xlsx"
                        then run (to_file (path_join base_path filename)
                                    (to_excel (_clean_bps_dataframe df)))
                   else if String.eqb file_format "json"
                        then run (to_file (path_join base_path filename)
                                    (to_json (_clean_bps_dataframe df)))
                   else ui_ret tt) (fun _ =>
                notify (DownloadDone (path_join base_path filename)))))))
               (fun e => notify (DownloadFailed e))
               (mkApp w (ns ++ [DownloadStarted filename]))
             = ui_try
               (ui_bind (run (exists_ (path_join base_path filename))) (fun present =>
                ui_bind (if present
                         then notify (OverwriteWarning (path_join base_path filename))
                         else ui_ret tt) (fun _ =>
                ui_bind
                  (if String.eqb file_format "csv"
                   then run (to_file (path_join base_path filename)
                               (to_csv (_clean_bps_dataframe df)))
                   else if String.eqb file_format "xlsx"
                        then run (to_file (path_join base_path filename)
                                    (to_excel (_clean_bps_dataframe df)))
                   else if String.eqb file_format "json"
                        then run (to_file (path_join base_path filename)
                                    (to_json (_clean_bps_dataframe df)))
                   else ui_ret tt) (fun _ =>
                notify (DownloadDone (path_join base_path filename))))))
               (fun e => notify (DownloadFailed e))
               (mkApp w (ns ++ [DownloadStarted filename]))).
  { intros base_path. reflexivity. }
  unfold perform_dynamic_download.
  unfold ui_bind at 1. unfold notify at 1. cbn [world notifications]. cbv zeta.
  unfold ui_try at 1. unfold ui_bind at 1. unfold run at 1, get_config.
  cbn [world notifications].
  destruct (download_path (config w)) as [config_path|].
  - destruct (Str.truthy (Some config_path)).
    + unfold ui_bind at 1. unfold ui_bind at 1. unfold run at 1, is_dir.
      cbn [world notifications].
      destruct (fs w !! config_path) as [[tm tx|tm]|]; unfold ui_ret at 1;
        [exact (Hgo cwd) | exact (Hgo config_path) | exact (Hgo cwd)].
    + unfold ui_bind at 1. unfold ui_ret at 1. exact (Hgo cwd).
  - unfold ui_bind at 1. unfold ui_ret at 1. exact (Hgo cwd).
Qed.

(** X26. The download of a built table overwrites.  In one of the formats
    csv, xlsx and json whose writer renders the table, and with a
    destination that can be opened for writing (a regular file, or a name
    that is free in a directory that is there), the normalized table is
    written to the destination, no other regular file changes, nothing is
    raised, and the user is told of the start, warned when the destination
    existed, and told of the end. *)
Theorem perform_dynamic_download_overwrites (df : DataFrame)
    (filename file_format content : string) (app : App) :
  written file_format (_clean_bps_dataframe df) = Some (Rendered content) ->
  writable (fs (world app)) (destination (world app) filename) ->
  fst (perform_dynamic_download df filename file_format app) = Ok tt
  /\ fs (world (snd (perform_dynamic_download df filename file_format app)))
     !! destination (world app) filename
     = Some (File (clock (world app)) content)
  /\ same_files_but (destination (world app) filename) (fs (world app))
       (fs (world (snd (perform_dynamic_download df filename file_format app))))
  /\ notifications (snd (perform_dynamic_download df filename file_format app))
     = notifications app
       ++ DownloadStarted filename
          :: (if bool_decide (is_Some (fs (world app) !! destination (world app) filename))
              then [OverwriteWarning (destination (world app) filename)] else [])
       ++ [DownloadDone (destination (world app) filename)].
Proof.
  intros Hwritten Hopen. rewrite perform_dynamic_download_run, Hwritten.
  destruct (to_file_rendered (destination (world app) filename) content (world app) Hopen)
    as (Hres & Hfile & Hfiles & _).
  destruct (to_file (destination (world app) filename) (Rendered content) (world app))
    as [[[]|e] w2]; cbn [fst snd world notifications] in *; [| discriminate].
  auto.
Qed.

(** X29. The download of a built table never raises: what goes wrong is
    told to the user.  With a destination that cannot be opened for writing
    (a directory, or a name in a directory that is missing) the last
    notification is the failure with the [OSError] of the writer, and with a
    writer that refuses the table before it opens the destination the
    failure with its exception; in both cases the files are as they were and
    no success is announced. *)
Theorem perform_dynamic_download_reports_failure (df : DataFrame)
    (filename file_format : string) (rendering : Rendering) (app : App) :
  written file_format (_clean_bps_dataframe df) = Some rendering ->
  fst (perform_dynamic_download df filename file_format app) = Ok tt
  /\ (~ writable (fs (world app)) (destination (world app) filename) ->
      (forall e, rendering <> Broken e None) ->
      fs (world (snd (perform_dynamic_download df filename file_format app)))
      = fs (world app)
      /\ notifications (snd (perform_dynamic_download df filename file_format app))
         = notifications app
           ++ DownloadStarted filename
              :: (if bool_decide
                       (is_Some (fs (world app) !! destination (world app) filename))
                  then [OverwriteWarning (destination (world app) filename)] else [])
           ++ [DownloadFailed OSError])
  /\ (forall e,
        rendering = Broken e None ->
        world (snd (perform_dynamic_download df filename file_format app)) = world app
        /\ notifications (snd (perform_dynamic_download df filename file_format app))
           = notifications app
             ++ DownloadStarted filename
                :: (if bool_decide
                         (is_Some (fs (world app) !! destination (world app) filename))
                    then [OverwriteWarning (destination (world app) filename)] else [])
             ++ [DownloadFailed e]).
Proof.
  intros Hwritten. rewrite perform_dynamic_download_run, Hwritten.
  split; [reflexivity |]. split.
  - intros Hshut Hopens. rewrite (to_file_refused _ _ _ Hshut Hopens).
    cbn [snd world notifications fs log]. split; reflexivity.
  - intros e ->. cbn [to_file raise snd world notifications]. split; reflexivity.
Qed.

(** X27. With a format that is none of the three, the download of a built
    table writes nothing and raises nothing, and yet it ends with the
    notification that the file was saved. *)
Theorem perform_dynamic_download_unknown_format (df : DataFrame)
    (filename file_format : string) (app : App) :
  file_format <> "csv"%string -> file_format <> "xlsx"%string ->
  file_format <> "json"%string ->
  fst (perform_dynamic_download df filename file_format app) = Ok tt
  /\ world (snd (perform_dynamic_download df filename file_format app)) = world app
  /\ exists earlier,
       notifications (snd (perform_dynamic_download df filename file_format app))
       = earlier ++ [DownloadDone (destination (world app) filename)].
Proof.
  intros Hcsv Hxlsx Hjson. rewrite perform_dynamic_download_run.
  unfold written. apply String.eqb_neq in Hcsv, Hxlsx, Hjson. rewrite Hcsv, Hxlsx, Hjson.
  cbn [fst snd world notifications]. split; [reflexivity |]. split; [reflexivity |].
  eexists. rewrite app_comm_cons, app_assoc. reflexivity.
Qed.

End ScreenFacts.

Section ScreenRuns.
Import ApiClient Sys Spec Screen.

(** A home that holds a [table.csv]: it is overwritten, with a warning. *)
Lemma perform_dynamic_download_overwrites_witness :
  fs (world (snd (perform_dynamic_download (lib := Demo.lib) Demo.domains "table.csv" "csv"
                    (mkApp (Demo.with_export 5) []))))
  !! "/home/user/table.csv"
  = Some (File 5 "csv:domain_id,domain_name:2")
  /\ notifications (snd (perform_dynamic_download (lib := Demo.lib) Demo.domains "table.csv"
                           "csv" (mkApp (Demo.with_export 5) [])))
     = [DownloadStarted "table.csv"; OverwriteWarning "/home/user/table.csv";
        DownloadDone "/home/user/table.csv"].
Proof.
  destruct (perform_dynamic_download_overwrites (lib := Demo.lib) Demo.domains "table.csv"
              "csv" "csv:domain_id,domain_name:2" (mkApp (Demo.with_export 5) []) eq_refl)
    as (_ & Hfile & _ & Hnotes).
  - left. exists 0, "old bytes"%string. vm_compute. reflexivity.
  - split; [exact Hfile |]. rewrite Hnotes. vm_compute. reflexivity.
Defined.

(** A home in which [table.csv] is a directory: the user is warned, and
    then told of the failure; no success is announced. *)
Lemma perform_dynamic_download_reports_failure_witness :
  notifications (snd (perform_dynamic_download (lib := Demo.lib) Demo.domains "table.csv"
                        "csv" (mkApp (Cases.taken 5) [])))
  = [DownloadStarted "table.csv"; OverwriteWarning "/home/user/table.csv";
     DownloadFailed OSError]
  /\ notifications (snd (perform_dynamic_download (lib := Demo.lib) Cases.twins "table.json"
                           "json" (mkApp (Cases.at_home 5) [])))
     = [DownloadStarted "table.json";
        DownloadFailed
          (ValueError "DataFrame columns must be unique for orient='records'.")].
Proof.
  split.
  - destruct (perform_dynamic_download_reports_failure (lib := Demo.lib) Demo.domains
                "table.csv" "csv" (Rendered "csv:domain_id,domain_name:2")
                (mkApp (Cases.taken 5) []) eq_refl)
      as (_ & Hshut & _).
    destruct Hshut as (_ & Hnotes).
    + intros [(t & text & Hfile) | (Hnone & _)]; vm_compute in *; discriminate.
    + discriminate.
    + rewrite Hnotes. vm_compute. reflexivity.
  - destruct (perform_dynamic_download_reports_failure (lib := Demo.lib) Cases.twins
                "table.json" "json"
                (Broken (ValueError "DataFrame columns must be unique for orient='records'.")
                   None)
                (mkApp (Cases.at_home 5) []))
      as (_ & _ & Hrefused).
    + vm_compute. reflexivity.
    + destruct (Hrefused _ eq_refl) as (_ & Hnotes). rewrite Hnotes. vm_compute. reflexivity.
Defined.

Lemma perform_dynamic_download_unknown_format_witness :
  world (snd (perform_dynamic_download (lib := Demo.lib) Demo.domains "table.pdf" "pdf"
                (mkApp (Demo.with_export 5) [])))
  = Demo.with_export 5.
Proof.
  destruct (perform_dynamic_download_unknown_format (lib := Demo.lib) Demo.domains
              "table.pdf" "pdf" (mkApp (Demo.with_export 5) [])
              ltac:(discriminate) ltac:(discriminate) ltac:(discriminate))
    as (_ & Hworld & _).
  exact Hworld.
Defined.

End ScreenRuns.
